(** * BYAC staking portal: a shallow embedding of the dashboard glue code

    The repository is a React front end for a staking contract on Ronin.
    This development embeds the parts of it that carry logic of their own:

    - the unit conversions the dashboards rely on ([parseEther],
      [formatEther], which come from the viem package);
    - the contract read helpers ([getStakingStats], [getUserStats],
      [checkRole]) in their three revisions;
    - the retry helper of [utils/alchemy.ts] and the reads wrapped in it;
    - the handlers, amount fields and buttons of the staking and admin
      dashboards;
    - the deployment script.

    Asynchronous code is embedded as a tree of requests ([prog]); running a
    tree against an environment ([oracle]) yields the trace of everything
    the code did, in order. *)

From Stdlib Require Import ZArith QArith Qround Qabs List String Ascii Bool Lia.
From stdpp Require Import base gmap strings.
Import ListNotations.

#[local] Open Scope string_scope.
#[local] Open Scope list_scope.
#[local] Open Scope Z_scope.

(** ** JavaScript values *)

(** An error value, with the properties the handlers inspect. *)
Record revertInfo : Type := mkRevert {
  reason : option string;
  data : option string
}.

Record js_error : Type := mkError {
  isError : bool;                 (* [err instanceof Error] *)
  message : option string;
  shortMessage : option string;
  code : option Z;
  revert : option revertInfo
}.

(** [new Error(msg)] *)
Definition Error (msg : string) : js_error :=
  {| isError := true; message := Some msg; shortMessage := None;
     code := None; revert := None |}.

(** [TypeError], thrown by a property read on [undefined]. *)
Definition TypeError (msg : string) : js_error := Error msg.

(** A settled promise, or the completion of a block that may throw. *)
Inductive outcome (X : Type) : Type :=
| Resolved (x : X)
| Rejected (e : js_error).
Arguments Resolved {X} x.
Arguments Rejected {X} e.

Definition is_rejected {X} (o : outcome X) : bool :=
  match o with Rejected _ => true | Resolved _ => false end.

(** The values found in the objects the dashboards keep in their state. *)
Inductive jsval : Type :=
| VUndefined
| VBigInt (n : Z)
| VBool (b : bool)
| VString (s : string).

(** Truthiness, as used by [!x], [x && ...] and [x ? a : b]. *)
Definition truthy (v : jsval) : bool :=
  match v with
  | VUndefined => false
  | VBigInt n => negb (n =? 0)
  | VBool b => b
  | VString s => negb (String.eqb s "")
  end.

(** [x?.p] followed by a truthiness test: [undefined] is falsy. *)
Definition truthy_opt (v : option jsval) : bool :=
  match v with Some x => truthy x | None => false end.

Definition str_truthy (s : string) : bool := negb (String.eqb s "").

(** The numeric reading of a value in a comparison with a bigint; [None]
    where JavaScript compares with [NaN].  The objects kept by the
    dashboards hold bigints and booleans only. *)
Definition to_numeric (v : jsval) : option Z :=
  match v with
  | VBigInt n => Some n
  | VBool b => Some (if b then 1 else 0)
  | VUndefined | VString _ => None
  end.

(** [v <= n], [v < n] and [n > v] for a bigint [n]. *)
Definition js_le (v : jsval) (n : Z) : bool :=
  match to_numeric v with Some x => x <=? n | None => false end.
Definition js_lt (v : jsval) (n : Z) : bool :=
  match to_numeric v with Some x => x <? n | None => false end.

(** [a || b] on optional strings: the first truthy one. *)
Definition or_else (a : option string) (b : option string) : option string :=
  match a with
  | Some x => if str_truthy x then a else b
  | None => b
  end.

(** [s.includes(sub)] *)
Fixpoint includes (s sub : string) : bool :=
  String.prefix sub s
  || match s with String _ r => includes r sub | EmptyString => false end.

(** ** Characters and digit strings *)

Definition chars : Type := list ascii.

Definition is_digit (c : ascii) : bool :=
  ((48 <=? N_of_ascii c) && (N_of_ascii c <=? 57))%N.

Definition digit_val (c : ascii) : Z := Z.of_N (N_of_ascii c) - 48.

Definition digit_char (d : Z) : ascii := ascii_of_N (Z.to_N (d + 48)).

Definition all_digits (s : chars) : bool := forallb is_digit s.

(** [BigInt(s)] on a string of decimal digits ([BigInt("")] is [0n]). *)
Definition digits_value (s : chars) : Z :=
  fold_left (fun acc c => 10 * acc + digit_val c) s 0.

(** Decimal digits of a non-negative integer, most significant first. *)
Fixpoint digits_fuel (fuel : nat) (n : Z) (acc : chars) : chars :=
  match fuel with
  | O => acc
  | S f =>
      let acc' := digit_char (n mod 10) :: acc in
      if n / 10 =? 0 then acc' else digits_fuel f (n / 10) acc'
  end.

Definition nat_digits (n : Z) : chars :=
  digits_fuel (S (Z.to_nat (Z.log2 n))) n [].

(** [n.toString()] for a bigint. *)
Definition bigint_toString (n : Z) : chars :=
  if n <? 0 then "-"%char :: nat_digits (- n) else nat_digits n.

Definition str (s : chars) : string := string_of_list_ascii s.
Definition chr (s : string) : chars := list_ascii_of_string s.

Definition Z_toString (n : Z) : string := str (bigint_toString n).

(** [s.padStart(n, c)] and [s.padEnd(n, c)] with a one-character filler. *)
Definition padStart (n : nat) (c : ascii) (s : chars) : chars :=
  repeat c (n - length s) ++ s.

Definition padEnd (n : nat) (c : ascii) (s : chars) : chars :=
  s ++ repeat c (n - length s).

(** [s.slice(a, b)] and [s.slice(a)] for indices within range or beyond. *)
Definition slice (a b : nat) (s : chars) : chars := firstn (b - a) (skipn a s).
Definition slice_from (a : nat) (s : chars) : chars := skipn a s.

Fixpoint drop_zeros (s : chars) : chars :=
  match s with
  | c :: r => if Ascii.eqb c "0" then drop_zeros r else s
  | [] => []
  end.

(** [s.replace(/(0+)$/, '')] *)
Definition trim_trailing_zeros (s : chars) : chars := rev (drop_zeros (rev s)).

(** [s.split('.')]: the part before the first dot, and the rest after it
    when there is a dot. *)
Fixpoint split_dot (s : chars) : chars * option chars :=
  match s with
  | [] => ([], None)
  | c :: r =>
      if Ascii.eqb c "." then ([], Some r)
      else let '(i, f) := split_dot r in (c :: i, f)
  end.

Definition starts_with_minus (s : chars) : bool :=
  match s with c :: _ => Ascii.eqb c "-" | [] => false end.

(** ** JavaScript numbers

    Amounts are bigints, modelled exactly as [Z].  A few places go through
    IEEE doubles ([Number], [parseFloat], [Math.round], [toFixed]).  Their
    arithmetic is kept behind an interface; every result below holds for any
    implementation of it.  [exactNumber] implements it with exact rationals
    and serves to run the definitions. *)
Class JsNumber : Type := {
  num : Type;
  Number_ : string -> num;        (* [Number(s)] *)
  parseFloat : string -> num;
  isNaN : num -> bool;
  of_int : Z -> num;              (* an integer literal, [Number(n)] *)
  num_mul : num -> num -> num;
  num_div : num -> num -> num;
  num_eqb : num -> num -> bool;   (* [===] on two numbers *)
  num_gtb : num -> num -> bool;
  num_ltb : num -> num -> bool;
  num_leb : num -> num -> bool;
  Math_round : num -> num;
  num_toString : num -> string;   (* [`${x}`] *)
  toFixed : num -> nat -> string
}.

(** An exact-rational implementation: [None] stands for [NaN].  It covers
    plain decimal literals (no exponent, no infinities), which is all the
    dashboards feed to these functions. *)
Module ExactNumber.

Definition pow10 (n : nat) : positive := Z.to_pos (10 ^ Z.of_nat n).

(** Value of [iii.fff] given its two digit strings. *)
Definition decimal (i f : chars) : Q :=
  Qmake (digits_value i * Zpos (pow10 (length f)) + digits_value f)
        (pow10 (length f)).

Definition signed (neg : bool) (q : Q) : Q := if neg then Qopp q else q.

Definition number (s : string) : option Q :=
  let v := chr s in
  let neg := starts_with_minus v in
  let body := if neg then tl v else v in
  let '(i, f) := split_dot body in
  let f' := match f with Some f => f | None => [] end in
  if negb (all_digits i && all_digits f') then None
  else if (length i + length f' =? 0)%nat
       then (if (length v =? 0)%nat then Some 0%Q else None)
       else Some (signed neg (decimal i f')).

Fixpoint take_digits (s : chars) : chars * chars :=
  match s with
  | c :: r =>
      if is_digit c then let '(d, rest) := take_digits r in (c :: d, rest)
      else ([], s)
  | [] => ([], [])
  end.

(** [parseFloat] reads the longest numeric prefix. *)
Definition parse_float (s : string) : option Q :=
  let v := chr s in
  let neg := starts_with_minus v in
  let body := if neg then tl v else v in
  let '(i, rest) := take_digits body in
  let f := match rest with
           | c :: r => if Ascii.eqb c "." then fst (take_digits r) else []
           | [] => []
           end in
  if (length i + length f =? 0)%nat then None
  else Some (signed neg (decimal i f)).

Definition lift2 (f : Q -> Q -> Q) (a b : option Q) : option Q :=
  match a, b with Some x, Some y => Some (f x y) | _, _ => None end.

Definition cmp (f : Q -> Q -> bool) (a b : option Q) : bool :=
  match a, b with Some x, Some y => f x y | _, _ => false end.

Definition qdiv (a b : option Q) : option Q :=
  match a, b with
  | Some x, Some y => if Qeq_bool y 0 then None else Some (Qdiv x y)
  | _, _ => None
  end.

Definition qltb (x y : Q) : bool := negb (Qle_bool y x).

(** [Math.round]: the nearest integer, halves upwards. *)
Definition round (q : Q) : Z := Qfloor (Qplus q (1 # 2)).

Definition to_fixed (x : option Q) (d : nat) : string :=
  match x with
  | None => "NaN"
  | Some q =>
      let scaled := round (Qmult (Qabs q) (Zpos (pow10 d) # 1)) in
      let ds := padStart (S d) "0" (nat_digits scaled) in
      let i := firstn (length ds - d) ds in
      let f := skipn (length ds - d) ds in
      let neg := qltb q 0 && negb (scaled =? 0) in
      str ((if neg then ["-"%char] else []) ++ i
           ++ (if (d =? 0)%nat then [] else "."%char :: f))
  end.

Definition to_string (x : option Q) : string :=
  match x with
  | None => "NaN"
  | Some q =>
      if Qeq_bool q (Qfloor q # 1) then Z_toString (Qfloor q)
      else to_fixed x 6
  end.

End ExactNumber.

#[export] Instance exactNumber : JsNumber := {|
  num := option Q;
  Number_ := ExactNumber.number;
  parseFloat := ExactNumber.parse_float;
  isNaN := fun x => match x with None => true | Some _ => false end;
  of_int := fun z => Some (z # 1);
  num_mul := ExactNumber.lift2 Qmult;
  num_div := ExactNumber.qdiv;
  num_eqb := ExactNumber.cmp Qeq_bool;
  num_gtb := fun a b => ExactNumber.cmp ExactNumber.qltb b a;
  num_ltb := ExactNumber.cmp ExactNumber.qltb;
  num_leb := ExactNumber.cmp Qle_bool;
  Math_round := fun x =>
    match x with Some q => Some (ExactNumber.round q # 1) | None => None end;
  num_toString := ExactNumber.to_string;
  toFixed := ExactNumber.to_fixed
|}.

(** ** The unit conversions of viem

    [parseEther] and [formatEther] are [parseUnits] and [formatUnits] at 18
    decimals.  They are functions of the viem package, which the
    dashboards import; the definitions follow viem's
    [utils/unit/parseUnits.ts] and [utils/unit/formatUnits.ts]. *)
Module Viem.
Section WithNumber.
Context {N : JsNumber}.

Definition InvalidDecimalNumberError (value : string) : js_error :=
  Error (String.append "Number `"
           (String.append value "` is not a valid decimal number.")).

Definition SyntaxError : js_error := Error "Cannot convert - to a BigInt".

(** The format test: an optional minus sign, digits, an optional dot,
    digits, and nothing else. *)
Definition valid_decimal (v : chars) : bool :=
  let body := if starts_with_minus v then tl v else v in
  let '(i, f) := split_dot body in
  all_digits i && match f with Some f => all_digits f | None => true end.

Definition decimals_zero (integer fraction : chars) : chars * chars :=
  (if num_eqb (Math_round (Number_ (str ("."%char :: fraction)))) (of_int 1)
   then bigint_toString (digits_value integer + 1)
   else integer,
   []).

(** The branch for a fraction longer than [decimals]. *)
Definition round_off (decimals : nat) (integer fraction : chars)
  : chars * chars :=
  let left := slice 0 (decimals - 1) fraction in
  let unit := slice (decimals - 1) decimals fraction in
  let right := slice_from decimals fraction in
  let rounded := Math_round (Number_ (str (unit ++ "."%char :: right))) in
  let fraction1 :=
    if num_gtb rounded (of_int 9)
    then padStart (length left + 1) "0"
           (bigint_toString (digits_value left + 1) ++ ["0"%char])
    else left ++ chr (num_toString rounded) in
  let '(integer1, fraction2) :=
    if (decimals <? length fraction1)%nat
    then (bigint_toString (digits_value integer + 1), slice_from 1 fraction1)
    else (integer, fraction1) in
  (integer1, slice 0 decimals fraction2).

Definition parseUnits (value : string) (decimals : nat) : outcome Z :=
  let v := chr value in
  if negb (valid_decimal v) then Rejected (InvalidDecimalNumberError value)
  else
    let '(integer0, fraction0) := split_dot v in
    let fraction1 :=
      match fraction0 with Some f => f | None => ["0"%char] end in
    let negative := starts_with_minus integer0 in
    let integer1 := if negative then slice_from 1 integer0 else integer0 in
    let fraction2 := trim_trailing_zeros fraction1 in
    let '(integer2, fraction3) :=
      if (decimals =? 0)%nat then decimals_zero integer1 fraction2
      else if (decimals <? length fraction2)%nat
           then round_off decimals integer1 fraction2
           else (integer1, padEnd decimals "0" fraction2) in
    let digits := integer2 ++ fraction3 in
    if negative then
      match digits with
      | [] => Rejected SyntaxError
      | _ => Resolved (- digits_value digits)
      end
    else Resolved (digits_value digits).

Definition parseEther (ether : string) : outcome Z := parseUnits ether 18.

(** [formatUnits], from the decimal rendering of its argument on. *)
Definition formatUnits_display (display0 : chars) (decimals : nat) : chars :=
  let negative := starts_with_minus display0 in
  let display1 := if negative then slice_from 1 display0 else display0 in
  let display := padStart decimals "0" display1 in
  let integer := slice 0 (length display - decimals) display in
  let fraction0 := slice_from (length display - decimals) display in
  let fraction := trim_trailing_zeros fraction0 in
  (if negative then ["-"%char] else [])
  ++ (match integer with [] => ["0"%char] | _ => integer end)
  ++ (match fraction with [] => [] | _ => "."%char :: fraction end).

Definition formatUnits (value : Z) (decimals : nat) : string :=
  str (formatUnits_display (bigint_toString value) decimals).

Definition formatEther (wei : Z) : string := formatUnits wei 18.

End WithNumber.
End Viem.

(** ** Requests, actions and programs *)

(** A JavaScript object read by property name. *)
Abbreviation jsobj := (gmap string jsval).

Record ValidatorInfo : Type := mkValidatorInfo {
  vi_totalStake : Z;
  vi_commission : Z;
  vi_apr : Z;
  vi_uptime : Z;
  vi_lastSignedBlock : Z
}.

Record DelegatorInfo : Type := mkDelegatorInfo {
  di_delegator : string;
  di_stake : Z;
  di_joinedAt : Z
}.

(** The record [saveDeploymentConfig] serialises. *)
Record DeploymentConfig : Type := mkDeploymentConfig {
  dc_timestamp : string;
  dc_environment : string;
  dc_network : string;
  dc_deployer : string;
  dc_stakingPool : string;
  dc_braidsToken : string
}.

(** The receipt of a mined transaction.  viem's [waitForTransactionReceipt]
    resolves with the receipt whether the transaction succeeded or was
    reverted; it rejects when no receipt can be obtained. *)
Inductive ReceiptStatus : Type := status_success | status_reverted.

Record TransactionReceipt : Type := mkReceipt {
  status : ReceiptStatus
}.

(** What the code asks of the outside world and waits for.  Each request
    settles with a value or with an error. *)
Inductive request : Type :=
| GetChainId
| ReadUint256 (address functionName : string) (args : list jsval)
| ReadBool (address functionName : string) (args : list jsval)
| EstimateContractGas (address functionName : string) (args : list jsval)
    (account : option string)
| WriteContract (address functionName : string) (args : list jsval)
    (gas : option Z)
| WaitForTransactionReceipt (hash : string)
| ReadValidatorInfo (address : string) (validator : string)
| ReadDelegators (address : string) (validator : string)
| AlchemyGetTokenBalance (address tokenAddress : string)
| GetAddress (address : string)            (* viem's checksum conversion *)
| NewWallet (privateKey : string)
| FactoryDeploy (token deployer : string) (gasPriceGwei : string)
    (gasLimit : Z)
| WaitForDeployment
| ContractGetAddress
| DateNowISO
| ProcessCwd
| ExistsSync (path : string)
| MkdirSync (path : string)
| WriteFileSync (path : string) (content : DeploymentConfig).

Definition resp (r : request) : Type :=
  match r with
  | GetChainId => Z
  | ReadUint256 _ _ _ => Z
  | ReadBool _ _ _ => bool
  | EstimateContractGas _ _ _ _ => Z
  | WriteContract _ _ _ _ => string
  | WaitForTransactionReceipt _ => TransactionReceipt
  | ReadValidatorInfo _ _ => ValidatorInfo
  | ReadDelegators _ _ => list DelegatorInfo
  | AlchemyGetTokenBalance _ _ => Z
  | GetAddress _ => string
  | NewWallet _ => unit
  | FactoryDeploy _ _ _ _ => unit
  | WaitForDeployment => unit
  | ContractGetAddress => string
  | DateNowISO => string
  | ProcessCwd => string
  | ExistsSync _ => bool
  | MkdirSync _ => unit
  | WriteFileSync _ _ => unit
  end.

(** ["idle" | "preparing" | "pending" | "success" | "error"] *)
Inductive TransactionStatus : Type :=
| idle | preparing | pending | success | error_status.

Record Roles : Type := mkRoles {
  isAdmin : bool;
  isMaintainer : bool;
  isDepositor : bool
}.

Record StakingStats : Type := mkStakingStats {
  totalStaked : Z;
  rewardRate : Z;
  rewardForDuration : Z;
  isPaused : bool
}.

Record UserStats : Type := mkUserStats {
  stakedAmount : Z;
  earnedRewards : Z;
  stakingPoints : Z;
  stakingTime : Z
}.

(** The React state setters of the two dashboards. *)
Inductive setter : Type :=
| setStakingStats (v : option jsobj)
| setUserStats (v : option jsobj)
| setStakeAmount (v : string)
| setUnstakeAmount (v : string)
| setError (v : option string)
| setTransactionInProgress (v : bool)
| setIsLoading (v : bool)
| setLoading (v : bool)
| setAdminStakingStats (v : option StakingStats)
| setRoles (v : Roles)
| setRewardAmount (v : string)
| setDepositAmount (v : string)
| setRewardTxStatus (v : TransactionStatus)
| setPauseTxStatus (v : TransactionStatus)
| setDepositTxStatus (v : TransactionStatus)
| setRewardTxHash (v : option string)
| setPauseTxHash (v : option string)
| setDepositTxHash (v : option string)
| setRewardInputError (v : option string)
| setDepositInputError (v : option string).

(** What the code does without waiting for an answer. *)
Inductive action : Type :=
| ConsoleLog (msg : string)
| ConsoleWarn (msg : string)
| ConsoleError (msg : string) (e : option js_error)
| SetTimeout (ms : Z)         (* [await new Promise(r => setTimeout(r, ms))] *)
| NewJsonRpcProvider (url : string)
| SetState (u : setter).

(** A program: what an [async] function does, up to the answers it gets. *)
Inductive prog (A : Type) : Type :=
| Ret (a : A)
| Exit (code : Z)                                   (* [process.exit] *)
| Act (a : action) (k : prog A)
| Call (r : request) (k : outcome (resp r) -> prog A).
Arguments Ret {A} a.
Arguments Exit {A} code.
Arguments Act {A} a k.
Arguments Call {A} r k.

Fixpoint bind {A B} (p : prog A) (f : A -> prog B) : prog B :=
  match p with
  | Ret a => f a
  | Exit c => Exit c
  | Act a k => Act a (bind k f)
  | Call r k => Call r (fun o => bind (k o) f)
  end.

Declare Scope prog_scope.
Delimit Scope prog_scope with prog.
Bind Scope prog_scope with prog.
#[local] Open Scope prog_scope.

Notation "x <- p ;; q" := (bind p (fun x => q))
  (at level 100, p at next level, q at level 200, right associativity)
  : prog_scope.
Notation "p ;; q" := (bind p (fun _ => q))
  (at level 100, q at level 200, right associativity) : prog_scope.

Definition act (a : action) : prog unit := Act a (Ret tt).
Definition set (u : setter) : prog unit := act (SetState u).

(** A block that may throw is a program ending in an [outcome]. *)
Definition throw {A} (e : js_error) : prog (outcome A) := Ret (Rejected e).
Definition ok {A} (a : A) : prog (outcome A) := Ret (Resolved a).

(** [await] of a request: a rejection is thrown where the [await] stands. *)
Definition await (r : request) : prog (outcome (resp r)) := Call r Ret.

Definition bindO {A B} (p : prog (outcome A)) (f : A -> prog (outcome B))
  : prog (outcome B) :=
  o <- p ;; match o with Resolved a => f a | Rejected e => throw e end.

Notation "x <-! p ;; q" := (bindO p (fun x => q))
  (at level 100, p at next level, q at level 200, right associativity)
  : prog_scope.

(** [try { body } catch (e) { handler }] *)
Definition try_catch {A} (body : prog (outcome A))
    (handler : js_error -> prog (outcome A)) : prog (outcome A) :=
  o <- body ;; match o with Resolved a => ok a | Rejected e => handler e end.

(** [try { body } finally { fin }] *)
Definition try_finally {A} (body : prog (outcome A)) (fin : prog unit)
  : prog (outcome A) :=
  o <- body ;; fin ;; Ret o.

(** [Promise.all].  The operations are started in the order of the array
    and each runs to its end; the embedding lists the events of one
    operation after those of the other.  The result rejects when one of
    them does. *)
Definition Promise_all2 {A B} (p : prog (outcome A)) (q : prog (outcome B))
  : prog (outcome (A * B)) :=
  a <- p ;; b <- q ;;
  Ret (match a, b with
       | Resolved x, Resolved y => Resolved (x, y)
       | Rejected e, _ => Rejected e
       | _, Rejected e => Rejected e
       end).

Definition Promise_all3 {A B C} (p : prog (outcome A)) (q : prog (outcome B))
    (r : prog (outcome C)) : prog (outcome (A * B * C)) :=
  Promise_all2 (Promise_all2 p q) r.

Definition Promise_all4 {A B C D} (p : prog (outcome A))
    (q : prog (outcome B)) (r : prog (outcome C)) (s : prog (outcome D))
  : prog (outcome (A * B * C * D)) :=
  Promise_all2 (Promise_all3 p q r) s.

(** ** Running a program *)

Inductive event : Type :=
| EvAct (a : action)
| EvCall (r : request) (o : outcome (resp r)).

Abbreviation trace := (list event).

(** The outside world: the answer to a request, given all that happened
    before it. *)
Definition oracle : Type := forall (h : trace) (r : request), outcome (resp r).

Inductive final (A : Type) : Type :=
| Done (a : A)
| Exited (code : Z).
Arguments Done {A} a.
Arguments Exited {A} code.

Fixpoint run {A} (w : oracle) (p : prog A) (h : trace) : trace * final A :=
  match p with
  | Ret a => (h, Done a)
  | Exit c => (h, Exited c)
  | Act a k => run w k (h ++ [EvAct a])
  | Call r k => run w (k (w h r)) (h ++ [EvCall r (w h r)])
  end.

Definition trace_of {A} (w : oracle) (p : prog A) : trace := fst (run w p []).
Definition result_of {A} (w : oracle) (p : prog A) : final A :=
  snd (run w p []).

(** Observations on traces. *)
Definition is_write (e : event) : bool :=
  match e with EvCall (WriteContract _ _ _ _) _ => true | _ => false end.

Definition is_write_of (fn : string) (e : event) : bool :=
  match e with
  | EvCall (WriteContract _ f _ _) _ => String.eqb f fn
  | _ => false
  end.

Definition is_call (e : event) : bool :=
  match e with EvCall _ _ => true | EvAct _ => false end.

Definition no_write (t : trace) : bool := forallb (fun e => negb (is_write e)) t.
Definition no_call (t : trace) : bool := forallb (fun e => negb (is_call e)) t.

(** ** contracts/StakingContract.ts, lines 1-227

    The file holds the module twice; the second copy (from line 227 on)
    differs in the contract address and in two role identifiers only. *)
Module StakingContract.

Definition STAKING_CONTRACT_ADDRESS : string :=
  "0x3B7C0285284949C08e468C92D4724cb4Bd619Ada".

Inductive role : Type := ADMIN | MAINTAINER | DEPOSITOR.

Definition ROLES (r : role) : string :=
  match r with
  | ADMIN =>
      "0x0000000000000000000000000000000000000000000000000000000000000000"
  | MAINTAINER =>
      "0x5d7a4c6a9aeaa9884a9d7b49fddaa143a7a193e06b15b7e36ef36d8d5008d313"
  | DEPOSITOR =>
      "0x5e6a1cfbca0f5480af5d1fc1b7a145f773c987b7b8a0e7a7a8c21c9a9c6d8d0e"
  end.

Definition role_name (r : role) : string :=
  match r with
  | ADMIN => "ADMIN" | MAINTAINER => "MAINTAINER" | DEPOSITOR => "DEPOSITOR"
  end.

Definition read_uint (fn : string) (args : list jsval) : prog (outcome Z) :=
  await (ReadUint256 STAKING_CONTRACT_ADDRESS fn args).

Definition read_bool (fn : string) (args : list jsval)
  : prog (outcome bool) :=
  await (ReadBool STAKING_CONTRACT_ADDRESS fn args).

Definition defaultStakingStats : StakingStats :=
  {| totalStaked := 0; rewardRate := 0; rewardForDuration := 0;
     isPaused := false |}.

Definition defaultUserStats : UserStats :=
  {| stakedAmount := 0; earnedRewards := 0; stakingPoints := 0;
     stakingTime := 0 |}.

Definition getStakingStats : prog (outcome StakingStats) :=
  try_catch
    (r <-! Promise_all3 (read_uint "totalSupply" [])
                        (read_uint "rewardRate" [])
                        (read_bool "paused" []) ;;
     let '(totalStaked, rewardRate, isPaused) := r in
     ok {| totalStaked := totalStaked;
           rewardRate := rewardRate;
           rewardForDuration := rewardRate * 604800;
           isPaused := isPaused |})
    (fun error =>
       act (ConsoleError "Error fetching staking stats:" (Some error)) ;;
       ok defaultStakingStats).

Definition getUserStats (address : string) : prog (outcome UserStats) :=
  try_catch
    (r <-! Promise_all4 (read_uint "balanceOf" [VString address])
                        (read_uint "earned" [VString address])
                        (read_uint "userPoints" [VString address])
                        (read_uint "stakingTime" [VString address]) ;;
     let '(stakedAmount, earnedRewards, stakingPoints, stakingTime) := r in
     ok {| stakedAmount := stakedAmount;
           earnedRewards := earnedRewards;
           stakingPoints := stakingPoints;
           stakingTime := stakingTime |})
    (fun error =>
       act (ConsoleError "Error fetching user stats:" (Some error)) ;;
       ok defaultUserStats).

(** [checkRole] returns the promise of the read from inside its [try]
    block without awaiting it.  The block is left with that promise as
    its value, the [catch] clause only sees what is thrown while the
    request is being built, and the caller receives the promise as it
    settles. *)
Definition checkRole (address : string) (role : role)
  : prog (outcome bool) :=
  promise <-
    try_catch
      (ok (read_bool "hasRole" [VString (ROLES role); VString address]))
      (fun error =>
         act (ConsoleError
                (String.append "Error checking role "
                   (String.append (role_name role) ":")) (Some error)) ;;
         ok (ok false)) ;;
  match promise with
  | Resolved p => p
  | Rejected e => throw e
  end.

End StakingContract.

(** ** The revision of the contract module built on [safeRead] *)
Module StakingContractSafeRead.

Import StakingContract (role, ROLES, role_name).

Definition STAKING_CONTRACT_ADDRESS : string :=
  "0x7262035c2f5c2032e5247e6dd095fc02c889d5d6".

Definition safeRead {A} (fn : prog (outcome A)) (fallback : A)
  : prog (outcome A) :=
  try_catch fn
    (fun error =>
       (if isError error
           && match message error with
              | Some m => includes m "Wallet connection failed"
              | None => false
              end
        then act (ConsoleWarn
               "Wallet connection failed during contract read, returning fallback value.")
        else act (ConsoleError "Contract read error:" (Some error))) ;;
       ok fallback).

Definition read_uint (fn : string) (args : list jsval) : prog (outcome Z) :=
  await (ReadUint256 STAKING_CONTRACT_ADDRESS fn args).

Definition read_bool (fn : string) (args : list jsval)
  : prog (outcome bool) :=
  await (ReadBool STAKING_CONTRACT_ADDRESS fn args).

Definition getStakingStats : prog (outcome StakingStats) :=
  totalStaked <-! safeRead (read_uint "totalSupply" []) 0 ;;
  rewardRate <-! safeRead (read_uint "rewardRate" []) 0 ;;
  isPaused <-! safeRead (read_bool "paused" []) false ;;
  ok {| totalStaked := totalStaked;
        rewardRate := rewardRate;
        rewardForDuration := rewardRate * 604800;
        isPaused := isPaused |}.

Definition getUserStats (address : string) : prog (outcome UserStats) :=
  stakedAmount <-! safeRead (read_uint "balanceOf" [VString address]) 0 ;;
  earnedRewards <-! safeRead (read_uint "earned" [VString address]) 0 ;;
  stakingPoints <-! safeRead (read_uint "userPoints" [VString address]) 0 ;;
  stakingTime <-! safeRead (read_uint "stakingTime" [VString address]) 0 ;;
  ok {| stakedAmount := stakedAmount;
        earnedRewards := earnedRewards;
        stakingPoints := stakingPoints;
        stakingTime := stakingTime |}.

Definition checkRole (address : string) (role : role)
  : prog (outcome bool) :=
  safeRead (read_bool "hasRole" [VString (ROLES role); VString address])
           false.

End StakingContractSafeRead.

(** The contract module as the dashboards import it. *)
Class ContractModule : Type := {
  STAKING_CONTRACT_ADDRESS : string;
  getStakingStats : prog (outcome StakingStats);
  getUserStats : string -> prog (outcome UserStats);
  checkRole : string -> StakingContract.role -> prog (outcome bool)
}.

Definition contractModule : ContractModule := {|
  STAKING_CONTRACT_ADDRESS := StakingContract.STAKING_CONTRACT_ADDRESS;
  getStakingStats := StakingContract.getStakingStats;
  getUserStats := StakingContract.getUserStats;
  checkRole := StakingContract.checkRole
|}.

Definition contractModuleSafeRead : ContractModule := {|
  STAKING_CONTRACT_ADDRESS := StakingContractSafeRead.STAKING_CONTRACT_ADDRESS;
  getStakingStats := StakingContractSafeRead.getStakingStats;
  getUserStats := StakingContractSafeRead.getUserStats;
  checkRole := StakingContractSafeRead.checkRole
|}.

(** ** The revision of the contract module that rethrows

    [getStakingStats] and [getUserStats] log the error of a failed read and
    throw an error of their own; [checkRole] awaits the read inside its
    [try] block. *)
Module StakingContractThrowing.

Import StakingContract (role, ROLES, role_name).

Definition STAKING_CONTRACT_ADDRESS : string :=
  "0x7262035c2f5c2032e5247e6dd095fc02c889d5d6".

Definition read_uint (fn : string) (args : list jsval) : prog (outcome Z) :=
  await (ReadUint256 STAKING_CONTRACT_ADDRESS fn args).

Definition read_bool (fn : string) (args : list jsval)
  : prog (outcome bool) :=
  await (ReadBool STAKING_CONTRACT_ADDRESS fn args).

Definition getStakingStats : prog (outcome StakingStats) :=
  try_catch
    (r <-! Promise_all3 (read_uint "totalSupply" [])
                        (read_uint "rewardRate" [])
                        (read_bool "paused" []) ;;
     let '(totalStaked, rewardRate, isPaused) := r in
     ok {| totalStaked := totalStaked;
           rewardRate := rewardRate;
           rewardForDuration := rewardRate * 604800;
           isPaused := isPaused |})
    (fun error =>
       act (ConsoleError "Error in getStakingStats:" (Some error)) ;;
       throw (Error "Failed to fetch staking stats")).

Definition getUserStats (address : string) : prog (outcome UserStats) :=
  try_catch
    (r <-! Promise_all4 (read_uint "balanceOf" [VString address])
                        (read_uint "earned" [VString address])
                        (read_uint "userPoints" [VString address])
                        (read_uint "stakingTime" [VString address]) ;;
     let '(stakedAmount, earnedRewards, stakingPoints, stakingTime) := r in
     ok {| stakedAmount := stakedAmount;
           earnedRewards := earnedRewards;
           stakingPoints := stakingPoints;
           stakingTime := stakingTime |})
    (fun error =>
       act (ConsoleError "Error fetching user stats:" (Some error)) ;;
       throw (Error "Failed to fetch user stats")).

Definition checkRole (address : string) (role : role)
  : prog (outcome bool) :=
  try_catch
    (read_bool "hasRole" [VString (ROLES role); VString address])
    (fun error =>
       act (ConsoleError
              (String.append "Role check failed for "
                 (String.append (role_name role) ":")) (Some error)) ;;
       ok false).

End StakingContractThrowing.

Definition contractModuleThrowing : ContractModule := {|
  STAKING_CONTRACT_ADDRESS := StakingContractThrowing.STAKING_CONTRACT_ADDRESS;
  getStakingStats := StakingContractThrowing.getStakingStats;
  getUserStats := StakingContractThrowing.getUserStats;
  checkRole := StakingContractThrowing.checkRole
|}.

(** ** utils/alchemy.ts *)
Module Alchemy.
Section WithNumber.
Context {N : JsNumber}.

Definition VALIDATOR_ADDRESS : string :=
  "0xedcafc4ad8097c2012980a2a7087d74b86bddaf9".
Definition BRAIDS_TOKEN_ADDRESS : string :=
  "0xD144A6466aA76Cc3A892Fda9602372dd884a2C90".

(** The [for] loop of [retryOperation], from index [i] on, with
    [iterations] rounds left.  Leaving the loop yields [undefined]. *)
Fixpoint retry_loop {A} (operation : prog (outcome A)) (maxRetries i : Z)
    (iterations : nat) : prog (outcome (option A)) :=
  match iterations with
  | O => ok None
  | S n =>
      try_catch
        (a <-! operation ;; ok (Some a))
        (fun error =>
           act (ConsoleError
                  (String.append "Attempt "
                     (String.append (Z_toString (i + 1)) " failed:"))
                  (Some error)) ;;
           if i =? maxRetries - 1 then throw error
           else act (SetTimeout (1000 * (i + 1))) ;;
                retry_loop operation maxRetries (i + 1) n)
  end.

Definition retryOperation {A} (operation : prog (outcome A))
    (maxRetries : Z) : prog (outcome (option A)) :=
  retry_loop operation maxRetries 0 (Z.to_nat maxRetries).

(** The default of the parameter [maxRetries]. *)
Definition maxRetries_default : Z := 3.




Definition undefined_read (p : string) : js_error :=
  TypeError (String.append
    "Cannot read properties of undefined (reading '" (String.append p "')")).


Definition getTokenBalance (address tokenAddress : string)
  : prog (outcome string) :=
  try_catch
    (formattedAddress <-! await (GetAddress address) ;;
     formattedTokenAddress <-! await (GetAddress tokenAddress) ;;
     balance <-! retryOperation
                   (await (AlchemyGetTokenBalance formattedAddress
                             formattedTokenAddress))
                   maxRetries_default ;;
     match balance with
     | Some b => ok (Z_toString b)
     | None => throw (undefined_read "toString")
     end)
    (fun error =>
       act (ConsoleError "Error fetching token balance:" (Some error)) ;;
       ok "0").

End WithNumber.
End Alchemy.

(** ** The deployment script *)
Module Deploy.

Definition requiredEnvVars : list string :=
  ["VITE_ALCHEMY_API_KEY"; "PRIVATE_KEY"; "DEPLOYER_ADDRESS";
   "BRAIDS_TOKEN_ADDRESS"].

Definition ESC : string := String (ascii_of_nat 27) EmptyString.

(** The four loggers: a coloured mark, then the message. *)
Definition mark (colour symbol msg : string) : string :=
  String.append ESC (String.append colour (String.append symbol
    (String.append ESC (String.append "[0m " msg)))).

Definition log_info (msg : string) : prog unit :=
  act (ConsoleLog (mark "[36m" "→" msg)).
Definition log_success (msg : string) : prog unit :=
  act (ConsoleLog (mark "[32m" "✓" msg)).
Definition log_error (msg : string) : prog unit :=
  act (ConsoleLog (mark "[31m" "✗" msg)).
Definition log_warning (msg : string) : prog unit :=
  act (ConsoleLog (mark "[33m" "!" msg)).

(** [process.env[name]] in a boolean position. *)
Definition env_set (env : gmap string string) (name : string) : bool :=
  match env !! name with Some v => str_truthy v | None => false end.

(** [process.env[name]] inside a template literal or as an argument. *)
Definition env_str (env : gmap string string) (name : string) : string :=
  match env !! name with Some v => v | None => "undefined" end.

Fixpoint forEach {A} (f : A -> prog unit) (l : list A) : prog unit :=
  match l with
  | [] => Ret tt
  | x :: r => f x ;; forEach f r
  end.

Definition validateEnvironment (env : gmap string string)
  : prog (outcome unit) :=
  log_info "Validating environment..." ;;
  let missingVars :=
    List.filter (fun varName => negb (env_set env varName)) requiredEnvVars in
  (if (0 <? length missingVars)%nat
   then log_error "Missing required environment variables:" ;;
        forEach (fun varName => log_error (String.append "  - " varName))
                missingVars ;;
        Exit 1
   else Ret tt) ;;
  match env !! "PRIVATE_KEY" with
  | None => throw (Alchemy.undefined_read "startsWith")
  | Some privateKey =>
      (if negb (String.prefix "0x" privateKey)
          || negb (String.length privateKey =? 66)%nat
       then log_error
              "Invalid PRIVATE_KEY format. Must be a 32-byte hex string with 0x prefix." ;;
            Exit 1
       else Ret tt) ;;
      log_success "Environment validation passed" ;;
      ok tt
  end.

(** [path.join] of two segments. *)
Definition join (a b : string) : string :=
  String.append a (String.append "/" b).

Definition saveDeploymentConfig (config : DeploymentConfig)
  : prog (outcome unit) :=
  cwd <-! await ProcessCwd ;;
  let deploymentDir := join cwd "deployment" in
  let configPath := join deploymentDir "deployment.json" in
  present <-! await (ExistsSync deploymentDir) ;;
  _ <-! (if negb present then await (MkdirSync deploymentDir) else ok tt) ;;
  _ <-! await (WriteFileSync configPath config) ;;
  log_success
    (String.append "Deployment configuration saved to " configPath) ;;
  ok tt.

Definition RPC_URL : string := "https://api.roninchain.com/rpc".

Definition deploy (env : gmap string string) : prog (outcome unit) :=
  try_catch
    (_ <-! validateEnvironment env ;;
     act (NewJsonRpcProvider RPC_URL) ;;
     _ <-! await (NewWallet (env_str env "PRIVATE_KEY")) ;;
     log_info "Deploying StakingPool contract..." ;;
     _ <-! await (FactoryDeploy (env_str env "BRAIDS_TOKEN_ADDRESS")
                    (env_str env "DEPLOYER_ADDRESS") "20" 5000000) ;;
     _ <-! await WaitForDeployment ;;
     contractAddress <-! await ContractGetAddress ;;
     log_success (String.append "StakingPool deployed to: " contractAddress) ;;
     timestamp <-! await DateNowISO ;;
     _ <-! saveDeploymentConfig
             {| dc_timestamp := timestamp;
                dc_environment := "production";
                dc_network := "ronin";
                dc_deployer := env_str env "DEPLOYER_ADDRESS";
                dc_stakingPool := contractAddress;
                dc_braidsToken := env_str env "BRAIDS_TOKEN_ADDRESS" |} ;;
     log_success "Deployment completed successfully!" ;;
     log_info (String (ascii_of_nat 10) "Contract addresses:") ;;
     log_info (String.append "StakingPool: " contractAddress) ;;
     log_info (String.append "BRAIDS Token: "
                 (env_str env "BRAIDS_TOKEN_ADDRESS")) ;;
     ok tt)
    (fun error =>
       log_error "Deployment failed:" ;;
       log_error (match message error with
                  | Some m => m | None => "undefined" end) ;;
       Exit 1).

(** The last line of the script: [deploy().catch(console.error)]. *)
Definition main (env : gmap string string) : prog unit :=
  o <- deploy env ;;
  match o with
  | Resolved _ => Ret tt
  | Rejected e => act (ConsoleError "" (Some e))
  end.

(** What counts as reaching the network or the RPC provider. *)
Definition touches_network (e : event) : bool :=
  match e with
  | EvAct (NewJsonRpcProvider _) => true
  | EvCall (NewWallet _) _ => true
  | EvCall (FactoryDeploy _ _ _ _) _ => true
  | EvCall WaitForDeployment _ => true
  | EvCall ContractGetAddress _ => true
  | _ => false
  end.

End Deploy.

(** ** Objects stored in state typed [any] *)

(** The object literal returned by [getStakingStats]. *)
Definition StakingStats_object (s : StakingStats) : jsobj :=
  {[ "totalStaked" := VBigInt (totalStaked s);
     "rewardRate" := VBigInt (rewardRate s);
     "rewardForDuration" := VBigInt (rewardForDuration s);
     "isPaused" := VBool (isPaused s) ]}.

(** The object literal returned by [getUserStats]. *)
Definition UserStats_object (u : UserStats) : jsobj :=
  {[ "stakedAmount" := VBigInt (stakedAmount u);
     "earnedRewards" := VBigInt (earnedRewards u);
     "stakingPoints" := VBigInt (stakingPoints u);
     "stakingTime" := VBigInt (stakingTime u) ]}.

(** [o?.p]: the property [p] of an object that may be [null]. *)
Definition prop (o : option jsobj) (p : string) : option jsval :=
  match o with Some m => m !! p | None => None end.

(** [p.catch(() => null)] *)
Definition catch_null {A} (p : prog (outcome A)) : prog (outcome (option A)) :=
  o <- p ;;
  match o with
  | Resolved a => ok (Some a)
  | Rejected _ => ok None
  end.

(** [value.toString()] *)
Definition js_toString (v : jsval) : chars :=
  match v with
  | VUndefined => chr "undefined"
  | VBigInt n => bigint_toString n
  | VBool b => chr (if b then "true" else "false")
  | VString s => chr s
  end.

(** [formatEther] applied to a value read from an object. *)
Definition formatEther_value (v : jsval) : string :=
  str (Viem.formatUnits_display (js_toString v) 18).

Definition EXPECTED_CHAIN_ID : Z := 2020.

(** ** components/StakingDashboard.tsx *)
Module StakingDashboard.
Section WithImports.
Context {N : JsNumber} {C : ContractModule}.

Definition BRAIDS_TOKEN_ADDRESS : string := Alchemy.BRAIDS_TOKEN_ADDRESS.

(** What the handlers close over at the render they belong to. *)
Record State : Type := mkState {
  address : option string;           (* [useAccount().address] *)
  publicClient : bool;               (* [usePublicClient()] is defined *)
  stakingStats : option jsobj;
  userStats : option jsobj;
  stakeAmount : string;
  unstakeAmount : string;
  error : option string;
  transactionInProgress : bool;
  isLoading : bool;
  braidsBalance : option Z           (* [useBalance().data?.value] *)
}.

Definition initialState (address : option string) (publicClient : bool)
    (braidsBalance : option Z) : State :=
  {| address := address; publicClient := publicClient;
     stakingStats := None; userStats := None;
     stakeAmount := ""; unstakeAmount := "";
     error := None; transactionInProgress := false; isLoading := false;
     braidsBalance := braidsBalance |}.

(** The state after a setter has run. *)
Definition apply_setter (s : State) (u : setter) : State :=
  match u with
  | setStakingStats v =>
      mkState (address s) (publicClient s) v (userStats s) (stakeAmount s)
        (unstakeAmount s) (error s) (transactionInProgress s) (isLoading s)
        (braidsBalance s)
  | setUserStats v =>
      mkState (address s) (publicClient s) (stakingStats s) v (stakeAmount s)
        (unstakeAmount s) (error s) (transactionInProgress s) (isLoading s)
        (braidsBalance s)
  | setStakeAmount v =>
      mkState (address s) (publicClient s) (stakingStats s) (userStats s) v
        (unstakeAmount s) (error s) (transactionInProgress s) (isLoading s)
        (braidsBalance s)
  | setUnstakeAmount v =>
      mkState (address s) (publicClient s) (stakingStats s) (userStats s)
        (stakeAmount s) v (error s) (transactionInProgress s) (isLoading s)
        (braidsBalance s)
  | setError v =>
      mkState (address s) (publicClient s) (stakingStats s) (userStats s)
        (stakeAmount s) (unstakeAmount s) v (transactionInProgress s)
        (isLoading s) (braidsBalance s)
  | setTransactionInProgress v =>
      mkState (address s) (publicClient s) (stakingStats s) (userStats s)
        (stakeAmount s) (unstakeAmount s) (error s) v (isLoading s)
        (braidsBalance s)
  | setIsLoading v =>
      mkState (address s) (publicClient s) (stakingStats s) (userStats s)
        (stakeAmount s) (unstakeAmount s) (error s)
        (transactionInProgress s) v (braidsBalance s)
  | _ => s
  end.

Definition apply_event (s : State) (e : event) : State :=
  match e with
  | EvAct (SetState u) => apply_setter s u
  | _ => s
  end.

(** The state rendered once all the setters of a trace have run. *)
Definition after (s : State) (t : trace) : State :=
  fold_left apply_event t s.

(** A method call on [publicClient], which may be [undefined]. *)
Definition client (s : State) (method : string) (r : request)
  : prog (outcome (resp r)) :=
  if publicClient s then await r else throw (Alchemy.undefined_read method).

Definition address_arg (s : State) : jsval :=
  match address s with Some a => VString a | None => VUndefined end.

Definition calculateAPR (s : State) : num :=
  if negb (truthy_opt (prop (stakingStats s) "dailyRewards"))
     || negb (truthy_opt (prop (stakingStats s) "totalStaked"))
  then of_int 0
  else
    match prop (stakingStats s) "dailyRewards",
          prop (stakingStats s) "totalStaked" with
    | Some d, Some t =>
        let dailyRewards := Number_ (formatEther_value d) in
        let totalStaked := Number_ (formatEther_value t) in
        if num_gtb totalStaked (of_int 0)
        then num_mul (num_div (num_mul dailyRewards (of_int 365)) totalStaked)
                     (of_int 100)
        else of_int 0
    | _, _ => of_int 0
    end.

(** The text under "Estimated Rewards". *)
Definition renderedAPR (s : State) : string :=
  String.append (toFixed (calculateAPR s) 2) "%".

Definition fetchData (s : State) : prog unit :=
  match address s, publicClient s with
  | Some address, true =>
      try_finally
        (try_catch
           (set (setIsLoading true) ;;
            set (setError None) ;;
            chainId <-! await GetChainId ;;
            if negb (chainId =? 2020)
            then throw (Error "Please connect to Ronin Mainnet")
            else
              r <-! Promise_all2 (catch_null getStakingStats)
                                 (catch_null (getUserStats address)) ;;
              match r with
              | (Some newStakingStats, Some newUserStats) =>
                  set (setStakingStats
                         (Some (StakingStats_object newStakingStats))) ;;
                  set (setUserStats
                         (Some (UserStats_object newUserStats))) ;;
                  ok tt
              | _ => throw (Error "Failed to fetch staking data")
              end)
           (fun err =>
              act (ConsoleError "Error fetching data:" (Some err)) ;;
              set (setError
                     (if isError err then message err
                      else Some "Failed to load data")) ;;
              ok tt))
        (set (setIsLoading false)) ;;
      Ret tt
  | _, _ => Ret tt
  end.

Definition MAX_STAKE_MESSAGE : string :=
  "Amount exceeds maximum stake limit of 1,000,000 BRAIDS".

(** The [try] block of [handleStake]. *)
Definition handleStake_try (s : State) : prog (outcome unit) :=
  set (setTransactionInProgress true) ;;
  parsedAmount <-! Ret (Viem.parseEther (stakeAmount s)) ;;
  if parsedAmount <=? 0 then throw (Error "Amount must be greater than 0")
  else
    limit <-! Ret (Viem.parseEther "1000000") ;;
    if limit <? parsedAmount then throw (Error MAX_STAKE_MESSAGE)
    else if match braidsBalance s with
            | Some value => value <? parsedAmount
            | None => false
            end
    then throw (Error "Insufficient BRAIDS balance")
    else
      currentAllowance <-!
        client s "readContract"
          (ReadUint256 BRAIDS_TOKEN_ADDRESS "allowance"
             [address_arg s; VString STAKING_CONTRACT_ADDRESS]) ;;
      _ <-! (if currentAllowance <? parsedAmount
             then
               approveHash <-!
                 await (WriteContract BRAIDS_TOKEN_ADDRESS "approve"
                          [VString STAKING_CONTRACT_ADDRESS;
                           VBigInt parsedAmount] (Some 100000)) ;;
               _ <-! client s "waitForTransactionReceipt"
                       (WaitForTransactionReceipt approveHash) ;;
               act (ConsoleLog
                      (String.append "Approval successful: " approveHash)) ;;
               ok tt
             else ok tt) ;;
      gasEstimate <-!
        client s "estimateContractGas"
          (EstimateContractGas STAKING_CONTRACT_ADDRESS "stake"
             [VBigInt parsedAmount] (address s)) ;;
      hash <-!
        await (WriteContract STAKING_CONTRACT_ADDRESS "stake"
                 [VBigInt parsedAmount]
                 (Some (if negb (gasEstimate =? 0) then gasEstimate + 10000
                        else 300000))) ;;
      _ <-! client s "waitForTransactionReceipt"
              (WaitForTransactionReceipt hash) ;;
      fetchData s ;;
      set (setStakeAmount "") ;;
      ok tt.

(** The message built in the [catch] clause of [handleStake]. *)
Definition stakeErrorMessage (err : js_error) : string :=
  let errorMessage :=
    "Transaction failed! Contract Interaction with RON failed" in
  match revert err with
  | Some rv =>
      let detail :=
        match or_else (or_else (reason rv) (data rv)) (Some "Unknown reason")
        with Some d => d | None => "Unknown reason" end in
      let errorMessage :=
        String.append errorMessage (String.append ": " detail) in
      let has (w : string) :=
        match reason rv with
        | Some r => str_truthy r && includes r w
        | None => false
        end in
      if has "Panic"
      then String.append errorMessage
             " - There was an arithmetic overflow in the contract. Please try a smaller amount or check the contract for issues."
      else if has "paused"
      then String.append errorMessage
             " - Staking is paused. Please try again later."
      else errorMessage
  | None =>
      match message err with
      | Some m =>
          if str_truthy m
          then String.append errorMessage (String.append ": " m)
          else errorMessage
      | None => errorMessage
      end
  end.

Definition handleStake (s : State) : prog unit :=
  if negb (str_truthy (stakeAmount s)) then Ret tt
  else
    try_finally
      (try_catch (handleStake_try s)
         (fun err =>
            act (ConsoleError "Stake failed:" (Some err)) ;;
            set (setError (Some (stakeErrorMessage err))) ;;
            ok tt))
      (set (setTransactionInProgress false)) ;;
    Ret tt.

Definition failure (what : string) (err : js_error) : string :=
  String.append what
    (if isError err
     then match message err with Some m => m | None => "undefined" end
     else "Unknown error").

Definition handleUnstake (s : State) : prog unit :=
  if negb (str_truthy (unstakeAmount s)) then Ret tt
  else
    try_finally
      (try_catch
         (set (setTransactionInProgress true) ;;
          parsedAmount <-! Ret (Viem.parseEther (unstakeAmount s)) ;;
          if parsedAmount <=? 0
          then throw (Error "Amount must be greater than 0")
          else if truthy_opt (prop (userStats s) "stakedAmount")
                  && match prop (userStats s) "stakedAmount" with
                     | Some v => js_lt v parsedAmount
                     | None => false
                     end
          then throw (Error "Insufficient staked amount")
          else
            hash <-!
              await (WriteContract STAKING_CONTRACT_ADDRESS "withdraw"
                       [VBigInt parsedAmount] (Some 300000)) ;;
            _ <-! client s "waitForTransactionReceipt"
                    (WaitForTransactionReceipt hash) ;;
            fetchData s ;;
            set (setUnstakeAmount "") ;;
            ok tt)
         (fun err =>
            act (ConsoleError "Unstake failed:" (Some err)) ;;
            set (setError (Some (failure "Failed to unstake: " err))) ;;
            ok tt))
      (set (setTransactionInProgress false)) ;;
    Ret tt.

(** [!userStats?.earnedRewards || userStats.earnedRewards <= 0n] *)
Definition nothing_earned (s : State) : bool :=
  negb (truthy_opt (prop (userStats s) "earnedRewards"))
  || match prop (userStats s) "earnedRewards" with
     | Some v => js_le v 0
     | None => false
     end.

Definition handleClaim (s : State) : prog unit :=
  if nothing_earned s then Ret tt
  else
    try_finally
      (try_catch
         (set (setTransactionInProgress true) ;;
          hash <-!
            await (WriteContract STAKING_CONTRACT_ADDRESS "getReward" []
                     (Some 300000)) ;;
          _ <-! client s "waitForTransactionReceipt"
                  (WaitForTransactionReceipt hash) ;;
          fetchData s ;;
          ok tt)
         (fun err =>
            act (ConsoleError "Claim failed:" (Some err)) ;;
            set (setError (Some (failure "Claim failed: " err))) ;;
            ok tt))
      (set (setTransactionInProgress false)) ;;
    Ret tt.

Definition handleRestake (s : State) : prog unit :=
  if nothing_earned s then Ret tt
  else
    try_finally
      (try_catch
         (set (setTransactionInProgress true) ;;
          claimHash <-!
            await (WriteContract STAKING_CONTRACT_ADDRESS "getReward" []
                     (Some 300000)) ;;
          _ <-! client s "waitForTransactionReceipt"
                  (WaitForTransactionReceipt claimHash) ;;
          stakeHash <-!
            await (WriteContract STAKING_CONTRACT_ADDRESS "stake"
                     [match prop (userStats s) "earnedRewards" with
                      | Some v => v | None => VUndefined end]
                     (Some 300000)) ;;
          _ <-! client s "waitForTransactionReceipt"
                  (WaitForTransactionReceipt stakeHash) ;;
          fetchData s ;;
          ok tt)
         (fun err =>
            act (ConsoleError "Restake failed:" (Some err)) ;;
            set (setError (Some (failure "Restake failed: " err))) ;;
            ok tt))
      (set (setTransactionInProgress false)) ;;
    Ret tt.

(** The [disabled] attribute of the Claim button. *)
Definition claimDisabled (s : State) : bool :=
  nothing_earned s || transactionInProgress s || isLoading s.

(** The [disabled] attribute of the Restake button. *)
Definition restakeDisabled (s : State) : bool :=
  nothing_earned s || transactionInProgress s || isLoading s.

End WithImports.
End StakingDashboard.

(** ** The revision of the staking dashboard with "Exit & Claim All"

    It writes through one [useContractWrite] hook per contract function
    and keeps no modal dialogs. *)
Module StakingDashboardExit.
Section WithImports.
Context {N : JsNumber} {C : ContractModule}.

Record State : Type := mkState {
  address : option string;
  publicClient : bool;
  stakingStats : option jsobj;
  userStats : option jsobj;
  stakeAmount : string;
  withdrawAmount : string;
  loading : bool;
  error : option string;
  validationError : option string;
  transactionInProgress : bool;
  braidsBalance : option Z
}.

Definition client (s : State) (method : string) (r : request)
  : prog (outcome (resp r)) :=
  if publicClient s then await r else throw (Alchemy.undefined_read method).

Definition fetchData (s : State) : prog unit :=
  match address s, publicClient s with
  | Some address, true =>
      try_finally
        (try_catch
           (set (setLoading true) ;;
            set (setError None) ;;
            chainId <-! await GetChainId ;;
            if negb (chainId =? 2020)
            then throw (Error "Please connect to Ronin Mainnet")
            else
              r <-! Promise_all2 (catch_null getStakingStats)
                                 (catch_null (getUserStats address)) ;;
              let '(newStakingStats, newUserStats) := r in
              set (setStakingStats
                     (option_map StakingStats_object newStakingStats)) ;;
              set (setUserStats
                     (option_map UserStats_object newUserStats)) ;;
              ok tt)
           (fun err =>
              act (ConsoleError "Error fetching data:" (Some err)) ;;
              set (setError
                     (if isError err then message err
                      else Some "Failed to load data")) ;;
              ok tt))
        (set (setLoading false)) ;;
      Ret tt
  | _, _ => Ret tt
  end.

(** [!userStats || userStats.earnedRewards <= 0n] *)
Definition nothing_earned (s : State) : bool :=
  match userStats s with
  | None => true
  | Some o =>
      match o !! "earnedRewards" with
      | Some v => js_le v 0
      | None => false          (* [undefined <= 0n] is false *)
      end
  end.

Definition handleClaim (s : State) : prog unit :=
  if nothing_earned s then Ret tt
  else
    try_finally
      (try_catch
         (hash <-!
            await (WriteContract STAKING_CONTRACT_ADDRESS "getReward" []
                     None) ;;
          _ <-! client s "waitForTransactionReceipt"
                  (WaitForTransactionReceipt hash) ;;
          fetchData s ;;
          ok tt)
         (fun err =>
            act (ConsoleError "Claim failed:" (Some err)) ;;
            set (setError
                   (Some (String.append "Claim failed: "
                            (if isError err
                             then match message err with
                                  | Some m => m | None => "undefined" end
                             else "Unknown error")))) ;;
            ok tt))
      (set (setTransactionInProgress false)) ;;
    Ret tt.

(** The [disabled] attribute of the "Claim Rewards" button. *)
Definition claimDisabled (s : State) : bool :=
  nothing_earned s || loading s || transactionInProgress s.

End WithImports.
End StakingDashboardExit.

(** ** [handleExit] of the revision with "Exit & Claim All" *)
Module StakingDashboardExitActions.
Section WithImports.
Context {N : JsNumber} {C : ContractModule}.

Import StakingDashboardExit.

(** [`${what}${err instanceof Error ? err.message : 'Unknown error'}`] *)
Definition failure (what : string) (err : js_error) : string :=
  String.append what
    (if isError err
     then match message err with Some m => m | None => "undefined" end
     else "Unknown error").




End WithImports.
End StakingDashboardExitActions.

(** ** The admin dashboard (the revision with the approve-then-deposit
    flow) *)
Module AdminDashboard.
Section WithImports.
Context {N : JsNumber} {C : ContractModule}.

Import StakingContract (role, ADMIN, MAINTAINER, DEPOSITOR).

Definition BRAIDS_TOKEN_ADDRESS : string := Alchemy.BRAIDS_TOKEN_ADDRESS.


Record State : Type := mkState {
  address : option string;
  publicClient : bool;
  stakingStats : option StakingStats;
  roles : Roles;
  rewardAmount : string;
  depositAmount : string;
  loading : bool;
  error : option string;
  rewardTxStatus : TransactionStatus;
  pauseTxStatus : TransactionStatus;
  depositTxStatus : TransactionStatus;
  rewardTxHash : option string;
  pauseTxHash : option string;
  depositTxHash : option string;
  rewardInputError : option string;
  depositInputError : option string
}.

Definition is_idle (st : TransactionStatus) : bool :=
  match st with idle => true | _ => false end.

Definition client (s : State) (method : string) (r : request)
  : prog (outcome (resp r)) :=
  if publicClient s then await r else throw (Alchemy.undefined_read method).

Definition address_arg (s : State) : jsval :=
  match address s with Some a => VString a | None => VUndefined end.

Definition pause : prog (outcome string) :=
  await (WriteContract STAKING_CONTRACT_ADDRESS "pause" [] None).
Definition unpause : prog (outcome string) :=
  await (WriteContract STAKING_CONTRACT_ADDRESS "unpause" [] None).
Definition depositRewards (args : list jsval) : prog (outcome string) :=
  await (WriteContract STAKING_CONTRACT_ADDRESS "depositRewards" args None).
Definition approve (args : list jsval) : prog (outcome string) :=
  await (WriteContract BRAIDS_TOKEN_ADDRESS "approve" args None).

Definition fetchData (s : State) : prog unit :=
  match address s, publicClient s with
  | Some address, true =>
      try_finally
        (try_catch
           (set (setLoading true) ;;
            set (setError None) ;;
            chainId <-! await GetChainId ;;
            if negb (chainId =? 2020)
            then throw (Error "Please connect to Ronin mainnet")
            else
              r <-! Promise_all4 getStakingStats
                      (checkRole address ADMIN)
                      (checkRole address MAINTAINER)
                      (checkRole address DEPOSITOR) ;;
              let '(newStakingStats, adminRole, maintainerRole,
                    depositorRole) := r in
              set (setAdminStakingStats (Some newStakingStats)) ;;
              set (setRoles {| isAdmin := adminRole;
                               isMaintainer := maintainerRole;
                               isDepositor := depositorRole |}) ;;
              ok tt)
           (fun err =>
              act (ConsoleError "Error fetching admin data:" (Some err)) ;;
              set (setError
                     (Some (String.append "Failed to load admin data: "
                              (match or_else (message err)
                                       (Some "Unknown error") with
                               | Some m => m
                               | None => "Unknown error"
                               end)))) ;;
              ok tt))
        (set (setLoading false)) ;;
      Ret tt
  | _, _ => Ret tt
  end.

Definition handleTransactionError (err : js_error) : prog unit :=
  act (ConsoleError "Transaction error:" (Some err)) ;;
  if match code err with Some c => c =? 4001 | None => false end
  then set (setError (Some "User rejected transaction"))
  else if match message err with
          | Some m => includes m "insufficient funds"
          | None => false
          end
  then set (setError (Some "Insufficient funds for transaction"))
  else set (setError
              (or_else (or_else (shortMessage err) (message err))
                       (Some "Transaction failed"))).

Inductive txType : Type := reward | pauseTx | deposit.

Definition statusSetter (type : txType) (v : TransactionStatus) : setter :=
  match type with
  | reward => setRewardTxStatus v
  | pauseTx => setPauseTxStatus v
  | deposit => setDepositTxStatus v
  end.

Definition hashSetter (type : txType) (v : option string) : setter :=
  match type with
  | reward => setRewardTxHash v
  | pauseTx => setPauseTxHash v
  | deposit => setDepositTxHash v
  end.

Definition handleTransaction (action : prog (outcome string))
    (type : txType) : prog unit :=
  try_catch
    (set (statusSetter type preparing) ;;
     set (setError None) ;;
     hash <-! action ;;
     set (hashSetter type (Some hash)) ;;
     set (statusSetter type pending) ;;
     ok tt)
    (fun err =>
       set (statusSetter type error_status) ;;
       handleTransactionError err ;;
       ok tt) ;;
  Ret tt.



Definition validateDepositAmount (amount : string) : prog bool :=
  if negb (str_truthy amount)
  then set (setDepositInputError (Some "Amount is required")) ;; Ret false
  else
    let numAmount := parseFloat amount in
    if isNaN numAmount
    then set (setDepositInputError (Some "Invalid number")) ;; Ret false
    else if num_leb numAmount (of_int 0)
    then set (setDepositInputError (Some "Amount must be greater than zero")) ;;
         Ret false
    else set (setDepositInputError None) ;; Ret true.


Definition handlePauseToggle (s : State) : prog unit :=
  if negb (is_idle (pauseTxStatus s)) then Ret tt
  else
    let action :=
      if match stakingStats s with Some st => isPaused st | None => false end
      then unpause else pause in
    handleTransaction action pauseTx.

(** Step 1 of [handleDepositRewards]; [true] when the deposit may go on. *)
Definition approveStep (s : State) (parsedAmount : Z) : prog bool :=
  o <- (approveHash <-!
          approve [VString STAKING_CONTRACT_ADDRESS; VBigInt parsedAmount] ;;
        set (setDepositTxHash (Some approveHash)) ;;
        set (setDepositTxStatus pending) ;;
        client s "waitForTransactionReceipt"
          (WaitForTransactionReceipt approveHash)) ;;
  match o with
  | Resolved _ => Ret true
  | Rejected error =>
      act (ConsoleError "Approval failed:" (Some error)) ;;
      set (setError (Some "Approval transaction failed")) ;;
      set (setDepositTxStatus error_status) ;;
      Ret false
  end.

(** Step 2 of [handleDepositRewards]. *)
Definition depositStep (s : State) (parsedAmount : Z) : prog (outcome unit) :=
  try_catch
    (depositHash <-! depositRewards [VBigInt parsedAmount] ;;
     set (setDepositTxHash (Some depositHash)) ;;
     set (setDepositTxStatus pending) ;;
     _ <-! client s "waitForTransactionReceipt"
             (WaitForTransactionReceipt depositHash) ;;
     set (setDepositTxStatus success) ;;
     set (setDepositAmount "") ;;
     (* [fetchData()] is started and not awaited *)
     fetchData s ;;
     ok tt)
    (fun error =>
       act (ConsoleError "Deposit failed:" (Some error)) ;;
       set (setError (Some "Deposit transaction failed")) ;;
       set (setDepositTxStatus error_status) ;;
       ok tt).

Definition handleDepositRewards (s : State) : prog (outcome unit) :=
  valid <- validateDepositAmount (depositAmount s) ;;
  if negb valid || negb (is_idle (depositTxStatus s)) then ok tt
  else
    parsedAmount <-! Ret (Viem.parseEther (depositAmount s)) ;;
    act (ConsoleLog (String.append "Parsed Deposit Amount: "
                       (String.append (Z_toString parsedAmount) "n"))) ;;
    try_catch
      (set (setDepositTxStatus preparing) ;;
       set (setError None) ;;
       balance <-!
         client s "readContract"
           (ReadUint256 BRAIDS_TOKEN_ADDRESS "balanceOf" [address_arg s]) ;;
       act (ConsoleLog (String.append "User Balance: "
                          (Viem.formatEther balance))) ;;
       if balance <? parsedAmount
       then set (setError (Some "Insufficient BRAIDS balance")) ;;
            set (setDepositTxStatus error_status) ;;
            ok tt
       else
         currentAllowance <-!
           client s "readContract"
             (ReadUint256 BRAIDS_TOKEN_ADDRESS "allowance"
                [address_arg s; VString STAKING_CONTRACT_ADDRESS]) ;;
         act (ConsoleLog (String.append "Current Allowance: "
                            (Z_toString currentAllowance))) ;;
         proceed <- (if currentAllowance <? parsedAmount
                     then approveStep s parsedAmount
                     else Ret true) ;;
         if proceed then depositStep s parsedAmount else ok tt)
      (fun error =>
         set (setDepositTxStatus error_status) ;;
         handleTransactionError error ;;
         ok tt).

End WithImports.
End AdminDashboard.

(** * The vocabulary of the properties

    Environments, states and observations the statements below refer to. *)

(** [produces P p]: whatever the answers, every event of [p] satisfies
    [P]. *)
Inductive produces {A} (P : event -> Prop) : prog A -> Prop :=
| produces_Ret a : produces P (Ret a)
| produces_Exit c : produces P (Exit c)
| produces_Act a k : P (EvAct a) -> produces P k -> produces P (Act a k)
| produces_Call r k :
    (forall o, P (EvCall r o)) -> (forall o, produces P (k o)) ->
    produces P (Call r k).

(** [PRIVATE_KEY] is missing, or does not start with [0x], or is not 66
    characters long. *)
Definition malformed_private_key (env : gmap string string) : Prop :=
  match env !! "PRIVATE_KEY" with
  | None => True
  | Some k =>
      k = "" \/ String.prefix "0x" k = false \/ String.length k <> 66%nat
  end.

Definition is_log (e : event) : Prop :=
  match e with EvAct (ConsoleLog _) => True | _ => False end.

Definition missing_line (v : string) : event :=
  EvAct (ConsoleLog (Deploy.mark "[31m" "✗" (String.append "  - " v))).

(** [earnedRewards] is absent (no user snapshot, or no such property) or
    is a bigint that is not positive. *)
Definition earned_absent_or_nonpositive (userStats : option jsobj) : Prop :=
  match prop userStats "earnedRewards" with
  | None => True
  | Some v => exists n, v = VBigInt n /\ n <= 0
  end.

(** The user snapshot is [null], or holds an [earnedRewards] that is not
    positive. *)
Definition snapshot_absent_or_nonpositive (userStats : option jsobj) : Prop :=
  userStats = None
  \/ exists n, prop userStats "earnedRewards" = Some (VBigInt n) /\ n <= 0.

(** An environment in which every request fails. *)
Definition offline : oracle := fun _ _ => Rejected (Error "network error").

(** An environment in which [totalSupply] cannot be read, while the reward
    rate is 5 and the contract is paused. *)
Definition totalSupply_down : oracle := fun _ r =>
  match r return outcome (resp r) with
  | ReadUint256 _ fn _ =>
      if String.eqb fn "totalSupply" then Rejected (Error "timeout")
      else Resolved 5
  | ReadBool _ _ _ => Resolved true
  | _ => Rejected (Error "network error")
  end.

Definition call_rejected (e : event) : bool :=
  match e with EvCall _ o => is_rejected o | EvAct _ => false end.

(** The read of the contract function [fn] was made and failed. *)
Definition read_rejected (fn : string) (e : event) : bool :=
  match e with
  | EvCall r o =>
      is_rejected o
      && match r with
         | ReadUint256 _ f _ | ReadBool _ f _ => String.eqb f fn
         | _ => false
         end
  | EvAct _ => false
  end.

(** The statement "an error in any read makes the helper resolve with the
    four defaults", for a given [getStakingStats]. *)
Definition all_defaults_on_any_error
    (getStakingStats : prog (outcome StakingStats)) : Prop :=
  forall w : oracle,
    existsb call_rejected (trace_of w getStakingStats) = true ->
    result_of w getStakingStats
    = Done (Resolved StakingContract.defaultStakingStats).

(** No snapshot stored by [fetchData] has a [dailyRewards] property. *)
Definition stores_no_dailyRewards (e : event) : Prop :=
  match e with
  | EvAct (SetState (setStakingStats (Some o))) => o !! "dailyRewards" = None
  | _ => True
  end.

(** A pool holding 1000 tokens that pays one token per second. *)
Definition funded_pool : oracle := fun _ r =>
  match r return outcome (resp r) with
  | GetChainId => Resolved 2020
  | ReadUint256 _ fn _ =>
      if String.eqb fn "totalSupply" then Resolved (1000 * 10 ^ 18)
      else if String.eqb fn "rewardRate" then Resolved (10 ^ 18)
      else Resolved 0
  | ReadBool _ _ _ => Resolved false
  | _ => Rejected (Error "network error")
  end.

(** The statement "while the client reports a chain other than 2020, the
    handler issues no write-contract call". *)
Definition refuses_on_wrong_network {S : Type} (handler : S -> prog unit)
  : Prop :=
  forall (w : oracle) (s : S) (chainId : Z),
    (forall h, w h GetChainId = Resolved chainId) ->
    chainId <> EXPECTED_CHAIN_ID ->
    no_write (trace_of w (handler s)) = true.

(** A wallet on chain 1 whose node answers every request. *)
Definition wrong_network : oracle := fun _ r =>
  match r return outcome (resp r) with
  | GetChainId => Resolved 1
  | ReadUint256 _ _ _ => Resolved 0
  | ReadBool _ _ _ => Resolved false
  | EstimateContractGas _ _ _ _ => Resolved 50000
  | WriteContract _ _ _ _ => Resolved "0xhash"
  | WaitForTransactionReceipt _ => Resolved (mkReceipt status_success)
  | _ => Rejected (Error "network error")
  end.

(** A connected user who typed "1" in both amount fields and has 5 wei of
    rewards in the last snapshot. *)
Definition staker : StakingDashboard.State :=
  {| StakingDashboard.address := Some "0xuser";
     StakingDashboard.publicClient := true;
     StakingDashboard.stakingStats := None;
     StakingDashboard.userStats :=
       Some (UserStats_object {| stakedAmount := 10 ^ 19; earnedRewards := 5;
                                 stakingPoints := 0; stakingTime := 0 |});
     StakingDashboard.stakeAmount := "1";
     StakingDashboard.unstakeAmount := "1";
     StakingDashboard.error := None;
     StakingDashboard.transactionInProgress := false;
     StakingDashboard.isLoading := false;
     StakingDashboard.braidsBalance := Some (5 * 10 ^ 18) |}.

(** An admin whose dashboard is idle. *)
Definition admin : AdminDashboard.State :=
  {| AdminDashboard.address := Some "0xadmin";
     AdminDashboard.publicClient := true;
     AdminDashboard.stakingStats := None;
     AdminDashboard.roles :=
       {| isAdmin := true; isMaintainer := false; isDepositor := false |};
     AdminDashboard.rewardAmount := "";
     AdminDashboard.depositAmount := "";
     AdminDashboard.loading := false;
     AdminDashboard.error := None;
     AdminDashboard.rewardTxStatus := idle;
     AdminDashboard.pauseTxStatus := idle;
     AdminDashboard.depositTxStatus := idle;
     AdminDashboard.rewardTxHash := None;
     AdminDashboard.pauseTxHash := None;
     AdminDashboard.depositTxHash := None;
     AdminDashboard.rewardInputError := None;
     AdminDashboard.depositInputError := None |}.

Definition WRONG_NETWORK : string := "Please connect to Ronin Mainnet".

(** What [fetchData] of the staking dashboard does on another chain. *)
Definition wrong_network_trace (chainId : Z) : trace :=
  [EvAct (SetState (setIsLoading true));
   EvAct (SetState (setError None));
   EvCall GetChainId (Resolved chainId);
   EvAct (ConsoleError "Error fetching data:" (Some (Error WRONG_NETWORK)));
   EvAct (SetState (setError (Some WRONG_NETWORK)));
   EvAct (SetState (setIsLoading false))].

(** What [fetchData] of the admin dashboard does on another chain. *)
Definition admin_wrong_network_trace (chainId : Z) : trace :=
  [EvAct (SetState (setLoading true));
   EvAct (SetState (setError None));
   EvCall GetChainId (Resolved chainId);
   EvAct (ConsoleError "Error fetching admin data:"
            (Some (Error "Please connect to Ronin mainnet")));
   EvAct (SetState (setError
            (Some "Failed to load admin data: Please connect to Ronin mainnet")));
   EvAct (SetState (setLoading false))].

Section Deposit.
Context {N : JsNumber} {C : ContractModule}.

Definition allowance_read (s : AdminDashboard.State) : request :=
  ReadUint256 AdminDashboard.BRAIDS_TOKEN_ADDRESS "allowance"
    [AdminDashboard.address_arg s; VString STAKING_CONTRACT_ADDRESS].

Definition approve_tx (parsedAmount : Z) : request :=
  WriteContract AdminDashboard.BRAIDS_TOKEN_ADDRESS "approve"
    [VString STAKING_CONTRACT_ADDRESS; VBigInt parsedAmount] None.

Definition deposit_tx (parsedAmount : Z) : request :=
  WriteContract STAKING_CONTRACT_ADDRESS "depositRewards"
    [VBigInt parsedAmount] None.

Definition is_transaction (e : event) : bool :=
  match e with
  | EvCall (WriteContract _ _ _ _) _ => true
  | EvCall (WaitForTransactionReceipt _) _ => true
  | _ => false
  end.

(** The transactions submitted and the confirmations awaited, in order. *)
Definition transactions (t : trace) : trace := List.filter is_transaction t.

(** The three ways the flow can go once an approval is needed.  In the
    third the receipt of the approval has arrived; it is dropped unread, so
    its status is any. *)
Inductive approve_then_deposit (parsedAmount : Z) : trace -> Prop :=
| approve_rejected (e : js_error) :
    approve_then_deposit parsedAmount
      [EvCall (approve_tx parsedAmount) (Rejected e)]
| confirmation_rejected (hash : string) (e : js_error) :
    approve_then_deposit parsedAmount
      [EvCall (approve_tx parsedAmount) (Resolved hash);
       EvCall (WaitForTransactionReceipt hash) (Rejected e)]
| deposit_attempted (hash : string) (receipt : TransactionReceipt)
    (o : outcome string) (rest : trace) :
    approve_then_deposit parsedAmount
      (EvCall (approve_tx parsedAmount) (Resolved hash)
       :: EvCall (WaitForTransactionReceipt hash) (Resolved receipt)
       :: EvCall (deposit_tx parsedAmount) o
       :: rest).

End Deposit.

(** The requests made, the pauses taken and the errors received. *)
Definition attempts (t : trace) : nat := length (List.filter is_call t).

Definition delay_of (e : event) : option Z :=
  match e with EvAct (SetTimeout ms) => Some ms | _ => None end.

Fixpoint delays (t : trace) : list Z :=
  match t with
  | [] => []
  | e :: r => match delay_of e with
              | Some ms => ms :: delays r
              | None => delays r
              end
  end.

Definition rejection_of (e : event) : option js_error :=
  match e with
  | EvCall _ (Rejected err) => Some err
  | _ => None
  end.

Fixpoint rejections (t : trace) : list js_error :=
  match t with
  | [] => []
  | e :: r => match rejection_of e with
              | Some err => err :: rejections r
              | None => rejections r
              end
  end.

Definition attempt_failed (i : Z) (e : js_error) : event :=
  EvAct (ConsoleError
           (String.append "Attempt "
              (String.append (Z_toString (i + 1)) " failed:")) (Some e)).

(** The runs of [retryOperation] on a single request [r], from the attempt
    of index [i] on: a success ends them, a failure at the last index is
    rethrown, any other failure is followed by a pause of
    [1000 * (i + 1)] ms and the next attempt. *)
Inductive retried (r : request) (maxRetries : Z)
  : Z -> trace -> outcome (option (resp r)) -> Prop :=
| retried_success i x :
    retried r maxRetries i [EvCall r (Resolved x)] (Resolved (Some x))
| retried_rethrow i e :
    i = maxRetries - 1 ->
    retried r maxRetries i [EvCall r (Rejected e); attempt_failed i e]
      (Rejected e)
| retried_again i e t res :
    i <> maxRetries - 1 ->
    retried r maxRetries (i + 1) t res ->
    retried r maxRetries i
      (EvCall r (Rejected e) :: attempt_failed i e
       :: EvAct (SetTimeout (1000 * (i + 1))) :: t)
      res.


Section ValidatorRuns.
Context {N : JsNumber}.


End ValidatorRuns.

(** A token API that fails twice and then answers 7. *)
Definition flaky_token_api : oracle := fun h r =>
  match r return outcome (resp r) with
  | GetAddress a => Resolved a
  | AlchemyGetTokenBalance _ _ =>
      if (length (List.filter is_call h) <? 4)%nat
      then Rejected (Error "timeout")
      else Resolved 7
  | _ => Rejected (Error "network error")
  end.

(** What the amount fields accept: digits, at most one dot, digits. *)
Definition ui_accepts (s : string) : bool :=
  let '(i, f) := split_dot (chr s) in
  all_digits i && match f with Some f => all_digits f | None => true end.

(** The number of digits typed after the dot. *)
Definition fraction_digits (s : string) : nat :=
  match snd (split_dot (chr s)) with Some f => length f | None => O end.

(** The number a decimal text denotes. *)
Definition decimal_value (s : string) : Q :=
  let '(i, f) := split_dot (chr s) in
  ExactNumber.decimal i (match f with Some f => f | None => [] end).

(** [n] base units, in tokens. *)
Definition tokens (n : Z) : Q := Qmake n (ExactNumber.pow10 18).

(** An environment whose private key is too short. *)
Definition env_short_key : gmap string string :=
  list_to_map [("VITE_ALCHEMY_API_KEY", "key");
               ("PRIVATE_KEY", "0x1234");
               ("DEPLOYER_ADDRESS", "0xdeployer");
               ("BRAIDS_TOKEN_ADDRESS", "0xtoken")].

(** A connected user before the first snapshot arrives. *)
Definition newcomer : StakingDashboard.State :=
  StakingDashboard.initialState (Some "0xuser") true None.

(** A user of the "Exit & Claim All" revision with a stake and no
    rewards. *)
Definition unrewarded : StakingDashboardExit.State :=
  {| StakingDashboardExit.address := Some "0xuser";
     StakingDashboardExit.publicClient := true;
     StakingDashboardExit.stakingStats := None;
     StakingDashboardExit.userStats :=
       Some (UserStats_object {| stakedAmount := 7; earnedRewards := 0;
                                 stakingPoints := 0; stakingTime := 0 |});
     StakingDashboardExit.stakeAmount := "";
     StakingDashboardExit.withdrawAmount := "";
     StakingDashboardExit.loading := false;
     StakingDashboardExit.error := None;
     StakingDashboardExit.validationError := None;
     StakingDashboardExit.transactionInProgress := false;
     StakingDashboardExit.braidsBalance := None |}.

(** A user who typed two million tokens. *)
Definition whale : StakingDashboard.State :=
  {| StakingDashboard.address := Some "0xuser";
     StakingDashboard.publicClient := true;
     StakingDashboard.stakingStats := None;
     StakingDashboard.userStats := None;
     StakingDashboard.stakeAmount := "2000000";
     StakingDashboard.unstakeAmount := "";
     StakingDashboard.error := None;
     StakingDashboard.transactionInProgress := false;
     StakingDashboard.isLoading := false;
     StakingDashboard.braidsBalance := Some (3 * 10 ^ 24) |}.

(** A node on chain 2020 in front of a token that has granted no
    allowance; the depositor holds 5 tokens. *)
Definition no_allowance : oracle := fun _ r =>
  match r return outcome (resp r) with
  | GetChainId => Resolved 2020
  | ReadUint256 _ fn _ =>
      if String.eqb fn "allowance" then Resolved 0
      else Resolved (5 * 10 ^ 18)
  | ReadBool _ _ _ => Resolved false
  | WriteContract _ fn _ _ =>
      Resolved (String.append "0x" fn)
  | WaitForTransactionReceipt _ => Resolved (mkReceipt status_success)
  | _ => Rejected (Error "network error")
  end.

(** The same node in front of a token whose transactions are mined and
    reverted: every transaction is accepted by the wallet, and every
    receipt has the status "reverted". *)
Definition reverting_token : oracle := fun _ r =>
  match r return outcome (resp r) with
  | GetChainId => Resolved 2020
  | ReadUint256 _ fn _ =>
      if String.eqb fn "allowance" then Resolved 0
      else Resolved (5 * 10 ^ 18)
  | ReadBool _ _ _ => Resolved false
  | WriteContract _ fn _ _ =>
      Resolved (String.append "0x" fn)
  | WaitForTransactionReceipt _ => Resolved (mkReceipt status_reverted)
  | _ => Rejected (Error "network error")
  end.

(** A depositor about to deposit one token. *)
Definition depositor : AdminDashboard.State :=
  {| AdminDashboard.address := Some "0xdepositor";
     AdminDashboard.publicClient := true;
     AdminDashboard.stakingStats := None;
     AdminDashboard.roles :=
       {| isAdmin := false; isMaintainer := false; isDepositor := true |};
     AdminDashboard.rewardAmount := "";
     AdminDashboard.depositAmount := "1";
     AdminDashboard.loading := false;
     AdminDashboard.error := None;
     AdminDashboard.rewardTxStatus := idle;
     AdminDashboard.pauseTxStatus := idle;
     AdminDashboard.depositTxStatus := idle;
     AdminDashboard.rewardTxHash := None;
     AdminDashboard.pauseTxHash := None;
     AdminDashboard.depositTxHash := None;
     AdminDashboard.rewardInputError := None;
     AdminDashboard.depositInputError := None |}.

(** The value a read of the contract function [fn] resolved with. *)
Definition uint_answer (fn : string) (e : event) : option Z :=
  match e with
  | EvCall r o =>
      match r as r0 return outcome (resp r0) -> option Z with
      | ReadUint256 _ f _ =>
          fun o => match o with
                   | Resolved x => if String.eqb f fn then Some x else None
                   | Rejected _ => None
                   end
      | _ => fun _ => None
      end o
  | EvAct _ => None
  end.

Definition bool_answer (fn : string) (e : event) : option bool :=
  match e with
  | EvCall r o =>
      match r as r0 return outcome (resp r0) -> option bool with
      | ReadBool _ f _ =>
          fun o => match o with
                   | Resolved x => if String.eqb f fn then Some x else None
                   | Rejected _ => None
                   end
      | _ => fun _ => None
      end o
  | EvAct _ => None
  end.

(** The first answer of its kind in a trace. *)
Fixpoint first_answer {X} (f : event -> option X) (t : trace) : option X :=
  match t with
  | [] => None
  | e :: r => match f e with Some x => Some x | None => first_answer f r end
  end.

(** A contract read, or a line on the console. *)
Definition is_read_or_log (e : event) : bool :=
  match e with
  | EvCall (ReadUint256 _ _ _) _ | EvCall (ReadBool _ _ _) _ => true
  | EvAct (ConsoleLog _) | EvAct (ConsoleWarn _) | EvAct (ConsoleError _ _) =>
      true
  | _ => false
  end.

(** The requests made, in order. *)
Definition calls (t : trace) : trace := List.filter is_call t.

(** A program that cannot reach [process.exit]. *)
Inductive completes {A} : prog A -> Prop :=
| completes_Ret a : completes (Ret a)
| completes_Act a k : completes k -> completes (Act a k)
| completes_Call r k : (forall o, completes (k o)) -> completes (Call r k).

(** The user types [text] in the stake field, or in the unstake field. *)
Definition typing_stake (s : StakingDashboard.State) (text : string)
  : StakingDashboard.State :=
  StakingDashboard.apply_setter s (setStakeAmount text).

Definition typing_unstake (s : StakingDashboard.State) (text : string)
  : StakingDashboard.State :=
  StakingDashboard.apply_setter s (setUnstakeAmount text).

(** What [handleStake] does when its [try] block throws [Error m] before
    the first request. *)
Definition stake_refused (m : string) : trace :=
  [EvAct (SetState (setTransactionInProgress true));
   EvAct (ConsoleError "Stake failed:" (Some (Error m)));
   EvAct (SetState (setError (Some
     (String.append
        "Transaction failed! Contract Interaction with RON failed: " m))));
   EvAct (SetState (setTransactionInProgress false))].

(** The same for [handleUnstake]. *)
Definition unstake_refused (m : string) : trace :=
  [EvAct (SetState (setTransactionInProgress true));
   EvAct (ConsoleError "Unstake failed:" (Some (Error m)));
   EvAct (SetState (setError (Some (String.append "Failed to unstake: " m))));
   EvAct (SetState (setTransactionInProgress false))].

Section Stake.
Context {C : ContractModule}.

Definition stake_allowance_read (s : StakingDashboard.State) : request :=
  ReadUint256 StakingDashboard.BRAIDS_TOKEN_ADDRESS "allowance"
    [StakingDashboard.address_arg s; VString STAKING_CONTRACT_ADDRESS].

Definition stake_approve_tx (parsedAmount : Z) : request :=
  WriteContract StakingDashboard.BRAIDS_TOKEN_ADDRESS "approve"
    [VString STAKING_CONTRACT_ADDRESS; VBigInt parsedAmount] (Some 100000).

Definition stake_estimate (s : StakingDashboard.State) (parsedAmount : Z)
  : request :=
  EstimateContractGas STAKING_CONTRACT_ADDRESS "stake" [VBigInt parsedAmount]
    (StakingDashboard.address s).

Definition stake_tx (amount : jsval) (gas : Z) : request :=
  WriteContract STAKING_CONTRACT_ADDRESS "stake" [amount] (Some gas).

Definition withdraw_tx (parsedAmount : Z) : request :=
  WriteContract STAKING_CONTRACT_ADDRESS "withdraw" [VBigInt parsedAmount]
    (Some 300000).

Definition getReward_tx : request :=
  WriteContract STAKING_CONTRACT_ADDRESS "getReward" [] (Some 300000).

(** The gas limit of the stake transaction: the estimate plus 10000, or
    300000 when the estimate is 0. *)
Definition stake_gas (gasEstimate : Z) : Z :=
  if gasEstimate =? 0 then 300000 else gasEstimate + 10000.

(** The requests of [handleStake] from the gas estimate on. *)
Inductive estimate_then_stake (s : StakingDashboard.State) (parsedAmount : Z)
  : trace -> Prop :=
| estimate_rejected (e : js_error) :
    estimate_then_stake s parsedAmount
      [EvCall (stake_estimate s parsedAmount) (Rejected e)]
| stake_submitted (gasEstimate : Z) (o : outcome string) (rest : trace) :
    estimate_then_stake s parsedAmount
      (EvCall (stake_estimate s parsedAmount) (Resolved gasEstimate)
       :: EvCall (stake_tx (VBigInt parsedAmount) (stake_gas gasEstimate)) o
       :: rest).

(** The requests of [handleStake] after the allowance was found too
    small.  The receipt of the approval is awaited and dropped unread, so
    its status is any. *)
Inductive approve_then_stake (s : StakingDashboard.State) (parsedAmount : Z)
  : trace -> Prop :=
| stake_approve_rejected (e : js_error) :
    approve_then_stake s parsedAmount
      [EvCall (stake_approve_tx parsedAmount) (Rejected e)]
| stake_approve_unconfirmed (hash : string) (e : js_error) :
    approve_then_stake s parsedAmount
      [EvCall (stake_approve_tx parsedAmount) (Resolved hash);
       EvCall (WaitForTransactionReceipt hash) (Rejected e)]
| stake_approved (hash : string) (receipt : TransactionReceipt)
    (tl : trace) :
    estimate_then_stake s parsedAmount tl ->
    approve_then_stake s parsedAmount
      (EvCall (stake_approve_tx parsedAmount) (Resolved hash)
       :: EvCall (WaitForTransactionReceipt hash) (Resolved receipt)
       :: tl).

(** The requests of [handleRestake].  The receipt of the claim is dropped
    unread as well. *)
Inductive claim_then_stake (amount : jsval) : trace -> Prop :=
| claim_rejected (e : js_error) :
    claim_then_stake amount [EvCall getReward_tx (Rejected e)]
| claim_unconfirmed (hash : string) (e : js_error) :
    claim_then_stake amount
      [EvCall getReward_tx (Resolved hash);
       EvCall (WaitForTransactionReceipt hash) (Rejected e)]
| claim_mined (hash : string) (receipt : TransactionReceipt)
    (o : outcome string) (rest : trace) :
    claim_then_stake amount
      (EvCall getReward_tx (Resolved hash)
       :: EvCall (WaitForTransactionReceipt hash) (Resolved receipt)
       :: EvCall (stake_tx amount 300000) o
       :: rest).

End Stake.

(** A wallet whose node answers every request, the token having granted
    an allowance of [allowance]. *)
Definition granted (allowance : Z) : oracle := fun _ r =>
  match r return outcome (resp r) with
  | GetChainId => Resolved 2020
  | ReadUint256 _ fn _ =>
      if String.eqb fn "allowance" then Resolved allowance else Resolved 0
  | ReadBool _ _ _ => Resolved false
  | EstimateContractGas _ _ _ _ => Resolved 50000
  | WriteContract _ fn _ _ => Resolved (String.append "0x" fn)
  | WaitForTransactionReceipt _ => Resolved (mkReceipt status_success)
  | _ => Rejected (Error "network error")
  end.

(** The read helpers of a contract module always return to their caller. *)
Definition reads_complete (C : ContractModule) : Prop :=
  completes getStakingStats /\ forall address, completes (getUserStats address).

(** A handler that did nothing, or left the progress flag down. *)
Definition releases (w : oracle) (s : StakingDashboard.State)
    (handler : prog unit) : Prop :=
  trace_of w handler = []
  \/ StakingDashboard.transactionInProgress
       (StakingDashboard.after s (trace_of w handler)) = false.

(** The time spent waiting between attempts, in milliseconds. *)
Definition total_delay (t : trace) : Z := fold_right Z.add 0 (delays t).

(** What the deployment script prints when required variables are unset:
    the two header lines, then one line for each of them, in the order of
    [requiredEnvVars]. *)
Definition missing_report (env : gmap string string) : trace :=
  [EvAct (ConsoleLog (Deploy.mark "[36m" "→" "Validating environment..."));
   EvAct (ConsoleLog (Deploy.mark "[31m" "✗"
                        "Missing required environment variables:"))]
  ++ map missing_line
       (List.filter (fun varName => negb (Deploy.env_set env varName))
          Deploy.requiredEnvVars).



(** The transaction statuses a trace sets, in order. *)
Definition status_set (e : event) : option TransactionStatus :=
  match e with
  | EvAct (SetState (setRewardTxStatus v))
  | EvAct (SetState (setPauseTxStatus v))
  | EvAct (SetState (setDepositTxStatus v)) => Some v
  | _ => None
  end.

Fixpoint statuses (t : trace) : list TransactionStatus :=
  match t with
  | [] => []
  | e :: r => match status_set e with
              | Some v => v :: statuses r
              | None => statuses r
              end
  end.

(** The error messages a trace shows, in order; [None] clears the banner. *)
Definition error_set (e : event) : option (option string) :=
  match e with EvAct (SetState (setError v)) => Some v | _ => None end.

Fixpoint errors_shown (t : trace) : list (option string) :=
  match t with
  | [] => []
  | e :: r => match error_set e with
              | Some v => v :: errors_shown r
              | None => errors_shown r
              end
  end.

Section AdminRequests.
Context {C : ContractModule}.

(** The transaction of the pause button, given the snapshot. *)
Definition toggle_tx (s : AdminDashboard.State) : request :=
  WriteContract STAKING_CONTRACT_ADDRESS
    (if match AdminDashboard.stakingStats s with
        | Some st => isPaused st
        | None => false
        end
     then "unpause" else "pause")
    [] None.


End AdminRequests.

(** An error as a wallet reports a refusal by the user. *)
Definition user_rejection (msg : string) : js_error :=
  {| isError := true; message := Some msg; shortMessage := None;
     code := Some 4001; revert := None |}.

(** An admin whose snapshot says that the contract is paused. *)
Definition admin_of_paused_pool : AdminDashboard.State :=
  {| AdminDashboard.address := Some "0xadmin";
     AdminDashboard.publicClient := true;
     AdminDashboard.stakingStats :=
       Some {| totalStaked := 0; rewardRate := 0; rewardForDuration := 0;
               isPaused := true |};
     AdminDashboard.roles :=
       {| isAdmin := true; isMaintainer := false; isDepositor := false |};
     AdminDashboard.rewardAmount := "";
     AdminDashboard.depositAmount := "";
     AdminDashboard.loading := false;
     AdminDashboard.error := None;
     AdminDashboard.rewardTxStatus := idle;
     AdminDashboard.pauseTxStatus := idle;
     AdminDashboard.depositTxStatus := idle;
     AdminDashboard.rewardTxHash := None;
     AdminDashboard.pauseTxHash := None;
     AdminDashboard.depositTxHash := None;
     AdminDashboard.rewardInputError := None;
     AdminDashboard.depositInputError := None |}.

(** What the [hasRole] read for [role] resolved with. *)
Definition hasRole_answer (role : StakingContract.role) (e : event)
  : option bool :=
  match e with
  | EvCall r o =>
      match r as r0 return outcome (resp r0) -> option bool with
      | ReadBool _ f (VString id :: _) =>
          fun o => match o with
                   | Resolved x =>
                       if String.eqb f "hasRole"
                          && String.eqb id (StakingContract.ROLES role)
                       then Some x else None
                   | Rejected _ => None
                   end
      | _ => fun _ => None
      end o
  | EvAct _ => None
  end.

(** The roles and the pool snapshot a trace stores. *)
Definition roles_set (e : event) : option Roles :=
  match e with EvAct (SetState (setRoles v)) => Some v | _ => None end.

Definition admin_stats_set (e : event) : option (option StakingStats) :=
  match e with
  | EvAct (SetState (setAdminStakingStats v)) => Some v
  | _ => None
  end.

(** ** The amount fields of the stake and unstake dialogs
    (components/StakingDashboard.tsx) *)
Module AmountFields.

(** [onChange] of the two text fields: the text is kept when it is empty
    or made of digits, at most one dot, and digits. *)
Definition onStakeAmountChange (val : string) : prog unit :=
  if String.eqb val "" || ui_accepts val then set (setStakeAmount val)
  else Ret tt.

Definition onUnstakeAmountChange (val : string) : prog unit :=
  if String.eqb val "" || ui_accepts val then set (setUnstakeAmount val)
  else Ret tt.

(** [onClick] of the two MAX buttons. *)
Definition onMaxStake (s : StakingDashboard.State) : prog unit :=
  match StakingDashboard.braidsBalance s with
  | Some value => set (setStakeAmount (Viem.formatEther value))
  | None => Ret tt
  end.

Definition onMaxUnstake (s : StakingDashboard.State) : prog unit :=
  if truthy_opt (prop (StakingDashboard.userStats s) "stakedAmount")
  then match prop (StakingDashboard.userStats s) "stakedAmount" with
       | Some v => set (setUnstakeAmount (formatEther_value v))
       | None => Ret tt
       end
  else Ret tt.

End AmountFields.

(** [parseEther] accepts the text. *)
Definition parses {N : JsNumber} (text : string) : Prop :=
  exists n, Viem.parseEther text = Resolved n.



(** A holder of 7 staked base units in the "Exit & Claim All" revision,
    with 3 base units of rewards. *)
Definition exiting : StakingDashboardExit.State :=
  {| StakingDashboardExit.address := Some "0xuser";
     StakingDashboardExit.publicClient := true;
     StakingDashboardExit.stakingStats := None;
     StakingDashboardExit.userStats :=
       Some (UserStats_object {| stakedAmount := 7; earnedRewards := 3;
                                 stakingPoints := 0; stakingTime := 0 |});
     StakingDashboardExit.stakeAmount := "1";
     StakingDashboardExit.withdrawAmount := "";
     StakingDashboardExit.loading := false;
     StakingDashboardExit.error := None;
     StakingDashboardExit.validationError := None;
     StakingDashboardExit.transactionInProgress := false;
     StakingDashboardExit.braidsBalance := None |}.

(** A node on chain 2020 where every balance and allowance reads as 5
    tokens and every transaction is accepted and confirmed. *)
Definition well_funded : oracle := fun _ r =>
  match r return outcome (resp r) with
  | GetChainId => Resolved 2020
  | ReadUint256 _ _ _ => Resolved (5 * 10 ^ 18)
  | ReadBool _ _ _ => Resolved false
  | EstimateContractGas _ _ _ _ => Resolved 50000
  | WriteContract _ fn _ _ => Resolved (String.append "0x" fn)
  | WaitForTransactionReceipt _ => Resolved (mkReceipt status_success)
  | _ => Rejected (Error "network error")
  end.

(** An environment without [DEPLOYER_ADDRESS]. *)
Definition env_no_deployer : gmap string string :=
  list_to_map [("VITE_ALCHEMY_API_KEY", "key");
               ("PRIVATE_KEY", "0x1234");
               ("BRAIDS_TOKEN_ADDRESS", "0xtoken")].

(** * Properties *)

(** ** Running programs *)

(** Unfold the program constructions, and nothing of the data. *)
Ltac step :=
  cbn [run bind bindO set act throw ok await try_catch try_finally
       catch_null Promise_all2 Promise_all3 Promise_all4 app fst snd
       negb orb andb].

Lemma run_bind {A B} (w : oracle) (p : prog A) (f : A -> prog B) (h : trace) :
  run w (bind p f) h =
  match run w p h with
  | (h', Done a) => run w (f a) h'
  | (h', Exited c) => (h', Exited c)
  end.
Proof.
  revert h. induction p as [a | c | a k IH | r k IH]; intro h; simpl.
  - reflexivity.
  - reflexivity.
  - apply IH.
  - apply IH.
Qed.

(** A run only adds to the history it starts from. *)
Lemma run_extends {A} (w : oracle) (p : prog A) (h : trace) :
  exists t, fst (run w p h) = h ++ t.
Proof.
  revert h. induction p as [a | c | a k IH | r k IH]; intro h; simpl.
  - exists []. now rewrite app_nil_r.
  - exists []. now rewrite app_nil_r.
  - destruct (IH (h ++ [EvAct a])) as [t Ht].
    exists (EvAct a :: t). rewrite Ht, <- app_assoc. reflexivity.
  - destruct (IH (w h r) (h ++ [EvCall r (w h r)])) as [t Ht].
    exists (EvCall r (w h r) :: t). rewrite Ht, <- app_assoc. reflexivity.
Qed.

Lemma produces_bind {A B} (P : event -> Prop) (p : prog A) (f : A -> prog B) :
  produces P p -> (forall a, produces P (f a)) -> produces P (bind p f).
Proof.
  intros Hp Hf. induction Hp; simpl.
  - apply Hf.
  - constructor.
  - constructor; assumption.
  - constructor; auto.
Qed.

Lemma produces_run {A} (P : event -> Prop) (w : oracle) (p : prog A)
    (h : trace) :
  produces P p -> Forall P h -> Forall P (fst (run w p h)).
Proof.
  intros Hp. revert h. induction Hp; intros h Hh; simpl.
  - assumption.
  - assumption.
  - apply IHHp. apply Forall_app; split; [assumption | repeat constructor; assumption].
  - apply H1. apply Forall_app; split; [assumption | repeat constructor; apply H].
Qed.

(** ** The deployment script stops on a malformed private key *)

Lemma forEach_log_error (w : oracle) (l : list string) (h : trace) :
  run w (Deploy.forEach
           (fun v => Deploy.log_error (String.append "  - " v)) l) h
  = (h ++ map missing_line l, Done tt).
Proof.
  revert h. induction l as [| x r IH]; intro h; simpl.
  - now rewrite app_nil_r.
  - rewrite IH, <- app_assoc. reflexivity.
Qed.

Lemma Forall_is_log_missing (l : list string) :
  Forall is_log (map missing_line l).
Proof.
  induction l; simpl; constructor; [exact I | assumption].
Qed.

Lemma validateEnvironment_exits (w : oracle) (env : gmap string string) :
  malformed_private_key env ->
  exists t, run w (Deploy.validateEnvironment env) [] = (t, Exited 1)
            /\ Forall is_log t.
Proof.
  intro Hbad. unfold Deploy.validateEnvironment.
  set (missing := List.filter _ Deploy.requiredEnvVars).
  destruct (0 <? length missing)%nat eqn:Hm.
  - (* a variable is missing *)
    eexists. split.
    + rewrite !run_bind. simpl run at 1. cbv iota beta.
      rewrite !run_bind. simpl run at 1. cbv iota beta.
      rewrite run_bind, forEach_log_error. reflexivity.
    + simpl. repeat (constructor; [exact I |]).
      apply Forall_is_log_missing.
  - (* all four are set: the key itself is malformed *)
    assert (Hset : Deploy.env_set env "PRIVATE_KEY" = true).
    { subst missing. unfold Deploy.requiredEnvVars in Hm. simpl in Hm.
      destruct (Deploy.env_set env "PRIVATE_KEY"); [reflexivity |].
      exfalso.
      destruct (Deploy.env_set env "VITE_ALCHEMY_API_KEY");
        destruct (Deploy.env_set env "DEPLOYER_ADDRESS");
        destruct (Deploy.env_set env "BRAIDS_TOKEN_ADDRESS");
        simpl in Hm; discriminate. }
    unfold Deploy.env_set in Hset. unfold malformed_private_key in Hbad.
    destruct (env !! "PRIVATE_KEY") as [k |] eqn:Hk; [| discriminate].
    assert (Hcond : negb (String.prefix "0x" k)
                    || negb (String.length k =? 66)%nat = true).
    { destruct Hbad as [-> | [Hp | Hl]].
      - discriminate.
      - rewrite Hp. reflexivity.
      - apply Nat.eqb_neq in Hl. rewrite Hl. apply orb_true_r. }
    rewrite Hcond. eexists. split.
    + simpl. reflexivity.
    + repeat (constructor; [exact I |]). constructor.
Qed.

(** C4.  Whenever [PRIVATE_KEY] is missing, lacks the [0x] prefix or is not
    66 characters long, the deployment script exits with status 1 while
    still inside [validateEnvironment]: all it has done by then is print
    log lines, so the RPC provider has not been constructed and nothing
    has been sent over the network. *)
Theorem deploy_exits_on_malformed_private_key
    (w : oracle) (env : gmap string string) :
  malformed_private_key env ->
  result_of w (Deploy.main env) = Exited 1
  /\ trace_of w (Deploy.main env) = trace_of w (Deploy.validateEnvironment env)
  /\ forallb (fun e => negb (Deploy.touches_network e))
       (trace_of w (Deploy.main env)) = true
  /\ no_call (trace_of w (Deploy.main env)) = true.
Proof.
  intro Hbad.
  destruct (validateEnvironment_exits w env Hbad) as [t [Ht Hl]].
  assert (Hmain : run w (Deploy.main env) [] = (t, Exited 1)).
  { unfold Deploy.main, Deploy.deploy, try_catch, bindO.
    rewrite !run_bind, Ht. reflexivity. }
  unfold result_of, trace_of. rewrite Hmain, Ht. simpl.
  repeat split.
  - apply forallb_forall. intros e He.
    rewrite List.Forall_forall in Hl. specialize (Hl e He).
    destruct e as [[] | []]; simpl in *; try reflexivity; contradiction.
  - apply forallb_forall. intros e He.
    rewrite List.Forall_forall in Hl. specialize (Hl e He).
    destruct e as [[] | []]; simpl in *; try reflexivity; contradiction.
Qed.

(** ** Claiming with nothing earned *)

Lemma nothing_earned_true {N : JsNumber} {C : ContractModule}
    (s : StakingDashboard.State) :
  earned_absent_or_nonpositive (StakingDashboard.userStats s) ->
  StakingDashboard.nothing_earned s = true.
Proof.
  unfold earned_absent_or_nonpositive, StakingDashboard.nothing_earned.
  destruct (prop (StakingDashboard.userStats s) "earnedRewards") as [v |].
  - intros [n [-> Hn]]. simpl. unfold js_le. simpl.
    destruct (n =? 0) eqn:E; simpl; [reflexivity |].
    apply Z.leb_le. assumption.
  - reflexivity.
Qed.

Lemma nothing_earned_exit_true {N : JsNumber} {C : ContractModule}
    (s : StakingDashboardExit.State) :
  snapshot_absent_or_nonpositive (StakingDashboardExit.userStats s) ->
  StakingDashboardExit.nothing_earned s = true.
Proof.
  unfold snapshot_absent_or_nonpositive, StakingDashboardExit.nothing_earned.
  intros [-> | [n [Hp Hn]]]; [reflexivity |].
  destruct (StakingDashboardExit.userStats s) as [o |]; [| reflexivity].
  simpl in Hp. rewrite Hp. unfold js_le. simpl. apply Z.leb_le. assumption.
Qed.

(** C5.  When [earnedRewards] is absent or not positive, [handleClaim]
    returns at once: it sets no state and sends nothing, so no [getReward]
    transaction is submitted, and the Claim button is rendered disabled.
    This holds in [StakingDashboard.tsx] and in the revision with
    "Exit & Claim All", where an absent [earnedRewards] means that no user
    snapshot is stored. *)
Theorem handleClaim_noop_without_rewards {N : JsNumber} {C : ContractModule}
    (w : oracle) :
  (forall s : StakingDashboard.State,
      earned_absent_or_nonpositive (StakingDashboard.userStats s) ->
      run w (StakingDashboard.handleClaim s) [] = ([], Done tt)
      /\ StakingDashboard.claimDisabled s = true)
  /\ (forall s : StakingDashboardExit.State,
        snapshot_absent_or_nonpositive (StakingDashboardExit.userStats s) ->
        run w (StakingDashboardExit.handleClaim s) [] = ([], Done tt)
        /\ StakingDashboardExit.claimDisabled s = true).
Proof.
  split; intros s Hs.
  - apply nothing_earned_true in Hs.
    unfold StakingDashboard.handleClaim, StakingDashboard.claimDisabled.
    rewrite Hs. split; reflexivity.
  - apply nothing_earned_exit_true in Hs.
    unfold StakingDashboardExit.handleClaim, StakingDashboardExit.claimDisabled.
    rewrite Hs. split; reflexivity.
Qed.

(** ** The stake limit *)

Lemma parseEther_limit {N : JsNumber} :
  Viem.parseEther "1000000" = Resolved (10 ^ 24).
Proof. reflexivity. Qed.

Lemma parseEther_empty {N : JsNumber} : Viem.parseEther "" = Resolved 0.
Proof. reflexivity. Qed.

(** C10.  When the parsed stake amount exceeds [parseEther("1000000")], the
    [try] block of [handleStake] throws the error "Amount exceeds maximum
    stake limit of 1,000,000 BRAIDS" right after marking the transaction in
    progress; the handler reports it and ends.  No request is made at all:
    neither an approve nor a stake transaction is submitted. *)
Theorem handleStake_rejects_above_limit {N : JsNumber} {C : ContractModule}
    (w : oracle) (s : StakingDashboard.State) (parsedAmount limit : Z) :
  Viem.parseEther (StakingDashboard.stakeAmount s) = Resolved parsedAmount ->
  Viem.parseEther "1000000" = Resolved limit ->
  parsedAmount > limit ->
  run w (StakingDashboard.handleStake_try s) []
  = ([EvAct (SetState (setTransactionInProgress true))],
     Done (Rejected (Error StakingDashboard.MAX_STAKE_MESSAGE)))
  /\ trace_of w (StakingDashboard.handleStake s)
     = [EvAct (SetState (setTransactionInProgress true));
        EvAct (ConsoleError "Stake failed:"
                 (Some (Error StakingDashboard.MAX_STAKE_MESSAGE)));
        EvAct (SetState (setError (Some
          "Transaction failed! Contract Interaction with RON failed: Amount exceeds maximum stake limit of 1,000,000 BRAIDS")));
        EvAct (SetState (setTransactionInProgress false))]
  /\ no_call (trace_of w (StakingDashboard.handleStake s)) = true
  /\ no_write (trace_of w (StakingDashboard.handleStake s)) = true.
Proof.
  intros Hparse Hlimit Hgt.
  rewrite parseEther_limit in Hlimit. injection Hlimit as <-.
  assert (Hne : str_truthy (StakingDashboard.stakeAmount s) = true).
  { destruct (StakingDashboard.stakeAmount s) eqn:E; [| reflexivity].
    rewrite parseEther_empty in Hparse. injection Hparse as <-.
    exfalso. clear -Hgt. lia. }
  assert (Hpos : (parsedAmount <=? 0) = false) by (apply Z.leb_gt; lia).
  assert (Hover : (10 ^ 24 <? parsedAmount) = true) by (apply Z.ltb_lt; lia).
  assert (Htry : run w (StakingDashboard.handleStake_try s) []
                 = ([EvAct (SetState (setTransactionInProgress true))],
                    Done (Rejected (Error StakingDashboard.MAX_STAKE_MESSAGE)))).
  { unfold StakingDashboard.handleStake_try.
    rewrite Hparse, parseEther_limit.
    step. rewrite Hpos. step. rewrite Hover. reflexivity. }
  assert (Htrace : trace_of w (StakingDashboard.handleStake s)
     = [EvAct (SetState (setTransactionInProgress true));
        EvAct (ConsoleError "Stake failed:"
                 (Some (Error StakingDashboard.MAX_STAKE_MESSAGE)));
        EvAct (SetState (setError (Some
          "Transaction failed! Contract Interaction with RON failed: Amount exceeds maximum stake limit of 1,000,000 BRAIDS")));
        EvAct (SetState (setTransactionInProgress false))]).
  { unfold trace_of, StakingDashboard.handleStake, try_finally, try_catch.
    rewrite Hne. simpl negb. cbv iota.
    rewrite !run_bind, Htry. reflexivity. }
  split; [exact Htry |]. split; [exact Htrace |].
  rewrite Htrace. split; reflexivity.
Qed.

(** ** The read helpers when a read fails *)

(** Destruct the answers of the environment one after the other, and the
    tests that choose between two log lines. *)
Ltac answers :=
  repeat (step;
          match goal with
          | |- context [match ?w ?h ?r with
                        | Resolved _ => _ | Rejected _ => _ end] =>
              destruct (w h r) eqn:?
          | |- context [if ?b then act _ else act _] => destruct b
          end);
  step.

(** C8, as stated, fails for the [safeRead] revision: with [totalSupply]
    unreadable, a reward rate of 5 and a paused contract it resolves with
    [rewardRate = 5], [rewardForDuration = 3024000] and [isPaused = true]. *)
Lemma getStakingStats_safeRead_keeps_successful_reads :
  existsb (read_rejected "totalSupply")
    (trace_of totalSupply_down StakingContractSafeRead.getStakingStats) = true
  /\ result_of totalSupply_down StakingContractSafeRead.getStakingStats
     = Done (Resolved {| totalStaked := 0; rewardRate := 5;
                         rewardForDuration := 3024000; isPaused := true |})
  /\ ~ all_defaults_on_any_error StakingContractSafeRead.getStakingStats.
Proof.
  split; [reflexivity |]. split; [reflexivity |].
  intro H. specialize (H totalSupply_down eq_refl). discriminate H.
Qed.

(** C8, amended.  [getStakingStats] never rejects.  In
    [contracts/StakingContract.ts] an error in any of its three reads makes
    it resolve with [totalStaked = 0], [rewardRate = 0],
    [rewardForDuration = 0] and [isPaused = false].  In the [safeRead]
    revision every read falls back on its own: a failed [totalSupply] gives
    [totalStaked = 0], a failed [rewardRate] gives [rewardRate = 0] and
    [rewardForDuration = 0], a failed [paused] gives [isPaused = false];
    and the reads that succeed keep their values. *)
Theorem getStakingStats_never_rejects (w : oracle) :
  (exists st,
      result_of w StakingContract.getStakingStats = Done (Resolved st)
      /\ (existsb call_rejected (trace_of w StakingContract.getStakingStats)
          = true -> st = StakingContract.defaultStakingStats))
  /\ (exists st,
        let t := trace_of w StakingContractSafeRead.getStakingStats in
        result_of w StakingContractSafeRead.getStakingStats
        = Done (Resolved st)
        /\ (existsb (read_rejected "totalSupply") t = true ->
            totalStaked st = 0)
        /\ (existsb (read_rejected "rewardRate") t = true ->
            rewardRate st = 0 /\ rewardForDuration st = 0)
        /\ (existsb (read_rejected "paused") t = true ->
            isPaused st = false)
        /\ (existsb (read_rejected "totalSupply") t = false ->
            first_answer (uint_answer "totalSupply") t
            = Some (totalStaked st))
        /\ (existsb (read_rejected "rewardRate") t = false ->
            first_answer (uint_answer "rewardRate") t = Some (rewardRate st)
            /\ rewardForDuration st = rewardRate st * 604800)
        /\ (existsb (read_rejected "paused") t = false ->
            first_answer (bool_answer "paused") t = Some (isPaused st))).
Proof.
  split.
  - unfold result_of, trace_of, StakingContract.getStakingStats,
      StakingContract.read_uint, StakingContract.read_bool.
    answers; eexists; (split; [reflexivity |]); intro H;
      try reflexivity; discriminate H.
  - unfold result_of, trace_of, StakingContractSafeRead.getStakingStats,
      StakingContractSafeRead.safeRead, StakingContractSafeRead.read_uint,
      StakingContractSafeRead.read_bool.
    cbv zeta.
    answers; eexists; (split; [reflexivity |]);
      (split; [| split; [| split; [| split; [| split]]]]);
      intro H; try discriminate H; try split; reflexivity.
Qed.

(** ** [checkRole] *)

(** C9 in [contracts/StakingContract.ts]: [checkRole] settles exactly as
    the [hasRole] read does, so a failed read makes it reject with the
    error of the read instead of resolving to [false]. *)
Theorem checkRole_settles_as_the_read
    (w : oracle) (address : string) (role : StakingContract.role) :
  let read := ReadBool StakingContract.STAKING_CONTRACT_ADDRESS "hasRole"
                [VString (StakingContract.ROLES role); VString address] in
  run w (StakingContract.checkRole address role) []
  = ([EvCall read (w [] read)], Done (w [] read)).
Proof. reflexivity. Qed.

(** At the failing input: with the network down, [checkRole] rejects. *)
Example checkRole_rejects_when_offline :
  result_of offline (StakingContract.checkRole "0xabc" StakingContract.ADMIN)
  = Done (Rejected (Error "network error")).
Proof. reflexivity. Qed.

(** The [safeRead] revision does what C9 says: it never rejects, and
    resolves to [false] when the read fails. *)
Lemma checkRole_safeRead_never_rejects
    (w : oracle) (address : string) (role : StakingContract.role) :
  let read := ReadBool StakingContractSafeRead.STAKING_CONTRACT_ADDRESS
                "hasRole"
                [VString (StakingContract.ROLES role); VString address] in
  result_of w (StakingContractSafeRead.checkRole address role)
  = Done (Resolved (match w [] read with
                    | Resolved b => b
                    | Rejected _ => false
                    end)).
Proof.
  unfold result_of, StakingContractSafeRead.checkRole,
    StakingContractSafeRead.safeRead, StakingContractSafeRead.read_bool.
  cbv zeta. answers; reflexivity.
Qed.

(** ** The APR estimate *)

Lemma StakingStats_object_dailyRewards (st : StakingStats) :
  StakingStats_object st !! "dailyRewards" = None.
Proof. unfold StakingStats_object. by simplify_map_eq. Qed.

Lemma StakingStats_object_totalStaked (st : StakingStats) :
  StakingStats_object st !! "totalStaked" = Some (VBigInt (totalStaked st)).
Proof. unfold StakingStats_object. by simplify_map_eq. Qed.

(** [calculateAPR] follows the formula when both of its inputs are there. *)
Lemma calculateAPR_formula {N : JsNumber} {C : ContractModule}
    (s : StakingDashboard.State) (o : jsobj) (d t : Z) :
  StakingDashboard.stakingStats s = Some o ->
  o !! "dailyRewards" = Some (VBigInt d) ->
  o !! "totalStaked" = Some (VBigInt t) ->
  d <> 0 -> t <> 0 ->
  num_gtb (Number_ (Viem.formatEther t)) (of_int 0) = true ->
  StakingDashboard.calculateAPR s
  = num_mul (num_div (num_mul (Number_ (Viem.formatEther d)) (of_int 365))
                     (Number_ (Viem.formatEther t)))
            (of_int 100).
Proof.
  intros Hs Hd Ht Hd0 Ht0 Hpos. unfold StakingDashboard.calculateAPR.
  rewrite Hs. simpl prop. rewrite Hd, Ht. simpl truthy_opt.
  apply Z.eqb_neq in Hd0, Ht0. rewrite Hd0, Ht0. simpl.
  unfold formatEther_value, Viem.formatEther, Viem.formatUnits in *.
  simpl js_toString. rewrite Hpos. reflexivity.
Qed.

Lemma after_no_dailyRewards {N : JsNumber} {C : ContractModule}
    (t : trace) (s : StakingDashboard.State) :
  Forall stores_no_dailyRewards t ->
  prop (StakingDashboard.stakingStats s) "dailyRewards" = None ->
  prop (StakingDashboard.stakingStats (StakingDashboard.after s t))
       "dailyRewards" = None.
Proof.
  intro Ht. revert s. induction Ht as [| e t He Ht IH]; intros s Hs.
  - exact Hs.
  - simpl. apply IH.
    destruct e as [[| | | | | u] |]; simpl; try exact Hs.
    destruct u; simpl; try exact Hs.
    destruct v; simpl in *; [exact He | reflexivity].
Qed.

(** Prove [produces P p] by following the structure of [p]. *)
Ltac produces_tac :=
  repeat match goal with
         | |- produces _ (bind _ _) => apply produces_bind; [| intro]
         | |- produces _ (bindO _ _) => unfold bindO
         | |- produces _ (try_catch _ _) => unfold try_catch
         | |- produces _ (try_finally _ _) => unfold try_finally
         | |- produces _ (catch_null _) => unfold catch_null
         | |- produces _ (Promise_all2 _ _) => unfold Promise_all2
         | |- produces _ (Promise_all3 _ _ _) => unfold Promise_all3
         | |- produces _ (Promise_all4 _ _ _ _) => unfold Promise_all4
         | |- produces _ (await _) => unfold await
         | |- produces _ (throw _) => constructor
         | |- produces _ (ok _) => constructor
         | |- produces _ (set _) => unfold set
         | |- produces _ (act _) => unfold act
         | |- produces _ (Ret _) => constructor
         | |- produces _ (Act _ _) => constructor
         | |- produces _ (Call _ _) => constructor; intro
         | |- produces _ (match ?o with _ => _ end) => destruct o
         end.

Lemma getStakingStats_only_asks (P : event -> Prop) :
  (forall a, match a with SetState _ => True | _ => P (EvAct a) end) ->
  (forall r o, P (EvCall r o)) ->
  produces P StakingContract.getStakingStats.
Proof.
  intros Ha Hc. unfold StakingContract.getStakingStats,
    StakingContract.read_uint, StakingContract.read_bool.
  produces_tac; try apply Hc;
    match goal with |- P (EvAct ?a) => exact (Ha a) end.
Qed.

Lemma getUserStats_only_asks (P : event -> Prop) (address : string) :
  (forall a, match a with SetState _ => True | _ => P (EvAct a) end) ->
  (forall r o, P (EvCall r o)) ->
  produces P (StakingContract.getUserStats address).
Proof.
  intros Ha Hc. unfold StakingContract.getUserStats,
    StakingContract.read_uint.
  produces_tac; try apply Hc;
    match goal with |- P (EvAct ?a) => exact (Ha a) end.
Qed.

Lemma fetchData_stores_no_dailyRewards {N : JsNumber}
    (s : @StakingDashboard.State) :
  produces stores_no_dailyRewards
    (@StakingDashboard.fetchData contractModule s).
Proof.
  unfold StakingDashboard.fetchData.
  destruct (StakingDashboard.address s) as [a |]; [| constructor].
  destruct (StakingDashboard.publicClient s); [| constructor].
  simpl getStakingStats. simpl getUserStats.
  produces_tac;
    try (apply getStakingStats_only_asks; [intros []; exact I | intros; exact I]);
    try (apply getUserStats_only_asks; [intros []; exact I | intros; exact I]);
    try exact I.
  apply StakingStats_object_dailyRewards.
Qed.

(** C2 on the code: whatever the contract answers, the snapshot stored by
    the first [fetchData] has no [dailyRewards] property, so [calculateAPR]
    returns 0 on it. *)
Theorem calculateAPR_zero_after_fetch {N : JsNumber}
    (w : oracle) (address : option string) (publicClient : bool)
    (braidsBalance : option Z) :
  let s0 := StakingDashboard.initialState address publicClient braidsBalance in
  let s1 := StakingDashboard.after s0
              (trace_of w (@StakingDashboard.fetchData contractModule s0)) in
  @StakingDashboard.calculateAPR N s1 = of_int 0.
Proof.
  intros s0 s1. unfold StakingDashboard.calculateAPR.
  assert (H : prop (StakingDashboard.stakingStats s1) "dailyRewards" = None).
  { apply (@after_no_dailyRewards N contractModule); [| reflexivity].
    apply produces_run; [apply fetchData_stores_no_dailyRewards | constructor]. }
  rewrite H. reflexivity.
Qed.

(** On that pool the dashboard stores [totalStaked = 1000] tokens and shows
    an APR of 0.00%. *)
Example apr_of_a_funded_pool :
  let s0 := StakingDashboard.initialState (Some "0xuser") true None in
  let s1 := StakingDashboard.after s0
              (trace_of funded_pool
                 (@StakingDashboard.fetchData contractModule s0)) in
  prop (StakingDashboard.stakingStats s1) "totalStaked"
  = Some (VBigInt (1000 * 10 ^ 18))
  /\ prop (StakingDashboard.stakingStats s1) "rewardRate"
     = Some (VBigInt (10 ^ 18))
  /\ @StakingDashboard.renderedAPR exactNumber s1 = "0.00%".
Proof. vm_compute. repeat split. Qed.

(** ** The wrong network *)

(** C1, as stated, fails: on chain 1 [handleStake] submits the approve and
    the stake transaction, [handleUnstake] the withdrawal, [handleClaim]
    and [handleRestake] the [getReward] transaction, and the admin's
    [handlePauseToggle] the pause transaction. *)
Lemma handlers_write_on_wrong_network :
  existsb (is_write_of "approve")
    (trace_of wrong_network
       (@StakingDashboard.handleStake exactNumber contractModule staker))
  = true
  /\ existsb (is_write_of "stake")
       (trace_of wrong_network
          (@StakingDashboard.handleStake exactNumber contractModule staker))
     = true
  /\ ~ refuses_on_wrong_network
         (@StakingDashboard.handleStake exactNumber contractModule)
  /\ ~ refuses_on_wrong_network
         (@StakingDashboard.handleUnstake exactNumber contractModule)
  /\ ~ refuses_on_wrong_network
         (@StakingDashboard.handleClaim contractModule)
  /\ ~ refuses_on_wrong_network
         (@StakingDashboard.handleRestake contractModule)
  /\ ~ refuses_on_wrong_network
         (@AdminDashboard.handlePauseToggle contractModule).
Proof.
  split; [vm_compute; reflexivity |].
  split; [vm_compute; reflexivity |].
  assert (H1 : (1 : Z) <> EXPECTED_CHAIN_ID) by (vm_compute; discriminate).
  repeat split; intro H.
  - specialize (H wrong_network staker 1 (fun _ => eq_refl) H1).
    vm_compute in H. discriminate H.
  - specialize (H wrong_network staker 1 (fun _ => eq_refl) H1).
    vm_compute in H. discriminate H.
  - specialize (H wrong_network staker 1 (fun _ => eq_refl) H1).
    vm_compute in H. discriminate H.
  - specialize (H wrong_network staker 1 (fun _ => eq_refl) H1).
    vm_compute in H. discriminate H.
  - specialize (H wrong_network admin 1 (fun _ => eq_refl) H1).
    vm_compute in H. discriminate H.
Qed.

(** C1, amended.  While the client reports a chain other than 2020,
    [fetchData] reads nothing from the contract, stores no snapshot and
    sets the error to "Please connect to Ronin Mainnet" (the admin
    dashboard: "Failed to load admin data: Please connect to Ronin
    mainnet").  The handlers do not look at the chain themselves: as long
    as no user snapshot has been stored, [handleClaim] and [handleRestake]
    send nothing. *)
Theorem fetchData_refuses_wrong_network {N : JsNumber} {C : ContractModule}
    (w : oracle) (chainId : Z) :
  (forall h, w h GetChainId = Resolved chainId) ->
  chainId <> EXPECTED_CHAIN_ID ->
  (forall (s : StakingDashboard.State) (a : string),
      StakingDashboard.address s = Some a ->
      StakingDashboard.publicClient s = true ->
      let t := trace_of w (StakingDashboard.fetchData s) in
      let s' := StakingDashboard.after s t in
      t = wrong_network_trace chainId
      /\ no_write t = true
      /\ StakingDashboard.error s' = Some WRONG_NETWORK
      /\ StakingDashboard.stakingStats s' = StakingDashboard.stakingStats s
      /\ StakingDashboard.userStats s' = StakingDashboard.userStats s
      /\ (StakingDashboard.userStats s = None ->
          trace_of w (StakingDashboard.handleClaim s') = []
          /\ trace_of w (StakingDashboard.handleRestake s') = []))
  /\ (forall (s : AdminDashboard.State) (a : string),
        AdminDashboard.address s = Some a ->
        AdminDashboard.publicClient s = true ->
        trace_of w (AdminDashboard.fetchData s)
        = admin_wrong_network_trace chainId
        /\ no_write (trace_of w (AdminDashboard.fetchData s)) = true).
Proof.
  intros Hchain Hne.
  assert (Hneq : (chainId =? 2020) = false) by (apply Z.eqb_neq; exact Hne).
  split.
  - intros s a Ha Hpc t s'.
    assert (Ht : t = wrong_network_trace chainId).
    { subst t. unfold trace_of, StakingDashboard.fetchData.
      rewrite Ha, Hpc. step. rewrite Hchain. step. rewrite Hneq. reflexivity. }
    subst s'. rewrite Ht. split; [reflexivity |]. split; [reflexivity |].
    split; [reflexivity |]. split; [reflexivity |]. split; [reflexivity |].
    intro Hnone.
    unfold trace_of, StakingDashboard.handleClaim,
      StakingDashboard.handleRestake, StakingDashboard.nothing_earned.
    simpl StakingDashboard.userStats. rewrite Hnone. split; reflexivity.
  - intros s a Ha Hpc.
    assert (Ht : trace_of w (AdminDashboard.fetchData s)
                 = admin_wrong_network_trace chainId).
    { unfold trace_of, AdminDashboard.fetchData.
      rewrite Ha, Hpc. step. rewrite Hchain. step. rewrite Hneq. reflexivity. }
    rewrite Ht. split; reflexivity.
Qed.

(** ** Depositing rewards: approve, then deposit *)

Lemma transactions_app (a b : trace) :
  transactions (a ++ b) = transactions a ++ transactions b.
Proof. apply List.filter_app. Qed.

(** C3 on the code.  Take a deposit whose parsed amount exceeds the
    current allowance, and a run of [handleDepositRewards] that gets as far
    as reading the allowance.  The first transaction submitted is the
    approval, and [depositRewards] is submitted only after the approval was
    submitted and its receipt awaited.  When the wallet rejects the
    approval, or no receipt can be obtained, nothing else is submitted.
    But the receipt is dropped unread: once it has arrived, whatever its
    status, [depositRewards] is submitted next, also after an approval that
    was mined and reverted. *)
Theorem handleDepositRewards_approves_first
    {N : JsNumber} {C : ContractModule}
    (w : oracle) (s : AdminDashboard.State) (parsedAmount allowance : Z) :
  Viem.parseEther (AdminDashboard.depositAmount s) = Resolved parsedAmount ->
  (forall h, w h (allowance_read s) = Resolved allowance) ->
  allowance < parsedAmount ->
  In (EvCall (allowance_read s) (Resolved allowance))
     (trace_of w (AdminDashboard.handleDepositRewards s)) ->
  let t := transactions (trace_of w (AdminDashboard.handleDepositRewards s)) in
  approve_then_deposit parsedAmount t
  /\ forall hash receipt rest,
       t = EvCall (approve_tx parsedAmount) (Resolved hash)
           :: EvCall (WaitForTransactionReceipt hash) (Resolved receipt)
           :: rest ->
       exists o rest', rest = EvCall (deposit_tx parsedAmount) o :: rest'.
Proof.
  intros Hparse Hallow Hlt Hin t.
  assert (Hshape : approve_then_deposit parsedAmount t).
  { subst t. revert Hin.
    apply Z.ltb_lt in Hlt.
    unfold trace_of, AdminDashboard.handleDepositRewards,
      AdminDashboard.validateDepositAmount, AdminDashboard.approveStep,
      AdminDashboard.depositStep, AdminDashboard.approve,
      AdminDashboard.depositRewards, AdminDashboard.client.
    fold (approve_tx parsedAmount). fold (deposit_tx parsedAmount).
    destruct (str_truthy (AdminDashboard.depositAmount s));
      [| simpl; intuition discriminate].
    destruct (isNaN (parseFloat (AdminDashboard.depositAmount s)));
      [simpl; intuition discriminate |].
    destruct (num_leb (parseFloat (AdminDashboard.depositAmount s))
                (of_int 0));
      [simpl; intuition discriminate |].
    step.
    destruct (AdminDashboard.is_idle (AdminDashboard.depositTxStatus s));
      [| simpl; intuition discriminate].
    rewrite Hparse. unfold AdminDashboard.handleTransactionError.
    destruct (AdminDashboard.publicClient s).
    2:{ step.
        repeat match goal with
               | |- context [if ?b then set _ else _] => destruct b
               end; simpl; intuition discriminate. }
    step.
    match goal with
    | |- context [match ?w ?h ?r with
                  | Resolved _ => _ | Rejected _ => _ end] =>
        destruct (w h r) as [balance | e] eqn:Hbalance
    end.
    2:{ step.
        repeat match goal with
               | |- context [if ?b then set _ else _] => destruct b
               end; simpl; intuition discriminate. }
    step.
    destruct (balance <? parsedAmount); [simpl; intuition discriminate |].
    step. fold (allowance_read s). rewrite !Hallow. step. rewrite Hlt.
    intros _. step.
    match goal with
    | |- context [match ?w ?h ?r with
                  | Resolved _ => _ | Rejected _ => _ end] =>
        destruct (w h r) as [hash | e] eqn:Happrove
    end.
    2:{ step. apply approve_rejected. }
    step.
    match goal with
    | |- context [match ?w ?h ?r with
                  | Resolved _ => _ | Rejected _ => _ end] =>
        destruct (w h r) as [receipt | e] eqn:Hwait
    end.
    2:{ step. apply confirmation_rejected. }
    step.
    match goal with
    | |- context [fst (run ?w ?p ?h)] =>
        destruct (run_extends w p h) as [tl ->]
    end.
    rewrite transactions_app. apply deposit_attempted. }
  split; [exact Hshape |].
  intros hash receipt rest Ht. rewrite Ht in Hshape.
  inversion Hshape; subst. eexists. eexists. reflexivity.
Qed.

(** ** Retrying reads *)

Section Retry.
Context {N : JsNumber}.

Lemma retry_loop_retried (w : oracle) (r : request) (maxRetries : Z)
    (k : nat) :
  forall (i : Z) (h : trace),
    (0 < k)%nat ->
    i + Z.of_nat k = maxRetries ->
    exists t res,
      run w (Alchemy.retry_loop (await r) maxRetries i k) h
      = (h ++ t, Done res)
      /\ retried r maxRetries i t res
      /\ (attempts t <= k)%nat.
Proof.
  induction k as [| k IH]; intros i h Hk Hi; [lia |].
  cbn [Alchemy.retry_loop]. step.
  destruct (w h r) as [x | e] eqn:Hw; step.
  - exists [EvCall r (Resolved x)], (Resolved (Some x)).
    split; [reflexivity |].
    split; [apply retried_success | unfold attempts; simpl; lia].
  - destruct (i =? maxRetries - 1) eqn:Hlast; step.
    + apply Z.eqb_eq in Hlast.
      exists [EvCall r (Rejected e); attempt_failed i e], (Rejected e).
      rewrite <- app_assoc.
      split; [reflexivity |].
      split; [now apply retried_rethrow | unfold attempts; simpl; lia].
    + apply Z.eqb_neq in Hlast.
      destruct k as [| k']; [lia |].
      destruct (IH (i + 1)
                  (((h ++ [EvCall r (Rejected e)])
                    ++ [EvAct (ConsoleError
                          (String.append "Attempt "
                             (String.append (Z_toString (i + 1)) " failed:"))
                          (Some e))])
                   ++ [EvAct (SetTimeout (1000 * (i + 1)))]))
        as [t [res [Hrun [Hshape Hcount]]]]; [lia | lia |].
      rewrite Hrun.
      exists (EvCall r (Rejected e) :: attempt_failed i e
              :: EvAct (SetTimeout (1000 * (i + 1))) :: t), res.
      rewrite <- !app_assoc. split; [reflexivity |].
      split; [now apply retried_again |].
      unfold attempts in *. simpl. lia.
Qed.

(** For any positive [maxRetries]: at most [maxRetries] attempts, in the
    order described by [retried]. *)
Lemma retryOperation_retried (w : oracle) (r : request) (maxRetries : Z) :
  0 < maxRetries ->
  exists t res,
    run w (Alchemy.retryOperation (await r) maxRetries) [] = (t, Done res)
    /\ retried r maxRetries 0 t res
    /\ (Z.of_nat (attempts t) <= maxRetries).
Proof.
  intro Hpos. unfold Alchemy.retryOperation.
  destruct (retry_loop_retried w r maxRetries (Z.to_nat maxRetries) 0 [])
    as [t [res [Hrun [Hshape Hcount]]]]; [lia | lia |].
  exists t, res. split; [exact Hrun |]. split; [exact Hshape | lia].
Qed.

End Retry.

Lemma retried_attempts_pos (r : request) (m i : Z) (t : trace)
    (res : outcome (option (resp r))) :
  retried r m i t res -> (1 <= attempts t)%nat.
Proof.
  unfold attempts. induction 1; simpl; lia.
Qed.

(** The pause after the attempt of index [j] lasts [1000 * (j + 1)] ms. *)
Lemma retried_delays (r : request) (m i : Z) (t : trace)
    (res : outcome (option (resp r))) :
  retried r m i t res ->
  delays t
  = map (fun j => 1000 * (i + Z.of_nat j + 1)) (seq 0 (attempts t - 1)).
Proof.
  induction 1 as [i x | i e Hi | i e t res Hi Hrec IH].
  - reflexivity.
  - reflexivity.
  - pose proof (retried_attempts_pos _ _ _ _ _ Hrec) as Hpos.
    change (delays (EvCall r (Rejected e) :: attempt_failed i e
                    :: EvAct (SetTimeout (1000 * (i + 1))) :: t))
      with (1000 * (i + 1) :: delays t).
    replace (attempts (EvCall r (Rejected e) :: attempt_failed i e
                       :: EvAct (SetTimeout (1000 * (i + 1))) :: t) - 1)%nat
      with (S (attempts t - 1)) by (unfold attempts in *; simpl; lia).
    rewrite IH. cbn [seq map]. f_equal.
    + f_equal. lia.
    + rewrite <- seq_shift, map_map. apply map_ext. intro j. f_equal. lia.
Qed.

(** A run that ends in an error made all the attempts allowed, every one of
    them failed, and the error is that of the last one; a run that ends in
    a value failed on all attempts but the last. *)
Lemma retried_outcome (r : request) (m i : Z) (t : trace)
    (res : outcome (option (resp r))) :
  retried r m i t res ->
  match res with
  | Rejected e =>
      Z.of_nat (attempts t) = m - i
      /\ length (rejections t) = attempts t
      /\ List.last (rejections t) (Error "") = e
  | Resolved _ => S (length (rejections t)) = attempts t
  end.
Proof.
  induction 1 as [i x | i e Hi | i e t res Hi Hrec IH].
  - reflexivity.
  - unfold attempts. simpl. repeat split. lia.
  - pose proof (retried_attempts_pos _ _ _ _ _ Hrec) as Hpos.
    change (rejections (EvCall r (Rejected e) :: attempt_failed i e
                        :: EvAct (SetTimeout (1000 * (i + 1))) :: t))
      with (e :: rejections t).
    replace (attempts (EvCall r (Rejected e) :: attempt_failed i e
                       :: EvAct (SetTimeout (1000 * (i + 1))) :: t))
      with (S (attempts t)) by (unfold attempts; reflexivity).
    destruct res as [x | e'].
    + simpl. lia.
    + destruct IH as [Hn [Hall Hlast]]. repeat split.
      * lia.
      * simpl. lia.
      * destruct (rejections t) as [| e1 l] eqn:Hr.
        -- simpl in Hall. lia.
        -- exact Hlast.
Qed.




Section ValidatorRun.
Context {N : JsNumber}.


End ValidatorRun.

Section ReadDefaults.
Context {N : JsNumber}.



End ReadDefaults.


(** A read that fails twice and then answers goes through: the balance is
    returned after pauses of 1000 and 2000 ms. *)
Example getTokenBalance_of_a_flaky_api :
  result_of flaky_token_api (Alchemy.getTokenBalance "0xa" "0xb")
  = Done (Resolved "7")
  /\ rejections
       (trace_of flaky_token_api (Alchemy.getTokenBalance "0xa" "0xb"))
     = [Error "timeout"; Error "timeout"]
  /\ delays (trace_of flaky_token_api (Alchemy.getTokenBalance "0xa" "0xb"))
     = [1000; 2000].
Proof. vm_compute. repeat split. Qed.

(** ** Amounts: from decimal text to base units and back *)

Lemma is_digit_not_dot (c : ascii) :
  is_digit c = true -> Ascii.eqb c "." = false.
Proof.
  destruct c as [[] [] [] [] [] [] [] []]; simpl; intro H;
    try reflexivity; discriminate H.
Qed.

Lemma is_digit_not_minus (c : ascii) :
  is_digit c = true -> Ascii.eqb c "-" = false.
Proof.
  destruct c as [[] [] [] [] [] [] [] []]; simpl; intro H;
    try reflexivity; discriminate H.
Qed.

Lemma digit_char_spec (d : Z) :
  0 <= d < 10 -> is_digit (digit_char d) = true /\ digit_val (digit_char d) = d.
Proof.
  intro H.
  assert (Hd : d = 0 \/ d = 1 \/ d = 2 \/ d = 3 \/ d = 4 \/ d = 5 \/ d = 6
               \/ d = 7 \/ d = 8 \/ d = 9) by lia.
  repeat (destruct Hd as [-> | Hd]; [split; reflexivity |]).
  subst d. split; reflexivity.
Qed.

Lemma digit_val_range (c : ascii) : is_digit c = true -> 0 <= digit_val c < 10.
Proof.
  unfold is_digit, digit_val. intro H.
  apply andb_true_iff in H. destruct H as [H1 H2].
  apply N.leb_le in H1, H2. lia.
Qed.

Lemma fold_digits (s : chars) (acc : Z) :
  fold_left (fun a c => 10 * a + digit_val c) s acc
  = acc * 10 ^ Z.of_nat (length s) + digits_value s.
Proof.
  unfold digits_value. revert acc.
  induction s as [| c s IH]; intro acc.
  - simpl. lia.
  - cbn [fold_left length]. rewrite (IH (10 * acc + digit_val c)).
    rewrite (IH (10 * 0 + digit_val c)).
    rewrite Nat2Z.inj_succ, Z.pow_succ_r by lia. ring.
Qed.

Lemma digits_value_app (a b : chars) :
  digits_value (a ++ b)
  = digits_value a * 10 ^ Z.of_nat (length b) + digits_value b.
Proof.
  unfold digits_value at 1. rewrite fold_left_app.
  fold (digits_value a). apply fold_digits.
Qed.

Lemma digits_value_cons (c : ascii) (s : chars) :
  digits_value (c :: s)
  = digit_val c * 10 ^ Z.of_nat (length s) + digits_value s.
Proof.
  change (c :: s) with ([c] ++ s). rewrite digits_value_app.
  unfold digits_value at 1. simpl fold_left. f_equal.
Qed.

Lemma digits_value_nonneg (s : chars) :
  all_digits s = true -> 0 <= digits_value s.
Proof.
  induction s as [| c s IH]; intro H.
  - unfold digits_value. simpl. lia.
  - simpl in H. apply andb_true_iff in H. destruct H as [Hc Hs].
    rewrite digits_value_cons. specialize (IH Hs).
    pose proof (digit_val_range c Hc).
    assert (0 <= 10 ^ Z.of_nat (length s)) by (apply Z.pow_nonneg; lia).
    nia.
Qed.

Lemma digits_value_zeros (k : nat) : digits_value (repeat "0"%char k) = 0.
Proof.
  induction k as [| k IH].
  - reflexivity.
  - cbn [repeat]. rewrite digits_value_cons, IH.
    change (digit_val "0") with 0. lia.
Qed.

Lemma all_digits_zeros (k : nat) : all_digits (repeat "0"%char k) = true.
Proof. induction k; simpl; auto. Qed.

Lemma all_digits_app (a b : chars) :
  all_digits (a ++ b) = all_digits a && all_digits b.
Proof. apply forallb_app. Qed.

Lemma drop_zeros_spec (s : chars) :
  exists k, s = repeat "0"%char k ++ drop_zeros s.
Proof.
  induction s as [| c s [k Hk]].
  - exists O. reflexivity.
  - simpl. destruct (Ascii.eqb c "0") eqn:E.
    + apply Ascii.eqb_eq in E. subst c. exists (S k). simpl. now f_equal.
    + exists O. reflexivity.
Qed.

Lemma rev_zeros (k : nat) : rev (repeat "0"%char k) = repeat "0"%char k.
Proof.
  induction k as [| k IH]; [reflexivity |].
  simpl. rewrite IH. clear IH.
  induction k as [| k IH]; [reflexivity |]. simpl. now f_equal.
Qed.

(** Trimming removes a block of zeros at the end, and nothing else. *)
Lemma trim_trailing_zeros_spec (s : chars) :
  exists k, s = trim_trailing_zeros s ++ repeat "0"%char k.
Proof.
  unfold trim_trailing_zeros.
  destruct (drop_zeros_spec (rev s)) as [k Hk]. exists k.
  rewrite <- (rev_zeros k), <- List.rev_app_distr, <- Hk.
  symmetry. apply List.rev_involutive.
Qed.

Lemma split_dot_digits (s : chars) :
  all_digits s = true -> split_dot s = (s, None).
Proof.
  induction s as [| c s IH]; intro H; [reflexivity |].
  simpl in H. apply andb_true_iff in H. destruct H as [Hc Hs].
  simpl. rewrite (is_digit_not_dot c Hc), (IH Hs). reflexivity.
Qed.

Lemma split_dot_app (i f : chars) :
  all_digits i = true -> split_dot (i ++ "."%char :: f) = (i, Some f).
Proof.
  induction i as [| c i IH]; intro H; [reflexivity |].
  simpl in H. apply andb_true_iff in H. destruct H as [Hc Hs].
  simpl. rewrite (is_digit_not_dot c Hc), (IH Hs). reflexivity.
Qed.

(** A string is cut by [split_dot] at its first dot. *)
Lemma split_dot_inv (s i : chars) (f : option chars) :
  split_dot s = (i, f) ->
  s = i ++ match f with Some f => "."%char :: f | None => [] end.
Proof.
  revert i f. induction s as [| c s IH]; intros i f H.
  - simpl in H. injection H as <- <-. reflexivity.
  - simpl in H. destruct (Ascii.eqb c ".") eqn:E.
    + apply Ascii.eqb_eq in E. subst c. injection H as <- <-. reflexivity.
    + destruct (split_dot s) as [i' f'] eqn:Hs. injection H as <- <-.
      simpl. f_equal. now apply IH.
Qed.

Lemma starts_with_minus_digits (s : chars) :
  all_digits s = true -> starts_with_minus s = false.
Proof.
  destruct s as [| c s]; [reflexivity |]. simpl. intro H.
  apply andb_true_iff in H. destruct H as [Hc _].
  now apply is_digit_not_minus.
Qed.

(** The digits written by [nat_digits] read back as the number. *)
Lemma digits_fuel_spec (f : nat) :
  forall (n : Z) (acc : chars),
    0 <= n < 2 ^ Z.of_nat (S f) ->
    exists ds,
      digits_fuel (S f) n acc = ds ++ acc
      /\ all_digits ds = true /\ digits_value ds = n /\ ds <> [].
Proof.
  induction f as [| f IH]; intros n acc Hn.
  - assert (Hq : n / 10 = 0) by (apply Z.div_small; simpl in Hn; lia).
    exists [digit_char (n mod 10)]. cbn [digits_fuel]. rewrite Hq. simpl Z.eqb.
    cbv iota.
    destruct (digit_char_spec (n mod 10)) as [Hd Hv];
      [apply Z.mod_pos_bound; lia |].
    split; [reflexivity |]. split; [simpl; now rewrite Hd |].
    split; [| discriminate].
    unfold digits_value. simpl. rewrite Hv.
    pose proof (Z.div_mod n 10 ltac:(lia)). lia.
  - destruct (digit_char_spec (n mod 10)) as [Hd Hv];
      [apply Z.mod_pos_bound; lia |].
    pose proof (Z.div_mod n 10 ltac:(lia)) as Hdm.
    cbn [digits_fuel]. destruct (n / 10 =? 0) eqn:Hq.
    + apply Z.eqb_eq in Hq.
      exists [digit_char (n mod 10)].
      split; [reflexivity |]. split; [simpl; now rewrite Hd |].
      split; [| discriminate].
      unfold digits_value. simpl. rewrite Hv. lia.
    + apply Z.eqb_neq in Hq.
      assert (Hb : 0 <= n / 10 < 2 ^ Z.of_nat (S f)).
      { split; [apply Z.div_pos; lia |].
        apply Z.div_lt_upper_bound; [lia |].
        rewrite (Nat2Z.inj_succ (S f)), Z.pow_succ_r in Hn by lia.
        assert (0 < 2 ^ Z.of_nat (S f)) by (apply Z.pow_pos_nonneg; lia).
        lia. }
      destruct (IH (n / 10) (digit_char (n mod 10) :: acc) Hb)
        as [ds [Hrun [Hall [Hval Hne]]]].
      exists (ds ++ [digit_char (n mod 10)]).
      split.
      { change (digits_fuel (S f) (n / 10) (digit_char (n mod 10) :: acc)
                = (ds ++ [digit_char (n mod 10)]) ++ acc).
        rewrite Hrun, <- app_assoc. reflexivity. }
      split.
      { rewrite all_digits_app, Hall. simpl. now rewrite Hd. }
      split.
      { rewrite digits_value_app, Hval. unfold digits_value at 1.
        simpl. rewrite Hv. lia. }
      destruct ds; discriminate.
Qed.

Lemma nat_digits_spec (n : Z) :
  0 <= n ->
  all_digits (nat_digits n) = true
  /\ digits_value (nat_digits n) = n
  /\ nat_digits n <> [].
Proof.
  intro Hn. unfold nat_digits.
  assert (Hb : 0 <= n < 2 ^ Z.of_nat (S (Z.to_nat (Z.log2 n)))).
  { split; [exact Hn |].
    rewrite Nat2Z.inj_succ, Z2Nat.id by apply Z.log2_nonneg.
    destruct (Z.eq_dec n 0) as [-> | Hz]; [reflexivity |].
    apply Z.log2_spec. lia. }
  destruct (digits_fuel_spec _ n [] Hb) as [ds [Hrun [Hall [Hval Hne]]]].
  rewrite Hrun, app_nil_r. auto.
Qed.

Lemma pow10_pos (n : nat) : Zpos (ExactNumber.pow10 n) = 10 ^ Z.of_nat n.
Proof.
  unfold ExactNumber.pow10. apply Z2Pos.id. apply Z.pow_pos_nonneg; lia.
Qed.

Lemma chr_str (l : chars) : chr (str l) = l.
Proof. apply list_ascii_of_string_of_list_ascii. Qed.

Lemma length_trim (s : chars) :
  (length (trim_trailing_zeros s) <= length s)%nat.
Proof.
  destruct (trim_trailing_zeros_spec s) as [k Hk].
  rewrite Hk at 2. rewrite List.length_app. lia.
Qed.

Lemma all_digits_trim (s : chars) :
  all_digits s = true -> all_digits (trim_trailing_zeros s) = true.
Proof.
  destruct (trim_trailing_zeros_spec s) as [k Hk]. intro H.
  rewrite Hk, all_digits_app in H. apply andb_true_iff in H. tauto.
Qed.

(** The value of a fraction does not depend on its trailing zeros. *)
Lemma digits_value_trim (s : chars) :
  digits_value s
  = digits_value (trim_trailing_zeros s)
    * 10 ^ Z.of_nat (length s - length (trim_trailing_zeros s)).
Proof.
  destruct (trim_trailing_zeros_spec s) as [k Hk].
  assert (Hlen : (length s - length (trim_trailing_zeros s))%nat = k).
  { rewrite Hk at 1. rewrite List.length_app, List.repeat_length. lia. }
  rewrite Hlen. rewrite Hk at 1.
  rewrite digits_value_app, digits_value_zeros, List.repeat_length. lia.
Qed.

Lemma parseEther_accepted {N : JsNumber} (s : string) :
  ui_accepts s = true ->
  (fraction_digits s <= 18)%nat ->
  exists n, Viem.parseEther s = Resolved n
            /\ 0 <= n
            /\ decimal_value s == tokens n.
Proof.
  unfold ui_accepts, fraction_digits, decimal_value.
  destruct (split_dot (chr s)) as [i f] eqn:Hsplit. simpl snd.
  intros Hacc Hlen. apply andb_true_iff in Hacc. destruct Hacc as [Hi Hf].
  set (f1 := match f with Some f => f | None => ["0"%char] end).
  set (f0 := match f with Some f => f | None => [] end).
  assert (Hf1 : all_digits f1 = true) by (subst f1; destruct f; auto).
  assert (Hlen1 : (length (trim_trailing_zeros f1) <= 18)%nat).
  { pose proof (length_trim f1). subst f1. destruct f; simpl in *; lia. }
  assert (Hminus : starts_with_minus (chr s) = false).
  { rewrite (split_dot_inv _ _ _ Hsplit).
    destruct i as [| c i]; [destruct f; reflexivity |].
    simpl in Hi. apply andb_true_iff in Hi. destruct Hi as [Hc _].
    simpl. now apply is_digit_not_minus. }
  exists (digits_value i * 10 ^ 18
          + digits_value (trim_trailing_zeros f1)
            * 10 ^ Z.of_nat (18 - length (trim_trailing_zeros f1))).
  split; [| split].
  - unfold Viem.parseEther, Viem.parseUnits, Viem.valid_decimal.
    rewrite Hminus, Hsplit, Hi, Hf. cbn [negb andb].
    rewrite (starts_with_minus_digits i Hi). fold f1.
    change (18 =? 0)%nat with false. cbv iota.
    replace (18 <? length (trim_trailing_zeros f1))%nat with false
      by (symmetry; apply Nat.ltb_ge; exact Hlen1).
    cbv iota beta. f_equal. unfold padEnd.
    rewrite !digits_value_app, digits_value_zeros, !List.length_app,
      List.repeat_length.
    replace (length (trim_trailing_zeros f1)
             + (18 - length (trim_trailing_zeros f1)))%nat with 18%nat by lia.
    change (Z.of_nat 18) with 18. lia.
  - pose proof (digits_value_nonneg i Hi).
    pose proof (digits_value_nonneg _ (all_digits_trim f1 Hf1)).
    assert (0 <= 10 ^ Z.of_nat (18 - length (trim_trailing_zeros f1)))
      by (apply Z.pow_nonneg; lia).
    nia.
  - unfold ExactNumber.decimal, tokens, Qeq. cbn [Qnum Qden].
    rewrite !pow10_pos. change (Z.of_nat 18) with 18.
    assert (Hval : digits_value f0 * 10 ^ 18
                   = digits_value (trim_trailing_zeros f1)
                     * 10 ^ Z.of_nat (18 - length (trim_trailing_zeros f1))
                     * 10 ^ Z.of_nat (length f0)).
    { subst f0 f1. destruct f as [f |].
      - rewrite (digits_value_trim f) at 1.
        pose proof (length_trim f) as Hle.
        set (t := trim_trailing_zeros f) in *.
        assert (E1 : 10 ^ 18
                     = 10 ^ Z.of_nat (18 - length t) * 10 ^ Z.of_nat (length t)).
        { rewrite <- Z.pow_add_r by lia. f_equal. lia. }
        assert (E2 : 10 ^ Z.of_nat (length f)
                     = 10 ^ Z.of_nat (length t)
                       * 10 ^ Z.of_nat (length f - length t)).
        { rewrite <- Z.pow_add_r by lia. f_equal. lia. }
        rewrite E1, E2. ring.
      - reflexivity. }
    ring_simplify. ring_simplify in Hval. lia.
Qed.

Lemma formatEther_value_of {N : JsNumber} (n : Z) :
  0 <= n ->
  decimal_value (Viem.formatEther n) == tokens n
  /\ ui_accepts (Viem.formatEther n) = true
  /\ (fraction_digits (Viem.formatEther n) <= 18)%nat.
Proof.
  intro Hn.
  destruct (nat_digits_spec n Hn) as [Hall [Hval Hne]].
  unfold Viem.formatEther, Viem.formatUnits, Viem.formatUnits_display,
    bigint_toString.
  replace (n <? 0) with false by (symmetry; apply Z.ltb_ge; exact Hn).
  rewrite (starts_with_minus_digits _ Hall).
  set (P := padStart 18 "0" (nat_digits n)).
  assert (HP : all_digits P = true).
  { subst P. unfold padStart. now rewrite all_digits_app, all_digits_zeros. }
  assert (HvP : digits_value P = n).
  { subst P. unfold padStart.
    rewrite digits_value_app, digits_value_zeros. lia. }
  assert (HlP : (18 <= length P)%nat).
  { subst P. unfold padStart.
    rewrite List.length_app, List.repeat_length. lia. }
  unfold slice, slice_from. rewrite Nat.sub_0_r.
  change (skipn 0 P) with P.
  set (I := firstn (length P - 18) P).
  set (F := skipn (length P - 18) P).
  assert (HIF : P = I ++ F) by (symmetry; apply List.firstn_skipn).
  assert (HlF : length F = 18%nat)
    by (subst F; rewrite List.length_skipn; lia).
  assert (HI : all_digits I = true /\ all_digits F = true).
  { rewrite HIF, all_digits_app in HP. now apply andb_true_iff in HP. }
  destruct HI as [HI HF].
  assert (Hsum : n = digits_value I * 10 ^ 18 + digits_value F).
  { rewrite <- HvP, HIF, digits_value_app, HlF. reflexivity. }
  pose proof (digits_value_trim F) as HtF.
  pose proof (length_trim F) as HlT.
  pose proof (all_digits_trim F HF) as HaT.
  set (T := trim_trailing_zeros F) in *.
  set (I' := match I with [] => ["0"%char] | _ => I end).
  assert (HI' : all_digits I' = true) by (subst I'; destruct I; auto).
  assert (HvI' : digits_value I' = digits_value I)
    by (subst I'; destruct I; reflexivity).
  cbn [app].
  unfold decimal_value, ui_accepts, fraction_digits. rewrite !chr_str.
  destruct T as [| c T'] eqn:HT.
  - (* a whole number of tokens *)
    rewrite app_nil_r, (split_dot_digits I' HI'). simpl snd.
    split; [| split; [now rewrite HI' | lia]].
    unfold ExactNumber.decimal, tokens, Qeq. cbn [Qnum Qden length].
    rewrite !pow10_pos. change (digits_value []) with 0 in *.
    rewrite HvI'. simpl Z.of_nat. lia.
  - rewrite (split_dot_app I' (c :: T') HI'). simpl snd.
    split; [| split; [now rewrite HI', HaT | lia]].
    unfold ExactNumber.decimal, tokens, Qeq. cbn [Qnum Qden].
    rewrite !pow10_pos, HvI'. change (Z.of_nat 18) with 18.
    rewrite HlF in HtF.
    assert (E : 10 ^ 18
                = 10 ^ Z.of_nat (length (c :: T'))
                  * 10 ^ Z.of_nat (18 - length (c :: T'))).
    { rewrite <- Z.pow_add_r by lia. f_equal. lia. }
    rewrite Hsum, HtF. revert E.
    generalize (10 ^ 18) (10 ^ Z.of_nat (length (c :: T')))
      (10 ^ Z.of_nat (18 - length (c :: T'))).
    intros p a b ->. ring.
Qed.

(** C6.  An amount that the input field accepts, with at most 18 digits
    after the dot, is read by [parseEther] as a non-negative number of base
    units, and [formatEther] writes that number back as a decimal text of
    the same value: the round trip changes at most the spelling (leading or
    trailing zeros, a bare dot), never the amount.  The dashboard displays
    [formatEther]'s text in full, so the value is recovered at the
    displayed precision.  Parsing the text again gives the same base units,
    as the MAX buttons need. *)
Theorem parseEther_formatEther_roundtrip {N : JsNumber} (s : string) :
  ui_accepts s = true ->
  (fraction_digits s <= 18)%nat ->
  exists n,
    Viem.parseEther s = Resolved n
    /\ 0 <= n
    /\ decimal_value (Viem.formatEther n) == decimal_value s
    /\ Viem.parseEther (Viem.formatEther n) = Resolved n.
Proof.
  intros Hacc Hlen.
  destruct (parseEther_accepted s Hacc Hlen) as [n [Hparse [Hn Hvalue]]].
  destruct (formatEther_value_of n Hn) as [Hback [Hacc' Hlen']].
  exists n. split; [exact Hparse |]. split; [exact Hn |]. split.
  - rewrite Hback, Hvalue. reflexivity.
  - destruct (parseEther_accepted _ Hacc' Hlen') as [m [Hparse' [Hm Hvalue']]].
    rewrite Hparse'. f_equal.
    rewrite Hback in Hvalue'. unfold tokens, Qeq in Hvalue'.
    cbn [Qnum Qden] in Hvalue'. nia.
Qed.

(** ** The theorems at concrete inputs *)

Lemma deploy_exits_on_short_key :
  malformed_private_key env_short_key
  /\ result_of offline (Deploy.main env_short_key) = Exited 1
  /\ trace_of offline (Deploy.main env_short_key)
     = trace_of offline (Deploy.validateEnvironment env_short_key)
  /\ forallb (fun e => negb (Deploy.touches_network e))
       (trace_of offline (Deploy.main env_short_key)) = true
  /\ no_call (trace_of offline (Deploy.main env_short_key)) = true.
Proof.
  assert (H : malformed_private_key env_short_key).
  { vm_compute. right. right. discriminate. }
  split; [exact H |].
  exact (deploy_exits_on_malformed_private_key offline env_short_key H).
Defined.

Lemma handleClaim_noop_for_newcomer :
  earned_absent_or_nonpositive (StakingDashboard.userStats newcomer)
  /\ snapshot_absent_or_nonpositive (StakingDashboardExit.userStats unrewarded)
  /\ (run wrong_network (@StakingDashboard.handleClaim contractModule newcomer)
        [] = ([], Done tt)
      /\ StakingDashboard.claimDisabled newcomer = true)
  /\ (run wrong_network
        (@StakingDashboardExit.handleClaim contractModule unrewarded) []
      = ([], Done tt)
      /\ StakingDashboardExit.claimDisabled unrewarded = true).
Proof.
  assert (H1 : earned_absent_or_nonpositive
                 (StakingDashboard.userStats newcomer)) by exact I.
  assert (H2 : snapshot_absent_or_nonpositive
                 (StakingDashboardExit.userStats unrewarded)).
  { right. exists 0. split; [reflexivity | discriminate]. }
  split; [exact H1 |]. split; [exact H2 |].
  destruct (@handleClaim_noop_without_rewards exactNumber contractModule
              wrong_network) as [Ha Hb].
  split; [exact (Ha newcomer H1) | exact (Hb unrewarded H2)].
Defined.

Lemma handleStake_rejects_two_million :
  no_call (trace_of wrong_network
             (@StakingDashboard.handleStake exactNumber contractModule whale))
  = true
  /\ run wrong_network
       (@StakingDashboard.handleStake_try exactNumber contractModule whale) []
     = ([EvAct (SetState (setTransactionInProgress true))],
        Done (Rejected (Error StakingDashboard.MAX_STAKE_MESSAGE))).
Proof.
  destruct (@handleStake_rejects_above_limit exactNumber contractModule
              wrong_network whale (2 * 10 ^ 24) (10 ^ 24)
              eq_refl eq_refl eq_refl) as [Htry [_ [Hcalls _]]].
  split; [exact Hcalls | exact Htry].
Defined.

Lemma roundtrip_of_one_and_a_half :
  exists n,
    @Viem.parseEther exactNumber "1.50" = Resolved n
    /\ 0 <= n
    /\ decimal_value (Viem.formatEther n) == decimal_value "1.50"
    /\ @Viem.parseEther exactNumber (Viem.formatEther n) = Resolved n.
Proof.
  apply (@parseEther_formatEther_roundtrip exactNumber "1.50").
  - reflexivity.
  - apply Nat.leb_le. reflexivity.
Defined.

(** At the failing input of C3: the approval is mined and reverted, and
    [depositRewards] is submitted all the same. *)
Lemma deposit_after_a_reverted_approval :
  let t := transactions
             (trace_of reverting_token
                (@AdminDashboard.handleDepositRewards exactNumber
                   contractModule depositor)) in
  In (EvCall (@allowance_read contractModule depositor) (Resolved 0))
     (trace_of reverting_token
        (@AdminDashboard.handleDepositRewards exactNumber contractModule
           depositor))
  /\ @approve_then_deposit contractModule (10 ^ 18) t
  /\ t = [EvCall (@approve_tx contractModule (10 ^ 18))
            (Resolved "0xapprove");
          EvCall (WaitForTransactionReceipt "0xapprove")
            (Resolved {| status := status_reverted |});
          EvCall (@deposit_tx contractModule (10 ^ 18))
            (Resolved "0xdepositRewards");
          EvCall (WaitForTransactionReceipt "0xdepositRewards")
            (Resolved {| status := status_reverted |})].
Proof.
  assert (Hin : In (EvCall (@allowance_read contractModule depositor)
                      (Resolved 0))
                   (trace_of reverting_token
                      (@AdminDashboard.handleDepositRewards exactNumber
                         contractModule depositor))).
  { vm_compute. do 6 right. left. reflexivity. }
  destruct (@handleDepositRewards_approves_first exactNumber contractModule
              reverting_token depositor (10 ^ 18) 0 eq_refl
              (fun _ => eq_refl) eq_refl Hin) as [Hshape _].
  split; [exact Hin |]. split; [exact Hshape |].
  vm_compute. reflexivity.
Defined.

Lemma fetchData_on_chain_one :
  trace_of wrong_network (@StakingDashboard.fetchData contractModule newcomer)
  = wrong_network_trace 1
  /\ StakingDashboard.error
       (StakingDashboard.after newcomer
          (trace_of wrong_network
             (@StakingDashboard.fetchData contractModule newcomer)))
     = Some WRONG_NETWORK
  /\ trace_of wrong_network (@AdminDashboard.fetchData contractModule admin)
     = admin_wrong_network_trace 1.
Proof.
  assert (Hne : (1 : Z) <> EXPECTED_CHAIN_ID) by discriminate.
  destruct (@fetchData_refuses_wrong_network exactNumber contractModule
              wrong_network 1 (fun _ => eq_refl) Hne) as [Hs Ha].
  destruct (Hs newcomer "0xuser" eq_refl eq_refl) as [Ht [_ [He _]]].
  destruct (Ha admin "0xadmin" eq_refl eq_refl) as [Hta _].
  split; [exact Ht |]. split; [exact He | exact Hta].
Defined.


Lemma getStakingStats_defaults_when_offline :
  result_of offline StakingContract.getStakingStats
  = Done (Resolved StakingContract.defaultStakingStats).
Proof.
  destruct (getStakingStats_never_rejects offline) as [[st [Hres Hdef]] _].
  rewrite (Hdef eq_refl) in Hres. exact Hres.
Defined.

(** ** More on the read helpers *)

(** Bring a history built by appending single events into the form
    [h ++ t]. *)
Ltac close_run :=
  rewrite <- ?app_assoc; cbn [app]; eexists; eexists;
  split; [reflexivity |].

(** X1.  [getUserStats] of [contracts/StakingContract.ts] never rejects and
    only reads.  When one of its four reads fails it resolves with four
    zeros; when none fails, the snapshot holds what the contract answered
    for [balanceOf], [earned], [userPoints] and [stakingTime]. *)
Theorem getUserStats_defaults_or_answers
    (w : oracle) (address : string) (h : trace) :
  exists t us,
    run w (StakingContract.getUserStats address) h = (h ++ t, Done (Resolved us))
    /\ forallb is_read_or_log t = true
    /\ (existsb call_rejected t = true ->
        us = StakingContract.defaultUserStats)
    /\ (existsb call_rejected t = false ->
        first_answer (uint_answer "balanceOf") t = Some (stakedAmount us)
        /\ first_answer (uint_answer "earned") t = Some (earnedRewards us)
        /\ first_answer (uint_answer "userPoints") t = Some (stakingPoints us)
        /\ first_answer (uint_answer "stakingTime") t = Some (stakingTime us)).
Proof.
  unfold StakingContract.getUserStats, StakingContract.read_uint.
  answers; close_run; (split; [reflexivity |]);
    (split; intro H; [try reflexivity; discriminate H |]);
    try discriminate H; repeat split.
Qed.

(** X2.  Whatever the reads answer, the snapshot returned by
    [getStakingStats] satisfies [rewardForDuration = rewardRate * 604800]
    (one week of rewards), in [contracts/StakingContract.ts] and in the
    [safeRead] revision; when no read fails it holds the contract's
    [totalSupply], [rewardRate] and [paused]. *)
Theorem getStakingStats_week_of_rewards (w : oracle) (h : trace) :
  (exists t st,
      run w StakingContract.getStakingStats h = (h ++ t, Done (Resolved st))
      /\ rewardForDuration st = rewardRate st * 604800
      /\ (existsb call_rejected t = false ->
          first_answer (uint_answer "totalSupply") t = Some (totalStaked st)
          /\ first_answer (uint_answer "rewardRate") t = Some (rewardRate st)
          /\ first_answer (bool_answer "paused") t = Some (isPaused st)))
  /\ (exists t st,
        run w StakingContractSafeRead.getStakingStats h
        = (h ++ t, Done (Resolved st))
        /\ rewardForDuration st = rewardRate st * 604800
        /\ (existsb call_rejected t = false ->
            first_answer (uint_answer "totalSupply") t = Some (totalStaked st)
            /\ first_answer (uint_answer "rewardRate") t = Some (rewardRate st)
            /\ first_answer (bool_answer "paused") t = Some (isPaused st))).
Proof.
  split.
  - unfold StakingContract.getStakingStats, StakingContract.read_uint,
      StakingContract.read_bool.
    answers; close_run; (split; [reflexivity |]); intro H;
      try discriminate H; repeat split.
  - unfold StakingContractSafeRead.getStakingStats,
      StakingContractSafeRead.safeRead, StakingContractSafeRead.read_uint,
      StakingContractSafeRead.read_bool.
    cbv zeta.
    answers; close_run; (split; [reflexivity |]); intro H;
      try discriminate H; repeat split.
Qed.

(** X3.  [getUserStats] of the [safeRead] revision never rejects; each of
    its four fields is the contract's answer when its read succeeds and 0
    when its read fails, whatever happens to the other reads. *)
Theorem getUserStats_safeRead_per_field
    (w : oracle) (address : string) (h : trace) :
  exists t us,
    run w (StakingContractSafeRead.getUserStats address) h
    = (h ++ t, Done (Resolved us))
    /\ (if existsb (read_rejected "balanceOf") t then stakedAmount us = 0
        else first_answer (uint_answer "balanceOf") t = Some (stakedAmount us))
    /\ (if existsb (read_rejected "earned") t then earnedRewards us = 0
        else first_answer (uint_answer "earned") t = Some (earnedRewards us))
    /\ (if existsb (read_rejected "userPoints") t then stakingPoints us = 0
        else first_answer (uint_answer "userPoints") t
             = Some (stakingPoints us))
    /\ (if existsb (read_rejected "stakingTime") t then stakingTime us = 0
        else first_answer (uint_answer "stakingTime") t
             = Some (stakingTime us)).
Proof.
  unfold StakingContractSafeRead.getUserStats,
    StakingContractSafeRead.safeRead, StakingContractSafeRead.read_uint.
  cbv zeta.
  answers; close_run; repeat split.
Qed.

(** ** Refreshing the snapshots *)

(** Unfold [fetchData] of the staking dashboard down to its requests, with
    the helpers of [contracts/StakingContract.ts]. *)
Ltac open_fetchData :=
  unfold trace_of, StakingDashboard.fetchData;
  cbn [getStakingStats getUserStats contractModule];
  unfold StakingContract.getStakingStats, StakingContract.getUserStats,
    StakingContract.read_uint, StakingContract.read_bool.

(** X4.  [fetchData] of [StakingDashboard.tsx] does nothing without an
    address or a client.  Otherwise, whatever the node answers, it submits
    no transaction and leaves [isLoading] at [false]. *)
Theorem fetchData_reads_only_and_stops_loading
    (w : oracle) (s : StakingDashboard.State) :
  let t := trace_of w (@StakingDashboard.fetchData contractModule s) in
  no_write t = true
  /\ match StakingDashboard.address s, StakingDashboard.publicClient s with
     | Some _, true =>
         StakingDashboard.isLoading (StakingDashboard.after s t) = false
     | _, _ => t = []
     end.
Proof.
  open_fetchData.
  destruct (StakingDashboard.address s) as [a |]; [| split; reflexivity].
  destruct (StakingDashboard.publicClient s); [| split; reflexivity].
  step.
  match goal with
  | |- context [match ?w ?h ?r with
                | Resolved _ => _ | Rejected _ => _ end] =>
      destruct (w h r) as [chainId | e] eqn:Hchain
  end; step; [| split; reflexivity].
  destruct (chainId =? 2020); step; [| split; reflexivity].
  answers; split; reflexivity.
Qed.

(** X5.  On chain 2020, with the helpers of [contracts/StakingContract.ts],
    [fetchData] always stores a pool snapshot and a user snapshot and
    leaves the error message empty, whatever the contract reads do: a read
    failure is never reported.  When every read fails, the snapshots stored
    are the zero defaults. *)
Theorem fetchData_never_reports_read_failures
    (w : oracle) (s : StakingDashboard.State) (a : string) :
  StakingDashboard.address s = Some a ->
  StakingDashboard.publicClient s = true ->
  (forall h, w h GetChainId = Resolved 2020) ->
  let s' := StakingDashboard.after s
              (trace_of w (@StakingDashboard.fetchData contractModule s)) in
  StakingDashboard.error s' = None
  /\ (exists st us,
         StakingDashboard.stakingStats s' = Some (StakingStats_object st)
         /\ StakingDashboard.userStats s' = Some (UserStats_object us))
  /\ ((forall h x f args, is_rejected (w h (ReadUint256 x f args)) = true) ->
      (forall h x f args, is_rejected (w h (ReadBool x f args)) = true) ->
      StakingDashboard.stakingStats s'
      = Some (StakingStats_object StakingContract.defaultStakingStats)
      /\ StakingDashboard.userStats s'
         = Some (UserStats_object StakingContract.defaultUserStats)).
Proof.
  intros Ha Hpc Hchain. open_fetchData. rewrite Ha, Hpc. step.
  rewrite Hchain. step. change (2020 =? 2020) with true. step.
  answers; (split; [reflexivity |]);
    (split; [eexists; eexists; split; reflexivity |]);
    intros Hu Hb; try (split; reflexivity);
    match goal with
    | Heq : w ?h (ReadUint256 ?x ?f ?args) = Resolved _ |- _ =>
        specialize (Hu h x f args); rewrite Heq in Hu; discriminate Hu
    | Heq : w ?h (ReadBool ?x ?f ?args) = Resolved _ |- _ =>
        specialize (Hb h x f args); rewrite Heq in Hb; discriminate Hb
    end.
Qed.

(** ** The handlers of the staking dashboard *)

(** X6.  [handleStake] refuses an amount that is not positive, and an
    amount above the wallet balance, before it makes any request: it shows
    "Amount must be greater than 0", respectively "Insufficient BRAIDS
    balance", after the common prefix of its error messages, and clears the
    progress flag. *)
Theorem handleStake_refuses_locally {N : JsNumber} {C : ContractModule}
    (w : oracle) (s : StakingDashboard.State) (parsedAmount : Z) :
  str_truthy (StakingDashboard.stakeAmount s) = true ->
  Viem.parseEther (StakingDashboard.stakeAmount s) = Resolved parsedAmount ->
  let t := trace_of w (StakingDashboard.handleStake s) in
  (parsedAmount <= 0 -> t = stake_refused "Amount must be greater than 0")
  /\ (forall balance,
         0 < parsedAmount <= 10 ^ 24 ->
         StakingDashboard.braidsBalance s = Some balance ->
         balance < parsedAmount ->
         t = stake_refused "Insufficient BRAIDS balance").
Proof.
  intros Hne Hparse t. subst t.
  unfold trace_of, StakingDashboard.handleStake,
    StakingDashboard.handleStake_try.
  rewrite Hne, Hparse, parseEther_limit. split.
  - intro Hp. apply Z.leb_le in Hp. step. rewrite Hp. reflexivity.
  - intros balance [Hpos Hmax] Hb Hlt.
    assert (H1 : (parsedAmount <=? 0) = false) by (apply Z.leb_gt; lia).
    assert (H2 : (10 ^ 24 <? parsedAmount) = false) by (apply Z.ltb_ge; lia).
    apply Z.ltb_lt in Hlt.
    step. rewrite H1. step. rewrite H2, Hb, Hlt. reflexivity.
Qed.

(** Destruct the next answer of the environment, naming it. *)
Ltac next_answer x e :=
  step;
  match goal with
  | |- context [match ?w ?h ?r with
                | Resolved _ => _ | Rejected _ => _ end] =>
      destruct (w h r) as [x | e] eqn:?
  end;
  step.

(** Name the rest of a run that is not followed further. *)
Ltac rest_of_run :=
  match goal with
  | |- context [fst (run ?w ?p ?h)] =>
      let tl := fresh "tl" in destruct (run_extends w p h) as [tl ->]
  end.

(** X7.  Once the amount has passed the local checks, [handleStake] reads
    the allowance first.  If it covers the amount, no approval is sent: the
    gas is estimated and the stake transaction submitted with the estimate
    plus 10000 (300000 for an estimate of 0).  If it does not, the approval
    is submitted first with a gas limit of 100000; the gas estimate and the
    stake transaction follow only once the approval's receipt has arrived,
    and nothing follows an approval that the wallet rejected or whose
    receipt could not be obtained.  The status of the receipt is not
    read. *)
Theorem handleStake_allowance_then_stake {N : JsNumber} {C : ContractModule}
    (w : oracle) (s : StakingDashboard.State) (parsedAmount allowance : Z) :
  Viem.parseEther (StakingDashboard.stakeAmount s) = Resolved parsedAmount ->
  0 < parsedAmount <= 10 ^ 24 ->
  match StakingDashboard.braidsBalance s with
  | Some balance => parsedAmount <= balance
  | None => True
  end ->
  StakingDashboard.publicClient s = true ->
  (forall h, w h (stake_allowance_read s) = Resolved allowance) ->
  exists tl,
    calls (trace_of w (StakingDashboard.handleStake s))
    = EvCall (stake_allowance_read s) (Resolved allowance) :: tl
    /\ if allowance <? parsedAmount
       then approve_then_stake s parsedAmount tl
       else estimate_then_stake s parsedAmount tl.
Proof.
  intros Hparse [Hpos Hmax] Hbal Hpc Hallow.
  assert (Hne : str_truthy (StakingDashboard.stakeAmount s) = true).
  { destruct (StakingDashboard.stakeAmount s) eqn:E; [| reflexivity].
    rewrite parseEther_empty in Hparse. injection Hparse as <-. lia. }
  assert (H1 : (parsedAmount <=? 0) = false) by (apply Z.leb_gt; lia).
  assert (H2 : (10 ^ 24 <? parsedAmount) = false) by (apply Z.ltb_ge; lia).
  assert (H3 : match StakingDashboard.braidsBalance s with
               | Some value => value <? parsedAmount
               | None => false
               end = false).
  { destruct (StakingDashboard.braidsBalance s); [| reflexivity].
    apply Z.ltb_ge. exact Hbal. }
  assert (Hgas : forall g, (if negb (g =? 0) then g + 10000 else 300000)
                           = stake_gas g).
  { intro g. unfold stake_gas. destruct (g =? 0); reflexivity. }
  unfold trace_of, StakingDashboard.handleStake,
    StakingDashboard.handleStake_try, StakingDashboard.client.
  rewrite Hne, Hparse, parseEther_limit, Hpc.
  step. rewrite H1. step. rewrite H2, H3.
  fold (stake_allowance_read s). fold (stake_approve_tx parsedAmount).
  fold (stake_estimate s parsedAmount).
  step. rewrite !Hallow. step.
  destruct (allowance <? parsedAmount).
  - (* the approval is needed *)
    next_answer hash e.
    2:{ eexists. split; [reflexivity |]. apply stake_approve_rejected. }
    next_answer receipt e.
    2:{ eexists. split; [reflexivity |]. apply stake_approve_unconfirmed. }
    next_answer g e.
    2:{ eexists. split; [reflexivity |].
        apply stake_approved, estimate_rejected. }
    rewrite Hgas.
    next_answer hash' e.
    2:{ eexists. split; [reflexivity |].
        apply stake_approved, stake_submitted. }
    next_answer u e.
    2:{ eexists. split; [reflexivity |].
        apply stake_approved, stake_submitted. }
    rewrite !run_bind.
    match goal with
    | |- context [run ?w (StakingDashboard.fetchData ?s) ?h] =>
        destruct (run_extends w (StakingDashboard.fetchData s) h) as [tl Htl];
        destruct (run w (StakingDashboard.fetchData s) h) as [h' [[] | c]]
    end; simpl in Htl; subst h'; step; unfold calls; cbn [List.filter is_call];
      (eexists; split; [reflexivity |]);
      apply stake_approved, stake_submitted.
  - next_answer g e.
    2:{ eexists. split; [reflexivity |]. apply estimate_rejected. }
    rewrite Hgas.
    next_answer hash' e.
    2:{ eexists. split; [reflexivity |]. apply stake_submitted. }
    next_answer u e.
    2:{ eexists. split; [reflexivity |]. apply stake_submitted. }
    rewrite !run_bind.
    match goal with
    | |- context [run ?w (StakingDashboard.fetchData ?s) ?h] =>
        destruct (run_extends w (StakingDashboard.fetchData s) h) as [tl Htl];
        destruct (run w (StakingDashboard.fetchData s) h) as [h' [[] | c]]
    end; simpl in Htl; subst h'; step; unfold calls; cbn [List.filter is_call];
      (eexists; split; [reflexivity |]);
      apply stake_submitted.
Qed.

(** X8.  [handleUnstake] refuses an amount that is not positive, and an
    amount above a staked amount that is itself not zero, before it makes
    any request.  A staked amount of [0n] is falsy, and so is a missing
    snapshot: the comparison is then skipped and the withdrawal is
    submitted as the first request, with a gas limit of 300000. *)
Theorem handleUnstake_checks_the_stake {N : JsNumber} {C : ContractModule}
    (w : oracle) (s : StakingDashboard.State) (parsedAmount : Z) :
  str_truthy (StakingDashboard.unstakeAmount s) = true ->
  Viem.parseEther (StakingDashboard.unstakeAmount s) = Resolved parsedAmount ->
  let t := trace_of w (StakingDashboard.handleUnstake s) in
  (parsedAmount <= 0 -> t = unstake_refused "Amount must be greater than 0")
  /\ (forall staked,
         0 < parsedAmount ->
         prop (StakingDashboard.userStats s) "stakedAmount"
         = Some (VBigInt staked) ->
         staked <> 0 ->
         staked < parsedAmount ->
         t = unstake_refused "Insufficient staked amount")
  /\ (0 < parsedAmount ->
      StakingDashboard.userStats s = None
      \/ prop (StakingDashboard.userStats s) "stakedAmount"
         = Some (VBigInt 0) ->
      exists o rest,
        t = EvAct (SetState (setTransactionInProgress true))
            :: EvCall (withdraw_tx parsedAmount) o :: rest).
Proof.
  intros Hne Hparse t. subst t.
  unfold trace_of, StakingDashboard.handleUnstake.
  rewrite Hne, Hparse. fold (withdraw_tx parsedAmount).
  split; [| split].
  - intro Hp. apply Z.leb_le in Hp. step. rewrite Hp. reflexivity.
  - intros staked Hpos Hst Hnz Hlt.
    assert (H1 : (parsedAmount <=? 0) = false) by (apply Z.leb_gt; lia).
    apply Z.eqb_neq in Hnz. apply Z.ltb_lt in Hlt.
    step. rewrite H1, Hst. cbn [truthy_opt truthy js_lt to_numeric].
    rewrite Hnz, Hlt. reflexivity.
  - intros Hpos Hst.
    assert (H1 : (parsedAmount <=? 0) = false) by (apply Z.leb_gt; lia).
    assert (H2 : truthy_opt (prop (StakingDashboard.userStats s)
                               "stakedAmount") = false).
    { destruct Hst as [-> | ->]; reflexivity. }
    step. rewrite H1, H2. step.
    rest_of_run. simpl. eexists. eexists. reflexivity.
Qed.

Lemma something_earned (s : StakingDashboard.State) (earned : Z) :
  prop (StakingDashboard.userStats s) "earnedRewards" = Some (VBigInt earned) ->
  0 < earned ->
  StakingDashboard.nothing_earned s = false.
Proof.
  intros Hp Hpos. unfold StakingDashboard.nothing_earned. rewrite Hp.
  cbn [truthy_opt truthy js_le to_numeric].
  assert (H1 : (earned =? 0) = false) by (apply Z.eqb_neq; lia).
  assert (H2 : (earned <=? 0) = false) by (apply Z.leb_gt; lia).
  rewrite H1, H2. reflexivity.
Qed.

(** X9.  With rewards in the snapshot, [handleRestake] submits [getReward]
    first and the stake transaction only once the receipt of the claim has
    arrived; a claim that the wallet rejects, or whose receipt cannot be
    obtained, is followed by no other request.  The amount staked is the [earnedRewards] of the
    snapshot the handler was rendered with, and no allowance is read or
    approved in between. *)
Theorem handleRestake_claims_then_stakes {C : ContractModule}
    (w : oracle) (s : StakingDashboard.State) (earned : Z) :
  prop (StakingDashboard.userStats s) "earnedRewards" = Some (VBigInt earned) ->
  0 < earned ->
  StakingDashboard.publicClient s = true ->
  claim_then_stake (VBigInt earned)
    (calls (trace_of w (StakingDashboard.handleRestake s))).
Proof.
  intros Hp Hpos Hpc.
  unfold trace_of, StakingDashboard.handleRestake, StakingDashboard.client.
  rewrite (something_earned s earned Hp Hpos), Hp, Hpc.
  fold getReward_tx. fold (stake_tx (VBigInt earned) 300000).
  next_answer hash e; [| apply claim_rejected].
  next_answer receipt e; [| apply claim_unconfirmed].
  next_answer hash' e; [| apply claim_mined].
  next_answer receipt' e; [| apply claim_mined].
  rewrite !run_bind.
  match goal with
  | |- context [run ?w (StakingDashboard.fetchData ?s) ?h] =>
      destruct (run_extends w (StakingDashboard.fetchData s) h) as [tl Htl];
      destruct (run w (StakingDashboard.fetchData s) h) as [h' [[] | c]]
  end; simpl in Htl; subst h'; step; apply claim_mined.
Qed.

(** X10.  With rewards in the snapshot, the first thing [handleClaim] does
    after raising the progress flag is to submit [getReward] with a gas
    limit of 300000.  When the wallet rejects it with [Error m], nothing
    else is requested: the handler shows "Claim failed: m" and clears the
    flag. *)
Theorem handleClaim_submits_getReward {C : ContractModule}
    (w : oracle) (s : StakingDashboard.State) (earned : Z) :
  prop (StakingDashboard.userStats s) "earnedRewards" = Some (VBigInt earned) ->
  0 < earned ->
  let t := trace_of w (StakingDashboard.handleClaim s) in
  let o := w [EvAct (SetState (setTransactionInProgress true))] getReward_tx in
  (exists rest,
      t = EvAct (SetState (setTransactionInProgress true))
          :: EvCall getReward_tx o :: rest)
  /\ (forall m,
         o = Rejected (Error m) ->
         t = [EvAct (SetState (setTransactionInProgress true));
              EvCall getReward_tx (Rejected (Error m));
              EvAct (ConsoleError "Claim failed:" (Some (Error m)));
              EvAct (SetState (setError
                       (Some (String.append "Claim failed: " m))));
              EvAct (SetState (setTransactionInProgress false))]).
Proof.
  intros Hp Hpos t o. subst t o.
  unfold trace_of, StakingDashboard.handleClaim.
  rewrite (something_earned s earned Hp Hpos).
  fold getReward_tx. step. split.
  - rest_of_run. simpl. eexists. reflexivity.
  - intros m Hm. cbn in Hm. rewrite Hm. reflexivity.
Qed.

(** ** The progress flag *)

Lemma completes_bind {A B} (p : prog A) (f : A -> prog B) :
  completes p -> (forall a, completes (f a)) -> completes (bind p f).
Proof.
  intros Hp Hf. induction Hp; simpl.
  - apply Hf.
  - constructor; assumption.
  - constructor; auto.
Qed.

Lemma completes_run {A} (w : oracle) (p : prog A) (h : trace) :
  completes p -> exists t a, run w p h = (h ++ t, Done a).
Proof.
  intro Hp. revert h. induction Hp as [a | a k Hk IH | r k Hk IH]; intro h.
  - exists [], a. simpl. now rewrite app_nil_r.
  - destruct (IH (h ++ [EvAct a])) as [t [x Ht]].
    exists (EvAct a :: t), x. simpl. rewrite Ht, <- app_assoc. reflexivity.
  - destruct (IH (w h r) (h ++ [EvCall r (w h r)])) as [t [x Ht]].
    exists (EvCall r (w h r) :: t), x. simpl.
    rewrite Ht, <- app_assoc. reflexivity.
Qed.

(** Prove [completes p] by following the structure of [p]. *)
Ltac completes_tac :=
  repeat match goal with
         | |- completes (bind _ _) => apply completes_bind; [| intro]
         | |- completes (bindO _ _) => unfold bindO
         | |- completes (try_catch _ _) => unfold try_catch
         | |- completes (try_finally _ _) => unfold try_finally
         | |- completes (catch_null _) => unfold catch_null
         | |- completes (Promise_all2 _ _) => unfold Promise_all2
         | |- completes (Promise_all3 _ _ _) => unfold Promise_all3
         | |- completes (Promise_all4 _ _ _ _) => unfold Promise_all4
         | |- completes (await _) => unfold await
         | |- completes (throw _) => constructor
         | |- completes (ok _) => constructor
         | |- completes (set _) => unfold set
         | |- completes (act _) => unfold act
         | |- completes (Ret _) => constructor
         | |- completes (Act _ _) => constructor
         | |- completes (Call _ _) => constructor; intro
         | |- completes (match ?o with _ => _ end) => destruct o
         | |- completes (if ?b then _ else _) => destruct b
         | H : completes ?p |- completes ?p => exact H
         | H : forall a, completes (?f a) |- completes (?f _) => apply H
         end.

Lemma reads_complete_contractModule : reads_complete contractModule.
Proof.
  split; [| intro address]; cbn [getStakingStats getUserStats contractModule];
    unfold StakingContract.getStakingStats, StakingContract.getUserStats,
      StakingContract.read_uint, StakingContract.read_bool;
    completes_tac.
Qed.

Lemma reads_complete_contractModuleSafeRead :
  reads_complete contractModuleSafeRead.
Proof.
  split; [| intro address];
    cbn [getStakingStats getUserStats contractModuleSafeRead];
    unfold StakingContractSafeRead.getStakingStats,
      StakingContractSafeRead.getUserStats, StakingContractSafeRead.safeRead,
      StakingContractSafeRead.read_uint, StakingContractSafeRead.read_bool;
    completes_tac.
Qed.

Lemma fetchData_completes {C : ContractModule} (s : StakingDashboard.State) :
  reads_complete C -> completes (StakingDashboard.fetchData s).
Proof.
  intros [Hs Hu]. unfold StakingDashboard.fetchData.
  destruct (StakingDashboard.address s); [| constructor].
  destruct (StakingDashboard.publicClient s); [| constructor].
  completes_tac.
Qed.

(** A [finally] block that lowers the flag has the last word. *)
Lemma finally_releases {A} (w : oracle) (s : StakingDashboard.State)
    (body : prog (outcome A)) :
  completes body ->
  releases w s
    (try_finally body (set (setTransactionInProgress false)) ;; Ret tt).
Proof.
  intro Hb. right. unfold trace_of, try_finally.
  destruct (completes_run w body [] Hb) as [t [o Ht]].
  rewrite !run_bind, Ht. simpl.
  unfold StakingDashboard.after. rewrite fold_left_app. reflexivity.
Qed.

(** X11.  As long as the read helpers return, each of the four handlers of
    [StakingDashboard.tsx] either returns at once without touching the
    state, or ends with [transactionInProgress] set to [false], whatever
    the wallet and the node answer: no failure leaves the buttons
    disabled. *)
Theorem handlers_release_the_progress_flag
    {N : JsNumber} {C : ContractModule}
    (w : oracle) (s : StakingDashboard.State) :
  reads_complete C ->
  releases w s (StakingDashboard.handleStake s)
  /\ releases w s (StakingDashboard.handleUnstake s)
  /\ releases w s (StakingDashboard.handleClaim s)
  /\ releases w s (StakingDashboard.handleRestake s).
Proof.
  intro HC. pose proof (fetchData_completes s HC) as Hf.
  split; [| split; [| split]].
  - unfold StakingDashboard.handleStake.
    destruct (negb _); [left; reflexivity |].
    apply finally_releases.
    unfold StakingDashboard.handleStake_try, StakingDashboard.client.
    completes_tac.
  - unfold StakingDashboard.handleUnstake.
    destruct (negb _); [left; reflexivity |].
    apply finally_releases. unfold StakingDashboard.client. completes_tac.
  - unfold StakingDashboard.handleClaim.
    destruct (StakingDashboard.nothing_earned s); [left; reflexivity |].
    apply finally_releases. unfold StakingDashboard.client. completes_tac.
  - unfold StakingDashboard.handleRestake.
    destruct (StakingDashboard.nothing_earned s); [left; reflexivity |].
    apply finally_releases. unfold StakingDashboard.client. completes_tac.
Qed.

(** ** The retry budget *)

Lemma sum_of_pauses (n : nat) :
  fold_right Z.add 0
    (map (fun j => 1000 * (0 + Z.of_nat j + 1)) (seq 0 n))
  = 500 * Z.of_nat n * (Z.of_nat n + 1).
Proof.
  induction n as [| n IH]; [reflexivity |].
  rewrite seq_S, map_app, fold_right_app. cbn [map fold_right Nat.add].
  assert (Hshift : forall (l : list Z) (a : Z),
             fold_right Z.add a l = fold_right Z.add 0 l + a).
  { induction l as [| x l IHl]; intro a; simpl; [lia |].
    rewrite IHl. lia. }
  rewrite Hshift, IH. lia.
Qed.

(** X12.  [retryOperation] with a budget that is not positive never starts
    the operation and resolves with [undefined].  With a positive budget
    [maxRetries] it makes between one and [maxRetries] attempts, waits
    [500 * k * (k - 1)] ms in all when it made [k] of them, hence at most
    [500 * maxRetries * (maxRetries - 1)] ms, and rejects only after
    [maxRetries] failed attempts. *)
Theorem retryOperation_budget (w : oracle) (r : request) (maxRetries : Z) :
  let p := Alchemy.retryOperation (await r) maxRetries in
  let k := Z.of_nat (attempts (trace_of w p)) in
  (maxRetries <= 0 ->
   run w p [] = ([], Done (Resolved None)))
  /\ (0 < maxRetries ->
      1 <= k <= maxRetries
      /\ total_delay (trace_of w p) = 500 * k * (k - 1)
      /\ total_delay (trace_of w p) <= 500 * maxRetries * (maxRetries - 1)
      /\ exists res,
           result_of w p = Done res
           /\ (is_rejected res = true ->
               k = maxRetries
               /\ length (rejections (trace_of w p))
                  = Z.to_nat maxRetries)).
Proof.
  intros p k. split.
  - intro Hle. subst p. unfold Alchemy.retryOperation.
    replace (Z.to_nat maxRetries) with O by lia. reflexivity.
  - intro Hpos. subst k p.
    destruct (retryOperation_retried w r maxRetries Hpos)
      as [t [res [Hrun [Hshape Hcount]]]].
    unfold trace_of, result_of. rewrite Hrun. cbn [fst snd].
    pose proof (retried_attempts_pos _ _ _ _ _ Hshape) as Hone.
    assert (Hdelay : total_delay t
                     = 500 * Z.of_nat (attempts t)
                       * (Z.of_nat (attempts t) - 1)).
    { unfold total_delay. rewrite (retried_delays _ _ _ _ _ Hshape).
      rewrite sum_of_pauses.
      replace (Z.of_nat (attempts t - 1)) with (Z.of_nat (attempts t) - 1)
        by lia.
      ring. }
    split; [lia |]. split; [exact Hdelay |]. split; [rewrite Hdelay; nia |].
    exists res. split; [reflexivity |].
    pose proof (retried_outcome _ _ _ _ _ Hshape) as Hout.
    destruct res as [x | e]; [discriminate |].
    intros _. destruct Hout as [Hn [Hall _]]. split; lia.
Qed.

(** ** The deployment script, from the first check to the last line *)

Lemma main_reports_missing (w : oracle) (env : gmap string string) :
  (0 <? length (List.filter (fun varName => negb (Deploy.env_set env varName))
                  Deploy.requiredEnvVars))%nat = true ->
  run w (Deploy.main env) [] = (missing_report env, Exited 1).
Proof.
  intro Hm.
  unfold Deploy.main, Deploy.deploy, Deploy.validateEnvironment, try_catch,
    bindO.
  rewrite Hm. rewrite !run_bind. simpl run at 1. cbv iota beta.
  rewrite !run_bind. simpl run at 1. cbv iota beta.
  rewrite run_bind, forEach_log_error. reflexivity.
Qed.

(** X13.  When any of the four required variables is unset or empty, the
    deployment script prints the header and one line for each unset
    variable, in the order of [requiredEnvVars], and exits with status 1;
    it makes no request. *)
Theorem deploy_reports_missing_variables
    (w : oracle) (env : gmap string string) (varName : string) :
  In varName Deploy.requiredEnvVars ->
  Deploy.env_set env varName = false ->
  run w (Deploy.main env) [] = (missing_report env, Exited 1)
  /\ In (missing_line varName) (missing_report env)
  /\ no_call (missing_report env) = true.
Proof.
  intros Hin Hunset.
  assert (Hf : In varName
                 (List.filter (fun v => negb (Deploy.env_set env v))
                    Deploy.requiredEnvVars)).
  { apply List.filter_In. split; [exact Hin |]. rewrite Hunset. reflexivity. }
  split; [| split].
  - apply main_reports_missing.
    destruct (List.filter _ Deploy.requiredEnvVars); [destruct Hf | reflexivity].
  - unfold missing_report. apply in_or_app. right.
    apply List.in_map. exact Hf.
  - unfold missing_report, no_call. rewrite forallb_app. cbn [forallb is_call negb andb].
    apply forallb_forall. intros e He.
    apply List.in_map_iff in He. destruct He as [x [<- _]]. reflexivity.
Qed.



(** ** The admin dashboard *)

(** Destruct the tests of [handleTransactionError]. *)
Ltac error_tests :=
  repeat match goal with
         | |- context [if ?b then set _ else _] => destruct b
         end.

(** X15.  The pause button does nothing while a pause transaction is under
    way.  Otherwise it makes exactly one request: [unpause] when the
    snapshot says the contract is paused, [pause] when it does not or when
    there is no snapshot.  The status goes from "preparing" to "pending"
    when the wallet accepts, and to "error" when it refuses. *)
Theorem handlePauseToggle_toggles {C : ContractModule}
    (w : oracle) (s : AdminDashboard.State) :
  let t := trace_of w (AdminDashboard.handlePauseToggle s) in
  (AdminDashboard.is_idle (AdminDashboard.pauseTxStatus s) = false -> t = [])
  /\ (AdminDashboard.is_idle (AdminDashboard.pauseTxStatus s) = true ->
      exists o,
        calls t = [EvCall (toggle_tx s) o]
        /\ statuses t
           = [preparing; if is_rejected o then error_status else pending]).
Proof.
  intro t. subst t.
  unfold trace_of, AdminDashboard.handlePauseToggle, toggle_tx.
  split; intros ->; [reflexivity |].
  unfold AdminDashboard.handleTransaction,
    AdminDashboard.handleTransactionError, AdminDashboard.unpause,
    AdminDashboard.pause.
  destruct (match AdminDashboard.stakingStats s with
            | Some st => isPaused st
            | None => false
            end);
    cbn [negb AdminDashboard.statusSetter AdminDashboard.hashSetter];
    next_answer hash e; error_tests;
    eexists; split; reflexivity.
Qed.

(** X16.  [handleTransactionError] always puts a message on the banner that
    is not empty.  An error with code 4001 is shown as "User rejected
    transaction" whatever its message says. *)
Theorem handleTransactionError_always_explains
    (w : oracle) (err : js_error) (h : trace) :
  exists m,
    run w (AdminDashboard.handleTransactionError err) h
    = (h ++ [EvAct (ConsoleError "Transaction error:" (Some err));
             EvAct (SetState (setError (Some m)))], Done tt)
    /\ m <> ""
    /\ (code err = Some 4001 -> m = "User rejected transaction").
Proof.
  unfold AdminDashboard.handleTransactionError.
  destruct err as [ie msg short c rv]. cbn [code message shortMessage].
  destruct c as [c |].
  - destruct (c =? 4001) eqn:Hc.
    + eexists.
      split; [step; rewrite <- app_assoc; reflexivity |]. split; [discriminate | reflexivity].
    + assert (Hne : Some c <> Some 4001).
      { intro H. injection H as ->. discriminate Hc. }
      destruct (match msg with
                | Some m => includes m "insufficient funds"
                | None => false
                end).
      * eexists.
        split; [step; rewrite <- app_assoc; reflexivity |]. split; [discriminate | contradiction].
      * destruct short as [[| a sm] |], msg as [[| b mm] |];
          (eexists;
           split; [step; rewrite <- app_assoc; reflexivity |];
           split; [discriminate | contradiction]).
  - destruct (match msg with
              | Some m => includes m "insufficient funds"
              | None => false
              end).
    + eexists.
      split; [step; rewrite <- app_assoc; reflexivity |]. split; [discriminate | discriminate].
    + destruct short as [[| a sm] |], msg as [[| b mm] |];
        (eexists;
         split; [step; rewrite <- app_assoc; reflexivity |];
         split; discriminate).
Qed.




(** X19.  The admin dashboard's [fetchData] on chain 2020, with the helpers
    of [contracts/StakingContract.ts].  When the three [hasRole] reads
    resolve, it stores the roles exactly as they were answered, together
    with a pool snapshot, and shows no error, even if the pool reads
    failed.  When a [hasRole] read fails, it stores neither roles nor
    snapshot and shows "Failed to load admin data: " followed by a
    message. *)
Theorem admin_fetchData_roles_all_or_nothing
    (w : oracle) (s : AdminDashboard.State) (a : string) :
  AdminDashboard.address s = Some a ->
  AdminDashboard.publicClient s = true ->
  (forall h, w h GetChainId = Resolved 2020) ->
  let t := trace_of w (@AdminDashboard.fetchData contractModule s) in
  if existsb (read_rejected "hasRole") t
  then first_answer roles_set t = None
       /\ first_answer admin_stats_set t = None
       /\ exists m,
            errors_shown t
            = [None; Some (String.append "Failed to load admin data: " m)]
  else (exists st, first_answer admin_stats_set t = Some (Some st))
       /\ errors_shown t = [None]
       /\ exists r,
            first_answer roles_set t = Some r
            /\ first_answer (hasRole_answer StakingContract.ADMIN) t
               = Some (isAdmin r)
            /\ first_answer (hasRole_answer StakingContract.MAINTAINER) t
               = Some (isMaintainer r)
            /\ first_answer (hasRole_answer StakingContract.DEPOSITOR) t
               = Some (isDepositor r).
Proof.
  intros Ha Hpc Hchain.
  unfold trace_of, AdminDashboard.fetchData.
  cbn [getStakingStats checkRole contractModule].
  unfold StakingContract.getStakingStats, StakingContract.checkRole,
    StakingContract.read_uint, StakingContract.read_bool.
  rewrite Ha, Hpc. step. rewrite Hchain. step.
  change (2020 =? 2020) with true. step.
  answers;
    repeat match goal with
           | |- context [EvCall ?r (w ?h ?r)] => destruct (w h r)
           end;
    first [ split; [reflexivity |]; split; [reflexivity |];
            eexists; reflexivity
          | split; [eexists; reflexivity |]; split; [reflexivity |];
            eexists; repeat split ].
Qed.

(** ** The read helpers that rethrow *)

(** Destruct the answers that the result does not depend on. *)
Ltac other_answers :=
  repeat match goal with
         | w : oracle |- context [EvCall ?r (?w ?h ?r)] => destruct (w h r)
         end.

(** X20.  In the revision that rethrows, [getStakingStats] and
    [getUserStats] reject exactly when one of their reads failed, and then
    always with their own error, "Failed to fetch staking stats" and
    "Failed to fetch user stats": the error of the read is logged and never
    passed on.  When every read succeeds they resolve with the answers,
    [rewardForDuration] being a week of the reward rate. *)
Theorem throwing_helpers_replace_the_error
    (w : oracle) (address : string) (h : trace) :
  (exists t res,
      run w StakingContractThrowing.getStakingStats h = (h ++ t, Done res)
      /\ if existsb call_rejected t
         then res = Rejected (Error "Failed to fetch staking stats")
         else exists st,
                res = Resolved st
                /\ first_answer (uint_answer "totalSupply") t
                   = Some (totalStaked st)
                /\ first_answer (uint_answer "rewardRate") t
                   = Some (rewardRate st)
                /\ first_answer (bool_answer "paused") t = Some (isPaused st)
                /\ rewardForDuration st = rewardRate st * 604800)
  /\ (exists t res,
        run w (StakingContractThrowing.getUserStats address) h
        = (h ++ t, Done res)
        /\ if existsb call_rejected t
           then res = Rejected (Error "Failed to fetch user stats")
           else exists us,
                  res = Resolved us
                  /\ first_answer (uint_answer "balanceOf") t
                     = Some (stakedAmount us)
                  /\ first_answer (uint_answer "earned") t
                     = Some (earnedRewards us)
                  /\ first_answer (uint_answer "userPoints") t
                     = Some (stakingPoints us)
                  /\ first_answer (uint_answer "stakingTime") t
                     = Some (stakingTime us)).
Proof.
  split.
  - unfold StakingContractThrowing.getStakingStats,
      StakingContractThrowing.read_uint, StakingContractThrowing.read_bool.
    answers; other_answers; close_run;
      first [reflexivity | eexists; repeat split].
  - unfold StakingContractThrowing.getUserStats,
      StakingContractThrowing.read_uint.
    answers; other_answers; close_run;
      first [reflexivity | eexists; repeat split].
Qed.

(** X21.  In the revisions that await the [hasRole] read inside a [try]
    block (the one built on [safeRead] and the one that rethrows),
    [checkRole] never rejects: it resolves with the answer of the read, and
    with [false] when the read fails. *)
Theorem checkRole_awaited_never_rejects
    (w : oracle) (address : string) (role : StakingContract.role) :
  let read addr :=
    ReadBool addr "hasRole"
      [VString (StakingContract.ROLES role); VString address] in
  let answer addr :=
    match w [] (read addr) with Resolved b => b | Rejected _ => false end in
  result_of w (StakingContractSafeRead.checkRole address role)
  = Done (Resolved
            (answer StakingContractSafeRead.STAKING_CONTRACT_ADDRESS))
  /\ result_of w (StakingContractThrowing.checkRole address role)
     = Done (Resolved
               (answer StakingContractThrowing.STAKING_CONTRACT_ADDRESS))
  /\ calls (trace_of w (StakingContractThrowing.checkRole address role))
     = [EvCall (read StakingContractThrowing.STAKING_CONTRACT_ADDRESS)
          (w [] (read StakingContractThrowing.STAKING_CONTRACT_ADDRESS))].
Proof.
  cbv zeta. split; [| split].
  - unfold result_of, StakingContractSafeRead.checkRole,
      StakingContractSafeRead.safeRead, StakingContractSafeRead.read_bool.
    answers; reflexivity.
  - unfold result_of, StakingContractThrowing.checkRole,
      StakingContractThrowing.read_bool.
    answers; reflexivity.
  - unfold trace_of, StakingContractThrowing.checkRole,
      StakingContractThrowing.read_bool.
    step. destruct (w [] _); reflexivity.
Qed.

(** X22.  With the helpers that rethrow, [fetchData] of
    [StakingDashboard.tsx] on chain 2020 stores both snapshots and shows no
    error when every read succeeds.  When a read fails it stores nothing,
    keeps the snapshots it had and shows "Failed to fetch staking data". *)
Theorem fetchData_shows_read_failures
    (w : oracle) (s : StakingDashboard.State) (a : string) :
  StakingDashboard.address s = Some a ->
  StakingDashboard.publicClient s = true ->
  (forall h, w h GetChainId = Resolved 2020) ->
  let t := trace_of w (@StakingDashboard.fetchData contractModuleThrowing s) in
  let s' := StakingDashboard.after s t in
  StakingDashboard.isLoading s' = false
  /\ if existsb call_rejected t
     then StakingDashboard.error s' = Some "Failed to fetch staking data"
          /\ StakingDashboard.stakingStats s' = StakingDashboard.stakingStats s
          /\ StakingDashboard.userStats s' = StakingDashboard.userStats s
     else StakingDashboard.error s' = None
          /\ exists st us,
               StakingDashboard.stakingStats s'
               = Some (StakingStats_object st)
               /\ StakingDashboard.userStats s' = Some (UserStats_object us)
               /\ first_answer (uint_answer "totalSupply") t
                  = Some (totalStaked st)
               /\ first_answer (uint_answer "earned") t
                  = Some (earnedRewards us)
               /\ first_answer (uint_answer "balanceOf") t
                  = Some (stakedAmount us).
Proof.
  intros Ha Hpc Hchain.
  unfold trace_of, StakingDashboard.fetchData.
  cbn [getStakingStats getUserStats contractModuleThrowing].
  unfold StakingContractThrowing.getStakingStats,
    StakingContractThrowing.getUserStats,
    StakingContractThrowing.read_uint, StakingContractThrowing.read_bool.
  rewrite Ha, Hpc. step. rewrite Hchain. step.
  change (2020 =? 2020) with true. step.
  answers; other_answers; (split; [reflexivity |]);
    first [ split; [reflexivity |]; split; reflexivity
          | split; [reflexivity |]; eexists; eexists; repeat split ].
Qed.

(** ** The amount fields *)

Lemma parseEther_of_accepted {N : JsNumber} (s : string) :
  ui_accepts s = true -> parses s.
Proof.
  unfold ui_accepts, parses.
  destruct (split_dot (chr s)) as [i f] eqn:Hsplit.
  intro Hacc. apply andb_true_iff in Hacc. destruct Hacc as [Hi Hf].
  assert (Hminus : starts_with_minus (chr s) = false).
  { rewrite (split_dot_inv _ _ _ Hsplit).
    destruct i as [| c i]; [destruct f; reflexivity |].
    simpl in Hi. apply andb_true_iff in Hi. destruct Hi as [Hc _].
    simpl. now apply is_digit_not_minus. }
  unfold Viem.parseEther, Viem.parseUnits, Viem.valid_decimal.
  rewrite Hminus, Hsplit, Hi, Hf. cbn [negb andb].
  rewrite (starts_with_minus_digits i Hi).
  match goal with
  | |- context [let '(a, b) := ?p in _] => destruct p as [integer2 fraction3]
  end.
  eexists. reflexivity.
Qed.

Lemma parseEther_formatEther {N : JsNumber} (n : Z) :
  0 <= n -> Viem.parseEther (Viem.formatEther n) = Resolved n.
Proof.
  intro Hn.
  destruct (formatEther_value_of n Hn) as [Hback [Hacc Hlen]].
  destruct (parseEther_accepted _ Hacc Hlen) as [m [Hparse [Hm Hvalue]]].
  rewrite Hparse. f_equal.
  rewrite Hback in Hvalue. unfold tokens, Qeq in Hvalue.
  cbn [Qnum Qden] in Hvalue. nia.
Qed.

Lemma formatEther_not_empty (n : Z) :
  0 <= n -> str_truthy (Viem.formatEther n) = true.
Proof.
  intro Hn. unfold Viem.formatEther, Viem.formatUnits,
    Viem.formatUnits_display, bigint_toString.
  replace (n <? 0) with false by (symmetry; apply Z.ltb_ge; exact Hn).
  rewrite (starts_with_minus_digits (nat_digits n))
    by (apply nat_digits_spec; exact Hn).
  cbn [app].
  match goal with
  | |- context [match ?i with [] => ["0"%char] | _ :: _ => ?i end ++ ?r] =>
      destruct i; reflexivity
  end.
Qed.

(** X23.  The amount fields never hold a text that [parseEther] rejects:
    starting from a text that parses (the empty text does), a change of
    the field leaves a text that parses, whatever was typed or pasted, and
    so does a press on MAX. *)
Theorem amount_fields_always_parse {N : JsNumber}
    (w : oracle) (s : StakingDashboard.State) (val : string) :
  parses (StakingDashboard.stakeAmount s) ->
  parses (StakingDashboard.unstakeAmount s) ->
  (match StakingDashboard.braidsBalance s with
   | Some balance => 0 <= balance
   | None => True
   end) ->
  (forall v, prop (StakingDashboard.userStats s) "stakedAmount" = Some v ->
             exists staked, v = VBigInt staked /\ 0 <= staked) ->
  let stake_text p :=
    StakingDashboard.stakeAmount (StakingDashboard.after s (trace_of w p)) in
  let unstake_text p :=
    StakingDashboard.unstakeAmount (StakingDashboard.after s (trace_of w p)) in
  parses (stake_text (AmountFields.onStakeAmountChange val))
  /\ parses (unstake_text (AmountFields.onUnstakeAmountChange val))
  /\ parses (stake_text (AmountFields.onMaxStake s))
  /\ parses (unstake_text (AmountFields.onMaxUnstake s)).
Proof.
  intros Hs Hu Hb Hst. cbv zeta.
  unfold trace_of, AmountFields.onStakeAmountChange,
    AmountFields.onUnstakeAmountChange, AmountFields.onMaxStake,
    AmountFields.onMaxUnstake.
  assert (Hval : String.eqb val "" || ui_accepts val = true -> parses val).
  { intro H. apply orb_true_iff in H. destruct H as [H | H].
    - apply String.eqb_eq in H. subst val. exists 0. reflexivity.
    - apply parseEther_of_accepted. exact H. }
  split; [| split; [| split]].
  - destruct (String.eqb val "" || ui_accepts val); [apply Hval |]; auto.
  - destruct (String.eqb val "" || ui_accepts val); [apply Hval |]; auto.
  - destruct (StakingDashboard.braidsBalance s) as [balance |]; [| exact Hs].
    exists balance. apply parseEther_formatEther. exact Hb.
  - destruct (prop (StakingDashboard.userStats s) "stakedAmount") as [v |];
      [| exact Hu].
    destruct (Hst v eq_refl) as [staked [-> Hpos]].
    destruct (truthy_opt (Some (VBigInt staked))); [| exact Hu].
    exists staked. apply (parseEther_formatEther staked Hpos).
Qed.

(** X24.  A press on MAX followed by the confirmation acts on the exact
    amount.  In the unstake dialog the text written by MAX parses back to
    the staked amount, and [handleUnstake] submits the withdrawal of that
    amount as its first request.  In the stake dialog the text parses back
    to the wallet balance; [handleStake] then goes on to read the
    allowance when the balance is within the stake limit, and refuses with
    the limit message when it is above. *)
Theorem max_then_confirm {N : JsNumber} {C : ContractModule}
    (w : oracle) (s : StakingDashboard.State) :
  StakingDashboard.publicClient s = true ->
  (forall staked,
      prop (StakingDashboard.userStats s) "stakedAmount"
      = Some (VBigInt staked) ->
      0 < staked ->
      let s' := StakingDashboard.after s
                  (trace_of w (AmountFields.onMaxUnstake s)) in
      Viem.parseEther (StakingDashboard.unstakeAmount s') = Resolved staked
      /\ exists o rest,
           trace_of w (StakingDashboard.handleUnstake s')
           = EvAct (SetState (setTransactionInProgress true))
             :: EvCall (withdraw_tx staked) o :: rest)
  /\ (forall balance,
        StakingDashboard.braidsBalance s = Some balance ->
        0 < balance ->
        let s' := StakingDashboard.after s
                    (trace_of w (AmountFields.onMaxStake s)) in
        Viem.parseEther (StakingDashboard.stakeAmount s') = Resolved balance
        /\ if balance <=? 10 ^ 24
           then exists o rest,
                  trace_of w (StakingDashboard.handleStake s')
                  = EvAct (SetState (setTransactionInProgress true))
                    :: EvCall (stake_allowance_read s') o :: rest
           else trace_of w (StakingDashboard.handleStake s')
                = stake_refused StakingDashboard.MAX_STAKE_MESSAGE).
Proof.
  intro Hpc. split.
  - intros staked Hst Hpos.
    assert (Hnz : (staked =? 0) = false) by (apply Z.eqb_neq; lia).
    assert (Hp0 : (staked <=? 0) = false) by (apply Z.leb_gt; lia).
    unfold trace_of, AmountFields.onMaxUnstake. rewrite Hst.
    cbn [truthy_opt truthy]. rewrite Hnz.
    cbn [negb run set act fst app StakingDashboard.after fold_left
         StakingDashboard.apply_event StakingDashboard.apply_setter
         StakingDashboard.unstakeAmount].
    change (formatEther_value (VBigInt staked))
      with (Viem.formatEther staked).
    split; [apply parseEther_formatEther; lia |].
    unfold StakingDashboard.handleUnstake.
    cbn [StakingDashboard.unstakeAmount StakingDashboard.userStats].
    rewrite formatEther_not_empty, parseEther_formatEther by lia.
    rewrite Hst. cbn [truthy_opt truthy js_lt to_numeric].
    rewrite Hnz. fold (withdraw_tx staked).
    step. rewrite Hp0, Z.ltb_irrefl. step.
    rest_of_run. simpl. eexists. eexists. reflexivity.
  - intros balance Hb Hpos.
    assert (Hp0 : (balance <=? 0) = false) by (apply Z.leb_gt; lia).
    unfold trace_of, AmountFields.onMaxStake. rewrite Hb.
    cbn [run set act fst app StakingDashboard.after fold_left
         StakingDashboard.apply_event StakingDashboard.apply_setter
         StakingDashboard.stakeAmount].
    split; [apply parseEther_formatEther; lia |].
    unfold StakingDashboard.handleStake, StakingDashboard.handleStake_try,
      StakingDashboard.client, stake_allowance_read,
      StakingDashboard.address_arg.
    cbn [StakingDashboard.stakeAmount StakingDashboard.braidsBalance
         StakingDashboard.publicClient StakingDashboard.address].
    rewrite formatEther_not_empty, parseEther_formatEther, parseEther_limit
      by lia.
    rewrite Hb, Hpc.
    step. rewrite Hp0. step.
    destruct (balance <=? 10 ^ 24) eqn:Hmax.
    + replace (10 ^ 24 <? balance) with false
        by (symmetry; apply Z.ltb_ge; apply Z.leb_le; exact Hmax).
      rewrite Z.ltb_irrefl. step. rest_of_run. simpl. eexists. eexists. reflexivity.
    + replace (10 ^ 24 <? balance) with true
        by (symmetry; apply Z.ltb_lt; apply Z.leb_gt; exact Hmax).
      reflexivity.
Qed.

(** ** The revision with "Exit & Claim All" *)




(** ** More theorems at concrete inputs *)

Lemma fetchData_on_a_funded_pool :
  StakingDashboard.error
    (StakingDashboard.after newcomer
       (trace_of funded_pool
          (@StakingDashboard.fetchData contractModule newcomer)))
  = None.
Proof.
  exact (proj1 (fetchData_never_reports_read_failures funded_pool newcomer
                  "0xuser" eq_refl eq_refl (fun _ => eq_refl))).
Defined.

Lemma handleStake_refuses_zero_and_overdraft :
  trace_of offline
    (@StakingDashboard.handleStake exactNumber contractModule
       (typing_stake staker "0"))
  = stake_refused "Amount must be greater than 0"
  /\ trace_of offline
       (@StakingDashboard.handleStake exactNumber contractModule
          (typing_stake staker "6"))
     = stake_refused "Insufficient BRAIDS balance".
Proof.
  split.
  - apply (proj1 (@handleStake_refuses_locally exactNumber contractModule
                    offline (typing_stake staker "0") 0 eq_refl eq_refl)).
    lia.
  - apply (proj2 (@handleStake_refuses_locally exactNumber contractModule
                    offline (typing_stake staker "6") (6 * 10 ^ 18)
                    eq_refl eq_refl) (5 * 10 ^ 18)).
    + lia.
    + reflexivity.
    + lia.
Defined.

Lemma handleStake_of_one_token :
  exists tl,
    calls (trace_of (granted 0)
             (@StakingDashboard.handleStake exactNumber contractModule staker))
    = EvCall (@stake_allowance_read contractModule staker) (Resolved 0) :: tl
    /\ @approve_then_stake contractModule staker (10 ^ 18) tl.
Proof.
  apply (@handleStake_allowance_then_stake exactNumber contractModule
           (granted 0) staker (10 ^ 18) 0).
  - reflexivity.
  - lia.
  - simpl. lia.
  - reflexivity.
  - intro h. reflexivity.
Defined.

Lemma handleUnstake_of_zero_and_of_too_much :
  trace_of offline
    (@StakingDashboard.handleUnstake exactNumber contractModule
       (typing_unstake staker "0"))
  = unstake_refused "Amount must be greater than 0"
  /\ trace_of offline
       (@StakingDashboard.handleUnstake exactNumber contractModule
          (typing_unstake staker "11"))
     = unstake_refused "Insufficient staked amount"
  /\ exists o rest,
       trace_of offline
         (@StakingDashboard.handleUnstake exactNumber contractModule
            (typing_unstake newcomer "1"))
       = EvAct (SetState (setTransactionInProgress true))
         :: EvCall (@withdraw_tx contractModule (10 ^ 18)) o :: rest.
Proof.
  split; [| split].
  - apply (proj1 (@handleUnstake_checks_the_stake exactNumber contractModule
                    offline (typing_unstake staker "0") 0 eq_refl eq_refl)).
    lia.
  - apply (proj1 (proj2 (@handleUnstake_checks_the_stake exactNumber
                           contractModule offline
                           (typing_unstake staker "11") (11 * 10 ^ 18)
                           eq_refl eq_refl)) (10 ^ 19)).
    + lia.
    + reflexivity.
    + lia.
    + lia.
  - apply (proj2 (proj2 (@handleUnstake_checks_the_stake exactNumber
                           contractModule offline
                           (typing_unstake newcomer "1") (10 ^ 18)
                           eq_refl eq_refl))).
    + lia.
    + left. reflexivity.
Defined.

Lemma handleRestake_of_five_wei :
  @claim_then_stake contractModule (VBigInt 5)
    (calls (trace_of (granted 0)
              (@StakingDashboard.handleRestake contractModule staker))).
Proof.
  apply (@handleRestake_claims_then_stakes contractModule (granted 0) staker 5).
  - reflexivity.
  - lia.
  - reflexivity.
Defined.

Lemma handleClaim_when_offline :
  trace_of offline (@StakingDashboard.handleClaim contractModule staker)
  = [EvAct (SetState (setTransactionInProgress true));
     EvCall (@getReward_tx contractModule) (Rejected (Error "network error"));
     EvAct (ConsoleError "Claim failed:" (Some (Error "network error")));
     EvAct (SetState (setError (Some "Claim failed: network error")));
     EvAct (SetState (setTransactionInProgress false))].
Proof.
  apply (proj2 (@handleClaim_submits_getReward contractModule offline staker 5
                  eq_refl ltac:(lia)) "network error").
  reflexivity.
Defined.

Lemma handlers_release_the_flag_when_offline :
  releases offline staker
    (@StakingDashboard.handleStake exactNumber contractModule staker)
  /\ releases offline staker
       (@StakingDashboard.handleUnstake exactNumber contractModule staker)
  /\ releases offline staker
       (@StakingDashboard.handleClaim contractModule staker)
  /\ releases offline staker
       (@StakingDashboard.handleRestake contractModule staker).
Proof.
  exact (@handlers_release_the_progress_flag exactNumber contractModule
           offline staker reads_complete_contractModule).
Defined.

Lemma retryOperation_budgets_of_zero_and_three :
  run offline (Alchemy.retryOperation (await GetChainId) 0) []
  = ([], Done (Resolved None))
  /\ total_delay
       (trace_of offline (Alchemy.retryOperation (await GetChainId) 3))
     <= 500 * 3 * (3 - 1).
Proof.
  split.
  - apply (proj1 (retryOperation_budget offline GetChainId 0)). lia.
  - apply (proj2 (retryOperation_budget offline GetChainId 3)). lia.
Defined.

Lemma deploy_without_deployer_address :
  run offline (Deploy.main env_no_deployer) []
  = (missing_report env_no_deployer, Exited 1)
  /\ In (missing_line "DEPLOYER_ADDRESS") (missing_report env_no_deployer)
  /\ no_call (missing_report env_no_deployer) = true.
Proof.
  apply (deploy_reports_missing_variables offline env_no_deployer
           "DEPLOYER_ADDRESS").
  - right. right. left. reflexivity.
  - vm_compute. reflexivity.
Defined.



Lemma admin_fetchData_when_roles_resolve :
  errors_shown (trace_of well_funded
                  (@AdminDashboard.fetchData contractModule admin))
  = [None].
Proof.
  exact (proj1 (proj2 (admin_fetchData_roles_all_or_nothing well_funded admin
                         "0xadmin" eq_refl eq_refl (fun _ => eq_refl)))).
Defined.

Lemma fetchData_of_a_funded_pool_rethrowing :
  StakingDashboard.error
    (StakingDashboard.after newcomer
       (trace_of funded_pool
          (@StakingDashboard.fetchData contractModuleThrowing newcomer)))
  = None.
Proof.
  exact (proj1 (proj2 (fetchData_shows_read_failures funded_pool newcomer
                         "0xuser" eq_refl eq_refl (fun _ => eq_refl)))).
Defined.

Lemma typing_twelve_and_a_half :
  @parses exactNumber
    (StakingDashboard.stakeAmount
       (StakingDashboard.after staker
          (trace_of offline (AmountFields.onStakeAmountChange "12.5"))))
  /\ @parses exactNumber
       (StakingDashboard.unstakeAmount
          (StakingDashboard.after staker
             (trace_of offline (AmountFields.onMaxUnstake staker)))).
Proof.
  destruct (@amount_fields_always_parse exactNumber offline staker "12.5")
    as [H1 [_ [_ H4]]].
  - exists (10 ^ 18). reflexivity.
  - exists (10 ^ 18). reflexivity.
  - simpl. lia.
  - intros v Hv. vm_compute in Hv. injection Hv as <-.
    exists (10 ^ 19). split; [reflexivity | lia].
  - split; [exact H1 | exact H4].
Defined.

Lemma max_then_confirm_for_the_staker :
  @Viem.parseEther exactNumber
    (StakingDashboard.unstakeAmount
       (StakingDashboard.after staker
          (trace_of offline (AmountFields.onMaxUnstake staker))))
  = Resolved (10 ^ 19)
  /\ @Viem.parseEther exactNumber
       (StakingDashboard.stakeAmount
          (StakingDashboard.after staker
             (trace_of offline (AmountFields.onMaxStake staker))))
     = Resolved (5 * 10 ^ 18).
Proof.
  pose proof (@max_then_confirm exactNumber contractModule offline staker
                eq_refl) as H.
  destruct H as [Hu Hs].
  assert (Hstaked : prop (StakingDashboard.userStats staker) "stakedAmount"
                    = Some (VBigInt (10 ^ 19))) by (vm_compute; reflexivity).
  assert (Hbalance : StakingDashboard.braidsBalance staker
                     = Some (5 * 10 ^ 18)) by reflexivity.
  assert (Hpos : 0 < 10 ^ 19) by lia.
  assert (Hpos' : 0 < 5 * 10 ^ 18) by lia.
  pose proof (Hu (10 ^ 19) Hstaked Hpos) as H1. cbv zeta in H1.
  pose proof (Hs (5 * 10 ^ 18) Hbalance Hpos') as H2. cbv zeta in H2.
  destruct H1 as [H1 _]. destruct H2 as [H2 _].
  split; [exact H1 | exact H2].
Defined.
